(** * pylon_camera_node: a shallow embedding of [PylonCameraNode]

    The node of [src/pylon_camera/pylon_camera_node.cpp] is embedded as
    functions over an explicit state: the node's member variables, the
    outside world (camera device and ROS runtime, reached only through
    the interface [Ros]) and a trace of the calls the node makes to its
    collaborators (log macros, [ros::shutdown], device writes, publishing).

    - C++ [int] is a 32-bit signed integer; signed overflow is undefined
      behaviour and ends a run with [Crash SignedOverflow].
    - [float] is IEEE binary32, taken from the Standard Library's
      [SpecFloat] at precision 24 and maximal exponent 128.
    - [ros::Time] and [ros::Duration] are counted in nanoseconds.
    - The unbounded [while] loops take a fuel argument. *)

From Stdlib Require Import ZArith List Bool Lia Strings.String Strings.Byte.
From Stdlib Require Import Floats.SpecFloat.
Import ListNotations.
Open Scope Z_scope.

Set Implicit Arguments.

(** ** Outcomes of a run *)

Inductive Fault : Type :=
| AssertionFailed      (* assert(...) with NDEBUG undefined *)
| DivisionByZero       (* integer division by zero *)
| SignedOverflow       (* int arithmetic leaving [INT_MIN, INT_MAX] *)
| FloatToIntRange.     (* (int)f for f not representable in int *)

Inductive outcome (A : Type) : Type :=
| Done (a : A)
| Crash (f : Fault)
| OutOfFuel.

Arguments Done {A} a.
Arguments Crash {A} f.
Arguments OutOfFuel {A}.

(** ** Machine arithmetic *)

Module Cxx.

Definition INT_MAX : Z := 2147483647.
Definition INT_MIN : Z := -2147483648.

Definition in_int (z : Z) : bool := (INT_MIN <=? z) && (z <=? INT_MAX).

(** The result of an [int] operation whose mathematical value is [z]. *)
Definition int_result (z : Z) : outcome Z :=
  if in_int z then Done z else Crash SignedOverflow.

(** [a - b] on int. *)
Definition int_sub (a b : Z) : outcome Z := int_result (a - b).

(** [abs(a)] on int: undefined for INT_MIN. *)
Definition int_abs (a : Z) : outcome Z := int_result (Z.abs a).

(** uint32_t wrap-around, for the [step] field of an image. *)
Definition uint32 (z : Z) : Z := z mod 2 ^ 32.

(** int to size_t (64-bit unsigned), as in the usual arithmetic
    conversions of [int / size_t]. *)
Definition to_size_t (z : Z) : Z := z mod 2 ^ 64.

Definition uint8 (b : byte) : Z := Z.of_N (Byte.to_N b).

(** [std::accumulate(first, last, init)] over uint8_t with an int
    accumulator: [init = init + *first] for each element, in order.
    [None] when an addition overflows int. *)
Fixpoint accumulate (l : list byte) (init : Z) : option Z :=
  match l with
  | [] => Some init
  | b :: l' =>
      let s := init + uint8 b in
      if s <=? INT_MAX then accumulate l' s else None
  end.

(** binary32 *)
Definition float : Type := spec_float.
Definition prec : Z := 24.
Definition emax : Z := 128.

(** Integer to float conversion, round to nearest even. *)
Definition float_of_Z (z : Z) : float := binary_normalize prec emax z 0 false.

(** The integer part of a float, toward zero; [None] for NaN and
    infinities. *)
Definition float_trunc (f : float) : option Z :=
  match f with
  | S754_zero _ => Some 0
  | S754_finite s m e =>
      let a := if 0 <=? e then Zpos m * 2 ^ e else Zpos m / 2 ^ (- e) in
      Some (if s then - a else a)
  | _ => None
  end.

(** [(int)f] *)
Definition int_of_float (f : float) : outcome Z :=
  match float_trunc f with
  | Some z => if in_int z then Done z else Crash FloatToIntRange
  | None => Crash FloatToIntRange
  end.

Definition fsub (a b : float) : float := SFsub prec emax a b.
Definition fabs (a : float) : float := SFabs a.
Definition flt (a b : float) : bool := SFltb a b.
Definition feq (a b : float) : bool := SFeqb a b.
Definition fne (a b : float) : bool := negb (SFeqb a b).

End Cxx.

(** ** Brightness of a pixel buffer

    [PylonCameraNode::calcCurrentBrightness] reads only
    [img_raw_msg_.data]; it is embedded on that buffer, [ndebug] telling
    whether [assert] is compiled out. The sum is accumulated first, then
    the assertion runs, then the division [int / size_t], whose quotient
    is converted to float and back to int. *)

Definition calcCurrentBrightness (ndebug : bool) (data : list byte) : outcome Z :=
  match Cxx.accumulate data 0 with
  | None => Crash SignedOverflow
  | Some sum =>
      let size := Z.of_nat (List.length data) in
      if negb ndebug && negb (0 <? size) then Crash AssertionFailed
      else if size =? 0 then Crash DivisionByZero
      else
        let mean := Cxx.float_of_Z (Cxx.to_size_t sum / size) in
        Cxx.int_of_float mean
  end.


(** ** Messages and node state *)

(** sensor_msgs::Image, with [stamp] for [header.stamp]. *)
Record Image : Type := mkImage {
  encoding : string;
  height : Z;
  width : Z;
  step : Z;
  data : list byte;
  stamp : Z
}.

(** A default-constructed image, as [resize] makes them. *)
Definition empty_image : Image := mkImage EmptyString 0 0 0 [] 0.

(** camera_control_msgs::GrabSequenceResult *)
Record GrabSequenceResult : Type := mkResult {
  images : list Image;
  exposure_times : list Cxx.float;
  success : bool
}.

(** The member variables of [PylonCameraNode] that the embedded methods
    read or write. *)
Record Node : Type := mkNode {
  desired_seq_exp_times_ : list Cxx.float;   (* params_.desired_seq_exp_times_ *)
  img_raw_msg_ : Image;
  cam_info_stamp : Z;                        (* cam_info_msg_.header.stamp *)
  exp_times_stamp : Z;                       (* exp_times_.header.stamp *)
  target_brightness_ : Z;
  brightness_service_running_ : bool;
  is_sleeping_ : bool
}.

Definition set_img_data (d : list byte) (n : Node) : Node :=
  mkNode (desired_seq_exp_times_ n)
         (mkImage (encoding (img_raw_msg_ n)) (height (img_raw_msg_ n))
                  (width (img_raw_msg_ n)) (step (img_raw_msg_ n)) d
                  (stamp (img_raw_msg_ n)))
         (cam_info_stamp n) (exp_times_stamp n) (target_brightness_ n)
         (brightness_service_running_ n) (is_sleeping_ n).

Definition set_img_stamp (t : Z) (n : Node) : Node :=
  mkNode (desired_seq_exp_times_ n)
         (mkImage (encoding (img_raw_msg_ n)) (height (img_raw_msg_ n))
                  (width (img_raw_msg_ n)) (step (img_raw_msg_ n))
                  (data (img_raw_msg_ n)) t)
         (cam_info_stamp n) (exp_times_stamp n) (target_brightness_ n)
         (brightness_service_running_ n) (is_sleeping_ n).

Definition set_cam_info_stamp (t : Z) (n : Node) : Node :=
  mkNode (desired_seq_exp_times_ n) (img_raw_msg_ n) t (exp_times_stamp n)
         (target_brightness_ n) (brightness_service_running_ n) (is_sleeping_ n).

Definition set_exp_times_stamp (t : Z) (n : Node) : Node :=
  mkNode (desired_seq_exp_times_ n) (img_raw_msg_ n) (cam_info_stamp n) t
         (target_brightness_ n) (brightness_service_running_ n) (is_sleeping_ n).

Definition set_target_brightness (b : Z) (n : Node) : Node :=
  mkNode (desired_seq_exp_times_ n) (img_raw_msg_ n) (cam_info_stamp n)
         (exp_times_stamp n) b (brightness_service_running_ n) (is_sleeping_ n).

Definition set_running (b : bool) (n : Node) : Node :=
  mkNode (desired_seq_exp_times_ n) (img_raw_msg_ n) (cam_info_stamp n)
         (exp_times_stamp n) (target_brightness_ n) b (is_sleeping_ n).

Definition set_sleeping (b : bool) (n : Node) : Node :=
  mkNode (desired_seq_exp_times_ n) (img_raw_msg_ n) (cam_info_stamp n)
         (exp_times_stamp n) (target_brightness_ n)
         (brightness_service_running_ n) b.

(** ** The outside world

    The camera ([PylonCamera], reached through [pylon_camera_]) and the
    ROS runtime are not part of the node. They are an interface over a
    state [W]; the node only calls these operations.

    [grab w buf] is [pylon_camera_->grab(buf)]: the returned flag, the
    buffer after the call and the world after the call.
    [spinOnce w n] is [ros::spinOnce()]: queued callbacks run and may
    change the node's members. [rate_sleep hz w] is [r.sleep()] for a
    [ros::Rate r(hz)]. [isAutoBrightnessFunctionRunning] is [None] when
    the device throws [GenICam::AccessException]. *)

Class Ros (W : Type) : Type := {
  NDEBUG : bool;
  time_now : W -> Z;
  ros_ok : W -> bool;
  ros_shutdown : W -> W;
  spinOnce : W -> Node -> W * Node;
  rate_sleep : Z -> W -> W;
  getNumSubscribers : W -> Z;
  grab : W -> list byte -> bool * list byte * W;
  isCamRemoved : W -> bool;
  isReady : W -> bool;
  currentExposure : W -> Cxx.float;
  exposureStep : W -> Cxx.float;
  setExposure : Cxx.float -> W -> W;
  setBrightness : Z -> W -> W;
  isAutoBrightnessFunctionRunning : W -> option bool;
  imageEncoding : W -> string;
  imageRows : W -> Z;
  imageCols : W -> Z;
  imagePixelDepth : W -> Z
}.

(** What a run of a method sends to its collaborators, in order. *)
Inductive Event : Type :=
| ROS_ERROR (msg : string)
| ROS_WARN (msg : string)
| ROS_INFO (msg : string)
| Shutdown                                   (* ros::shutdown() *)
| DeviceSetExposure (target : Cxx.float)     (* pylon_camera_->setExposure *)
| DeviceSetBrightness (target : Z)           (* pylon_camera_->setBrightness *)
| Publish (img : Image) (info_stamp : Z)     (* img_raw_pub_.publish *)
| SetSucceeded (r : GrabSequenceResult).     (* sequence_raw_as_.setSucceeded *)

Definition is_shutdown (e : Event) : bool :=
  match e with Shutdown => true | _ => false end.

Definition is_device_write (e : Event) : bool :=
  match e with
  | DeviceSetExposure _ | DeviceSetBrightness _ => true
  | _ => false
  end.

Definition is_warn_or_info (e : Event) : bool :=
  match e with ROS_WARN _ | ROS_INFO _ => true | _ => false end.

(** The messages of the brightness and exposure services. *)
Definition brightness_info : Event :=
  ROS_INFO "New brightness request for brightness %i, current brightness = %i".

Definition brightness_late : Event :=
  ROS_ERROR "Did not reach the required brightness in time".

Definition exposure_late : Event :=
  ROS_ERROR "Did not reach the required brightness in time".

Definition count (p : Event -> bool) (tr : list Event) : nat :=
  List.length (filter p tr).

(** ** The state monad of the node's methods *)

Section Machine.

Context {W : Type} {R : Ros W}.

Record St : Type := mkSt {
  world : W;
  node : Node;
  trace : list Event
}.

Definition M (A : Type) : Type := St -> outcome (A * St).

Definition ret {A} (a : A) : M A := fun s => Done (a, s).

Definition bind {A B} (m : M A) (k : A -> M B) : M B :=
  fun s =>
    match m s with
    | Done (a, s') => k a s'
    | Crash f => Crash f
    | OutOfFuel => OutOfFuel
    end.

Definition out_of_fuel {A} : M A := fun _ => OutOfFuel.

Definition lift {A} (o : outcome A) : M A :=
  fun s =>
    match o with
    | Done a => Done (a, s)
    | Crash f => Crash f
    | OutOfFuel => OutOfFuel
    end.

Definition ask {A} (f : W -> A) : M A := fun s => Done (f (world s), s).

Definition member {A} (f : Node -> A) : M A := fun s => Done (f (node s), s).

Definition act (f : W -> W) : M unit :=
  fun s => Done (tt, mkSt (f (world s)) (node s) (trace s)).

Definition assign (f : Node -> Node) : M unit :=
  fun s => Done (tt, mkSt (world s) (f (node s)) (trace s)).

Definition emit (e : Event) : M unit :=
  fun s => Done (tt, mkSt (world s) (node s) (trace s ++ [e])).

End Machine.

Arguments St W : clear implicits.
Arguments M W A : clear implicits.

Declare Scope node_scope.
Delimit Scope node_scope with node.
Notation "x <- m ;; k" := (bind m (fun x => k))
  (at level 61, m at next level, right associativity) : node_scope.
Notation "m ;; k" := (bind m (fun _ => k))
  (at level 61, right associativity) : node_scope.
Open Scope node_scope.

(** ** The methods of [PylonCameraNode] *)

Section Methods.

Context {W : Type} {R : Ros W}.

Definition seconds (s : Z) : Z := s * 1000000000.

(** [ros::Time::now() - start > ros::Duration(d)] *)
Definition elapsed_over (start d : Z) : M W bool :=
  t <- ask time_now ;;
  ret (t - start >? d).

Definition ros_spinOnce : M W unit :=
  fun s =>
    let '(w', n') := spinOnce (world s) (node s) in
    Done (tt, mkSt w' n' (trace s)).

Definition ros_shutdown_call : M W unit :=
  act ros_shutdown ;; emit Shutdown.

(** [pylon_camera_->grab(buf)]: the flag and the buffer afterwards. *)
Definition camera_grab (buf : list byte) : M W (bool * list byte) :=
  fun s =>
    let '(ok, buf', w') := grab (world s) buf in
    Done ((ok, buf'), mkSt w' (node s) (trace s)).

Definition calcCurrentBrightnessM : M W Z :=
  d <- member (fun n => data (img_raw_msg_ n)) ;;
  lift (calcCurrentBrightness NDEBUG d).

Definition checkForPylonAutoFunctionRunning : M W bool :=
  r <- ask isAutoBrightnessFunctionRunning ;;
  match r with
  | Some b => assign (set_running b) ;; ret true
  | None => ret false               (* the exception leaves the member as it was *)
  end.

(** Lines 141-160. *)
Definition grabImage : M W bool :=
  buf <- member (fun n => data (img_raw_msg_ n)) ;;
  r <- camera_grab buf ;;
  assign (set_img_data (snd r)) ;;
  if negb (fst r) then
    removed <- ask isCamRemoved ;;
    (if removed : bool then
       emit (ROS_ERROR "Pylon Camera has been removed!") ;;
       ros_shutdown_call
     else
       emit (ROS_WARN "Pylon Interface returned invalid image! Skipping")) ;;
    ret false
  else
    t <- ask time_now ;;
    assign (set_img_stamp t) ;;
    t' <- member (fun n => stamp (img_raw_msg_ n)) ;;
    assign (set_cam_info_stamp t') ;;
    ret true.

(** The [for] loop of [grabSequence], lines 168-188: [todo] iterations
    are left, the next one has index [i]; [success] and [tmp_image] are
    the locals declared before the loop. The value is [success] after it. *)
Fixpoint grabSequence_loop (todo : nat) (i mid : nat) (success : bool)
    (tmp_image : list byte) : M W bool :=
  match todo with
  | O => ret success
  | S todo' =>
      r <- camera_grab tmp_image ;;
      success' <-
        (if negb (fst r) then
           removed <- ask isCamRemoved ;;
           (if removed : bool then
              emit (ROS_ERROR "Pylon Camera has been removed!") ;;
              ros_shutdown_call
            else
              emit (ROS_INFO "Pylon Interface returned NULL-Pointer!")) ;;
           ret false
         else ret success) ;;
      (if Nat.eqb i mid && success' then
         assign (set_img_data (snd r)) ;;
         t <- ask time_now ;;
         assign (set_img_stamp t)
       else ret tt) ;;
      grabSequence_loop todo' (S i) mid success' (snd r)
  end.

(** Lines 162-195. *)
Definition grabSequence : M W bool :=
  size <- member (fun n => List.length (desired_seq_exp_times_ n)) ;;
  let mid := Nat.div size 2 in
  success <- grabSequence_loop size 0 mid true [] ;;
  if negb success then ret false
  else
    t <- member (fun n => stamp (img_raw_msg_ n)) ;;
    assign (set_cam_info_stamp t) ;;
    assign (set_exp_times_stamp t) ;;
    ret true.

(** Lines 197-214. *)
Definition spin : M W unit :=
  subs <- ask getNumSubscribers ;;
  sleeping <- member is_sleeping_ ;;
  if (subs >? 0) && negb sleeping then
    checkForPylonAutoFunctionRunning ;;
    ok <- grabImage ;;
    if ok : bool then
      img <- member img_raw_msg_ ;;
      info <- member cam_info_stamp ;;
      emit (Publish img info)
    else ret tt
  else ret tt.

(** [v[i] = f (v[i])] for [i] inside the vector. *)
Fixpoint update_at {A} (i : nat) (f : A -> A) (v : list A) : list A :=
  match v, i with
  | [], _ => []
  | x :: v', O => f x :: v'
  | x :: v', S i' => x :: update_at i' f v'
  end.

(** The [for] loop of [sequenceRawActionExecuteCB], lines 224-238. *)
Fixpoint sequenceRaw_loop (todo : nat) (i : nat) (result : GrabSequenceResult)
    : M W GrabSequenceResult :=
  match todo with
  | O => ret result
  | S todo' =>
      enc <- ask imageEncoding ;;
      rows <- ask imageRows ;;
      cols <- ask imageCols ;;
      depth <- ask imagePixelDepth ;;
      let img := nth i (images result) empty_image in
      let w := Cxx.uint32 cols in
      r <- camera_grab (data img) ;;
      let success' := if negb (fst r) then false else success result in
      t <- ask time_now ;;
      let img' := mkImage enc (Cxx.uint32 rows) w (Cxx.uint32 (w * depth))
                          (snd r) t in
      sequenceRaw_loop todo' (S i)
        (mkResult (update_at i (fun _ => img') (images result))
                  (exposure_times result) success')
  end.

(** Lines 217-246. *)
Definition sequenceRawActionExecuteCB : M W unit :=
  times <- member desired_seq_exp_times_ ;;
  let size := List.length times in
  result <- sequenceRaw_loop size 0 (mkResult (repeat empty_image size) times true) ;;
  let result' :=
    if negb (success result)
    then mkResult [] (exposure_times result) (success result)
    else result in
  emit (SetSucceeded result').

(** The [while (ros::ok())] loop of [setExposureCallback], lines 269-289.
    The value is [res.success] when the callback returns; [res_success]
    is its value on entry to an iteration. *)
Fixpoint setExposure_loop (fuel : nat) (target : Cxx.float) (start : Z)
    (res_success : bool) : M W bool :=
  match fuel with
  | O => out_of_fuel
  | S fuel' =>
      ok <- ask ros_ok ;;
      if negb ok then ret res_success
      else
        current_exposure <- ask currentExposure ;;
        step <- ask exposureStep ;;
        let ok' := Cxx.flt (Cxx.fabs (Cxx.fsub current_exposure target)) step in
        if ok' then ret true
        else
          late <- elapsed_over start (seconds 5) ;;
          if late : bool then
            emit (ROS_ERROR "Did not reach the required brightness in time") ;;
            ret false
          else
            ros_spinOnce ;;
            act (rate_sleep 5) ;;
            setExposure_loop fuel' target start ok'
  end.

(** Lines 249-292. The callback returns [true] on every path; the value
    here is [res.success], [false] in a fresh response. *)
Definition setExposureCallback (fuel : nat) (target_exposure : Cxx.float)
    : M W bool :=
  ready <- ask isReady ;;
  if negb ready then ret false
  else
    current_exposure <- ask currentExposure ;;
    (if Cxx.fne current_exposure target_exposure then
       act (setExposure target_exposure) ;;
       emit (DeviceSetExposure target_exposure)
     else ret tt) ;;
    start <- ask time_now ;;
    setExposure_loop fuel target_exposure start false.

(** The readiness wait of [setBrightnessCallback], lines 303-313:
    [Some false] when the callback returns from inside the loop,
    [None] when the loop is left. *)
Fixpoint waitReady_loop (fuel : nat) (start : Z) : M W (option bool) :=
  match fuel with
  | O => out_of_fuel
  | S fuel' =>
      ok <- ask ros_ok ;;
      ready <- ask isReady ;;
      if ok && negb ready then
        late <- elapsed_over start (seconds 3) ;;
        if late : bool then
          emit (ROS_ERROR "Pylon Interface has not yet grabbed an image, although waiting for 3 seconds!") ;;
          ret (Some false)
        else
          ros_spinOnce ;;
          act (rate_sleep 2) ;;
          waitReady_loop fuel' start
      else ret None
  end.

(** Lines 337-345. *)
Definition brightness_duration (target_brightness : Z) : Z :=
  if target_brightness >? 205 then seconds 15 else seconds 5.

(** The wait on the liveness flag, lines 348-359: [Some false] when the
    callback returns from inside the loop, [None] when the loop is left. *)
Fixpoint brightnessWait_loop (fuel : nat) (start duration : Z)
    : M W (option bool) :=
  match fuel with
  | O => out_of_fuel
  | S fuel' =>
      ok <- ask ros_ok ;;
      running <- member brightness_service_running_ ;;
      if ok && running then
        late <- elapsed_over start duration ;;
        if late : bool then
          emit (ROS_ERROR "Did not reach the required brightness in time") ;;
          assign (set_running false) ;;
          ret (Some false)
        else
          ros_spinOnce ;;
          act (rate_sleep 5) ;;
          brightnessWait_loop fuel' start duration
      else ret None
  end.

(** Lines 365-373. *)
Definition brightnessValidation (target : Z) : M W bool :=
  mean <- calcCurrentBrightnessM ;;
  d <- lift (Cxx.int_sub target mean) ;;
  a <- lift (Cxx.int_abs d) ;;
  if a >? 2 then ret false else ret true.

(** Lines 316-363: the callback once the device is ready. *)
Definition setBrightness_ready (fuel : nat) (target_brightness : Z) : M W bool :=
  ros_spinOnce ;;
  current_brightness <- calcCurrentBrightnessM ;;
  emit (ROS_INFO "New brightness request for brightness %i, current brightness = %i") ;;
  assign (set_target_brightness target_brightness) ;;
  assign (set_running true) ;;
  target <- member target_brightness_ ;;
  if negb (current_brightness =? target) then
    act (setBrightness target) ;;
    emit (DeviceSetBrightness target) ;;
    let duration := brightness_duration target in
    start <- ask time_now ;;
    r <- brightnessWait_loop fuel start duration ;;
    match r with
    | Some res_success => ret res_success
    | None => brightnessValidation target_brightness
    end
  else ret true.

(** Lines 299-314: [Some false] when the callback returns from inside
    the wait, [None] when control reaches line 316. *)
Definition waitReady (fuel : nat) : M W (option bool) :=
  ready <- ask isReady ;;
  if negb ready then
    start <- ask time_now ;;
    waitReady_loop fuel start
  else ret None.

(** Lines 294-363. The callback returns [true] on every path; the value
    here is [res.success]. *)
Definition setBrightnessCallback (fuel : nat) (target_brightness : Z) : M W bool :=
  r <- waitReady fuel ;;
  match r with
  | Some res_success => ret res_success
  | None => setBrightness_ready fuel target_brightness
  end.

(** Lines 390-405. *)
Definition setSleepingCallback (set_sleeping_req : bool) : M W bool :=
  assign (set_sleeping set_sleeping_req) ;;
  sleeping <- member is_sleeping_ ;;
  (if sleeping : bool then emit (ROS_INFO "Seting Pylon Camera Node to sleep...")
   else emit (ROS_INFO "Pylon Camera Node continues grabbing")) ;;
  ret true.

End Methods.

(** ** Runs of the outside world

    These follow the world alone, without the node's bookkeeping; the
    theorems below relate the methods to them. *)

Section Runs.

Context {W : Type} {R : Ros W}.

(** One [ros::spinOnce(); r.sleep();] at rate [hz]. *)
Definition poll (hz : Z) (s : W * Node) : W * Node :=
  let '(w', n') := spinOnce (fst s) (snd s) in (rate_sleep hz w', n').

(** The world and the node after [k] polls. *)
Fixpoint polls (hz : Z) (k : nat) (s : W * Node) : W * Node :=
  match k with
  | O => s
  | S k' => poll hz (polls hz k' s)
  end.

(** [k] successive grabs with the buffer handed from one grab to the
    next, as [grabSequence] does with [tmp_image]: for each grab its
    flag, the buffer after it and the world after it. *)
Fixpoint burst (k : nat) (w : W) (buf : list byte)
    : list (bool * list byte * W) :=
  match k with
  | O => []
  | S k' =>
      let '(ok, buf', w') := grab w buf in
      (ok, buf', w') :: burst k' w' buf'
  end.

(** [k] successive grabs, each into the empty buffer of a fresh image, as
    [sequenceRawActionExecuteCB] does: the flags. *)
Fixpoint fresh_grabs (k : nat) (w : W) : list bool :=
  match k with
  | O => []
  | S k' =>
      let '(ok, _, w') := grab w [] in
      ok :: fresh_grabs k' w'
  end.

(** Every grab of a burst returned true. *)
Definition all_ok (l : list (bool * list byte * W)) : Prop :=
  forall r, In r l -> fst (fst r) = true.

(** [setBrightnessCallback] between line 316 and the wait loop, when the
    first measurement differs from the target: the world and the node on
    entry to the loop. *)
Definition brightness_entry (target : Z) (s : W * Node) : W * Node :=
  let '(w1, n1) := spinOnce (fst s) (snd s) in
  (setBrightness target w1, set_running true (set_target_brightness target n1)).

(** The brightness measured at line 319, after the [spinOnce] of line 317. *)
Definition first_measure (s : W * Node) : outcome Z :=
  calcCurrentBrightness NDEBUG
    (data (img_raw_msg_ (snd (spinOnce (fst s) (snd s))))).

(** The three ways an iteration of the wait on the liveness flag can go,
    read off the world and the node at the loop head: the loop is left,
    the deadline has passed, or the loop goes round once more. *)
Definition released (s : W * Node) : bool :=
  negb (ros_ok (fst s) && brightness_service_running_ (snd s)).

Definition expired (start duration : Z) (s : W * Node) : bool :=
  ros_ok (fst s) && brightness_service_running_ (snd s) &&
  (time_now (fst s) - start >? duration).

Definition waiting (start duration : Z) (s : W * Node) : bool :=
  ros_ok (fst s) && brightness_service_running_ (snd s) &&
  negb (time_now (fst s) - start >? duration).

(** The world on entry to the wait loop of [setExposureCallback]. *)
Definition exposure_entry (target : Cxx.float) (w : W) : W :=
  if Cxx.fne (currentExposure w) target then setExposure target w else w.

End Runs.

(** ** Reference arithmetic for the brightness estimate *)

(** The sum of the pixel bytes, as a mathematical integer. *)
Definition pixel_sum (d : list byte) : Z :=
  fold_right (fun b acc => Cxx.uint8 b + acc) 0 d.

(** The mean of the pixel bytes truncated to an integer. *)
Definition truncated_mean (d : list byte) : Z :=
  pixel_sum d / Z.of_nat (List.length d).

(** The mean of the pixel bytes rounded to the nearest integer, halves
    upwards: [floor (sum / n + 1/2)]. *)
Definition rounded_mean (d : list byte) : Z :=
  (2 * pixel_sum d + Z.of_nat (List.length d)) / (2 * Z.of_nat (List.length d)).

(** The conversion to float and back returns [q]. *)
Definition roundtrip_ok (q : Z) : bool :=
  match Cxx.int_of_float (Cxx.float_of_Z q) with
  | Done z => z =? q
  | _ => false
  end.

(** The images of a result vector from index [i] on are still the empty
    ones that [resize] made. *)
Definition blank_from (i : nat) (v : list Image) : Prop :=
  forall j, (i <= j)%nat -> data (nth j v empty_image) = [].

(** ** A scripted world

    A camera rig whose behaviour is fixed in advance: [feed] lists the
    outcome of the coming grabs (a frame, or a failure that leaves the
    buffer as it is), [auto_done_at] is the time from which the device's
    auto function has finished, seen by the node at the next
    [spinOnce]. A grab takes 10 ms, a sleep at [hz] takes [1/hz] s. *)

Record Rig : Type := mkRig {
  clock : Z;
  alive : bool;
  subscribers : Z;
  feed : list (option (list byte));
  removed : bool;
  ready : bool;
  exposure : Cxx.float;
  exposure_step : Cxx.float;
  auto_done_at : option Z
}.

Definition rig_grab (w : Rig) (buf : list byte) : bool * list byte * Rig :=
  let w' f := mkRig (clock w + 10000000) (alive w) (subscribers w) f
                    (removed w) (ready w) (exposure w) (exposure_step w)
                    (auto_done_at w) in
  match feed w with
  | Some frame :: f => (true, frame, w' f)
  | None :: f => (false, buf, w' f)
  | [] => (false, buf, w' [])
  end.

Definition rig_auto_running (w : Rig) : bool :=
  match auto_done_at w with
  | Some t => clock w <? t
  | None => true
  end.

Definition rig_spinOnce (w : Rig) (n : Node) : Rig * Node :=
  if rig_auto_running w then (w, n) else (w, set_running false n).

Definition rig_sleep (hz : Z) (w : Rig) : Rig :=
  mkRig (clock w + 1000000000 / hz) (alive w) (subscribers w) (feed w)
        (removed w) (ready w) (exposure w) (exposure_step w) (auto_done_at w).

Definition rig_shutdown (w : Rig) : Rig :=
  mkRig (clock w) false (subscribers w) (feed w) (removed w) (ready w)
        (exposure w) (exposure_step w) (auto_done_at w).

Definition rig_setExposure (t : Cxx.float) (w : Rig) : Rig :=
  mkRig (clock w) (alive w) (subscribers w) (feed w) (removed w) (ready w)
        t (exposure_step w) (auto_done_at w).

#[export] Instance RigRos : Ros Rig := {|
  NDEBUG := false;
  time_now := clock;
  ros_ok := alive;
  ros_shutdown := rig_shutdown;
  spinOnce := rig_spinOnce;
  rate_sleep := rig_sleep;
  getNumSubscribers := subscribers;
  grab := rig_grab;
  isCamRemoved := removed;
  isReady := ready;
  currentExposure := exposure;
  exposureStep := exposure_step;
  setExposure := rig_setExposure;
  setBrightness := fun _ w => w;
  isAutoBrightnessFunctionRunning := fun w => Some (rig_auto_running w);
  imageEncoding := fun _ => "mono8"%string;
  imageRows := fun _ => 1;
  imageCols := fun _ => 1;
  imagePixelDepth := fun _ => 1
|}.

(** A rig with a live ROS runtime, a ready camera at exposure 100.0
    with step 1.0, and the given feed. *)
Definition rig (f : list (option (list byte))) (gone : bool)
    (done_at : option Z) : Rig :=
  mkRig 0 true 1 f gone true (Cxx.float_of_Z 100) (Cxx.float_of_Z 1) done_at.

(** A node configured for [n] exposures whose last published frame is
    [frame], stamped [-1]. *)
Definition node0 (n : nat) (frame : list byte) : Node :=
  mkNode (repeat (Cxx.float_of_Z 1) n)
         (mkImage "mono8" 1 1 1 frame (-1)) (-1) (-1) (-42) false false.

Definition start (w : Rig) (n : Node) : St Rig := mkSt w n [].

(** 100.5 in binary32. *)
Definition f100_5 : Cxx.float := binary_normalize Cxx.prec Cxx.emax 201 (-1) false.

(** The frame reads 100 and the target is 101; the auto function never
    reports that it is done. *)
Definition stuck : St Rig := start (rig [] false None) (node0 0 [x64]).

(** The auto function reports that it is done one second after the
    start: the flag clears at the sixth poll. *)
Definition settling : St Rig :=
  start (rig [] false (Some 1000000000)) (node0 0 [x64]).

(** The smallest all-white buffer whose byte sum leaves the int range. *)
Definition white_buffer : list byte := repeat xff (Z.to_nat 8421505).

(** ** More runs of the outside world *)

Section MoreRuns.

Context {W : Type} {R : Ros W}.

(** The test of line 273 in world [w]: the exposure read from the device
    is within one exposure step of the target. *)
Definition within_step (target : Cxx.float) (w : W) : bool :=
  Cxx.flt (Cxx.fabs (Cxx.fsub (currentExposure w) target)) (exposureStep w).

(** The three ways an iteration of the exposure wait can go on from a
    world in which [ros::ok()] holds and the exposure is not yet within
    one step: the deadline of 5 s has passed or not. *)
Definition exposure_pending (target : Cxx.float) (start : Z) (s : W * Node) : bool :=
  ros_ok (fst s) && negb (within_step target (fst s)) &&
  negb (time_now (fst s) - start >? seconds 5).

Definition exposure_expired (target : Cxx.float) (start : Z) (s : W * Node) : bool :=
  ros_ok (fst s) && negb (within_step target (fst s)) &&
  (time_now (fst s) - start >? seconds 5).

(** The readiness wait of [setBrightnessCallback] at a loop head. *)
Definition unready (s : W * Node) : bool :=
  ros_ok (fst s) && negb (isReady (fst s)).

Definition ready_pending (start : Z) (s : W * Node) : bool :=
  unready s && negb (time_now (fst s) - start >? seconds 3).

Definition ready_expired (start : Z) (s : W * Node) : bool :=
  unready s && (time_now (fst s) - start >? seconds 3).

Definition ready_late : Event :=
  ROS_ERROR "Pylon Interface has not yet grabbed an image, although waiting for 3 seconds!".

(** [k] successive grabs as [grabSequence] makes them, the buffer handed
    on and the shutdown taking effect after a failed grab on a removed
    device: for each grab its flag and whether the device reported
    removed after it. *)
Fixpoint burst_report (k : nat) (w : W) (buf : list byte) : list (bool * bool) :=
  match k with
  | O => []
  | S k' =>
      let '(ok, buf', w') := grab w buf in
      let gone := isCamRemoved w' in
      let w'' := if negb ok && gone then ros_shutdown w' else w' in
      (ok, gone) :: burst_report k' w'' buf'
  end.

(** What [grabSequence] logs for one grab. *)
Definition grab_log (r : bool * bool) : list Event :=
  if fst r then []
  else if snd r then [ROS_ERROR "Pylon Camera has been removed!"; Shutdown]
  else [ROS_INFO "Pylon Interface returned NULL-Pointer!"].

(** The images of [k] successive grabs, each into a fresh image, with the
    metadata read before the grab and the time read after it. *)
Fixpoint fresh_frames (k : nat) (w : W) : list Image :=
  match k with
  | O => []
  | S k' =>
      let '(_, buf', w') := grab w [] in
      mkImage (imageEncoding w) (Cxx.uint32 (imageRows w)) (Cxx.uint32 (imageCols w))
              (Cxx.uint32 (Cxx.uint32 (imageCols w) * imagePixelDepth w))
              buf' (time_now w')
      :: fresh_frames k' w'
  end.

(** What [setExposureCallback] has sent to the device on entry to its wait loop. *)
Definition exposure_writes (target : Cxx.float) (w : W) : list Event :=
  if Cxx.feq (currentExposure w) target then [] else [DeviceSetExposure target].

(** The members after the probe of the auto function: what the device
    says, or the old value when the probe throws. *)
Definition probed (st : St W) : Node :=
  match isAutoBrightnessFunctionRunning (world st) with
  | Some b => set_running b (node st)
  | None => node st
  end.

End MoreRuns.

(** ** Start-up: [init], [initAndRegister], [startGrabbing]

    The start-up methods touch members and collaborators that the grab
    and service methods do not: the parameters, the camera-info message,
    the service and action servers, the parameter server. They are
    embedded over a session that carries the [Node] and those members,
    by explicit state passing; none of them loops or can crash.
    [desired_frame_rate_] is a double; only comparisons and copies are
    made with it. *)

Definition double : Type := spec_float.

Definition double_of_Z (z : Z) : double := binary_normalize 53 1024 z 0 false.

(** The fields of [params_] read at start-up; the exposure list is the
    one of the [Node]. *)
Record Params : Type := mkParams {
  use_sequencer_ : bool;
  magazino_cam_id_ : string;
  camera_frame_ : string;
  desired_frame_rate_ : double
}.

(** sensor_msgs::CameraInfo, without the stamp kept in the [Node]. *)
Record CameraInfo : Type := mkCameraInfo {
  info_frame_id : string;
  info_height : Z;
  info_width : Z;
  distortion_model : string
}.

Record Session : Type := mkSession {
  params_ : Params;
  members : Node;
  cam_info_msg_ : CameraInfo;
  img_frame_id : string;                 (* img_raw_msg_.header.frame_id *)
  exp_times_frame_id : string;           (* exp_times_.header.frame_id *)
  exp_times_list : list Cxx.float;       (* exp_times_.exp_times *)
  pylon_camera_ : bool                   (* pylon_camera_ != NULL *)
}.

(** The collaborators of start-up. [create id w] tells whether
    [PylonCamera::create] returned a camera; the two device calls take
    [params_] by reference and return their flag and the parameters
    after the call. *)
Class Startup (W : Type) : Type := {
  create : string -> W -> bool * W;
  registerCameraConfiguration : Params -> W -> bool * Params * W;
  camera_startGrabbing : Params -> W -> bool * Params * W;
  maxPossibleFramerate : W -> double;
  setImageSize : Z -> W -> W;
  setParam : string -> double -> W -> W;
  advertiseService : string -> W -> W;
  action_server_start : W -> W
}.

(** What start-up sends to its collaborators, in order. *)
Inductive BootEvent : Type :=
| Logged (e : Event)                       (* ROS_ERROR, ROS_INFO, ros::shutdown *)
| Advertised (service : string)            (* nh_.advertiseService *)
| ActionStarted                            (* sequence_raw_as_.start() *)
| ParamSet (name : string) (v : double)    (* nh_.setParam *)
| ImageSizeSet (size : Z).                 (* pylon_camera_->setImageSize *)

(** How a start-up method ends: it returns, or it calls through
    [pylon_camera_] while that pointer is NULL. *)
Inductive boot_result (A : Type) : Type :=
| Booted (a : A)
| NullCamera.

Arguments Booted {A} a.
Arguments NullCamera {A}.

Definition is_boot_shutdown (e : BootEvent) : bool :=
  match e with Logged Shutdown => true | _ => false end.

Definition is_advertised (e : BootEvent) : bool :=
  match e with Advertised _ => true | _ => false end.

Definition is_action_started (e : BootEvent) : bool :=
  match e with ActionStarted => true | _ => false end.

Definition is_param_set (e : BootEvent) : bool :=
  match e with ParamSet _ _ => true | _ => false end.

Section Boot.

Context {W : Type} {R : Ros W} {B : Startup W}.

Record BootSt : Type := mkBootSt {
  bworld : W;
  session : Session;
  blog : list BootEvent
}.

Definition boot_log (e : BootEvent) (s : BootSt) : BootSt :=
  mkBootSt (bworld s) (session s) (blog s ++ [e]).

Definition boot_act (f : W -> W) (s : BootSt) : BootSt :=
  mkBootSt (f (bworld s)) (session s) (blog s).

Definition boot_advertise (name : string) (s : BootSt) : BootSt :=
  boot_log (Advertised name) (boot_act (advertiseService name) s).

Definition boot_shutdown (s : BootSt) : BootSt :=
  boot_log (Logged Shutdown) (boot_act ros_shutdown s).

Definition with_params (p : Params) (x : Session) : Session :=
  mkSession p (members x) (cam_info_msg_ x) (img_frame_id x)
            (exp_times_frame_id x) (exp_times_list x) (pylon_camera_ x).

Definition with_camera (c : bool) (x : Session) : Session :=
  mkSession (params_ x) (members x) (cam_info_msg_ x) (img_frame_id x)
            (exp_times_frame_id x) (exp_times_list x) c.

Definition with_frame_rate (r : double) (p : Params) : Params :=
  mkParams (use_sequencer_ p) (magazino_cam_id_ p) (camera_frame_ p) r.

(** Lines 56-87. *)
Definition initAndRegister (s : BootSt) : bool * BootSt :=
  let s1 :=
    if negb (use_sequencer_ (params_ (session s))) then
      boot_advertise "set_brightness_srv" (boot_advertise "set_exposure_srv" s)
    else s in
  let '(made, w2) := create (magazino_cam_id_ (params_ (session s1))) (bworld s1) in
  let s2 := mkBootSt w2 (with_camera made (session s1)) (blog s1) in
  if negb made then
    (false, boot_log (Logged (ROS_ERROR "Error while initializing the Pylon Interface")) s2)
  else
    let '(registered, p3, w3) :=
      registerCameraConfiguration (params_ (session s2)) (bworld s2) in
    let s3 := mkBootSt w3 (with_params p3 (session s2)) (blog s2) in
    if negb registered then
      (false,
       boot_log (Logged (ROS_ERROR "Error while registering the camera configuration")) s3)
    else if use_sequencer_ (params_ (session s3)) then
      (true, boot_log ActionStarted (boot_act action_server_start s3))
    else (true, s3).

(** The frame-rate settings of [startGrabbing], lines 97-110. *)
Definition limit_frame_rate (s : BootSt) : BootSt :=
  let max := maxPossibleFramerate (bworld s) in
  let desired := desired_frame_rate_ (params_ (session s)) in
  if SFltb max desired then
    let s1 := boot_log (Logged (ROS_INFO "Desired framerate %.2f is higher than max possible. Will limit framerate to: %.2f Hz")) s in
    let s2 := mkBootSt (bworld s1)
                (with_params (with_frame_rate max (params_ (session s1))) (session s1))
                (blog s1) in
    boot_log (ParamSet "desired_framerate" max)
             (boot_act (setParam "desired_framerate" max) s2)
  else if SFeqb desired (double_of_Z (-1)) then
    let s1 := mkBootSt (bworld s)
                (with_params (with_frame_rate max (params_ (session s))) (session s))
                (blog s) in
    boot_log (Logged (ROS_INFO "Max possible framerate is %.2f Hz")) s1
  else s.

(** The messages of [startGrabbing], lines 112-136. *)
Definition fill_messages (s : BootSt) : BootSt :=
  let w := bworld s in
  let x := session s in
  let frame := camera_frame_ (params_ x) in
  let now := time_now w in
  let rows := Cxx.uint32 (imageRows w) in
  let cols := Cxx.uint32 (imageCols w) in
  let step' := Cxx.uint32 (cols * imagePixelDepth w) in
  let n := members x in
  let img := mkImage (imageEncoding w) rows cols step' (data (img_raw_msg_ n)) now in
  let n' := mkNode (desired_seq_exp_times_ n) img now now (target_brightness_ n)
                   (brightness_service_running_ n) (is_sleeping_ n) in
  let size := Cxx.uint32 (step' * rows) in
  let times :=
    if use_sequencer_ (params_ x) then desired_seq_exp_times_ n
    else exp_times_list x in
  boot_log (ImageSizeSet size)
    (mkBootSt (setImageSize size w)
       (mkSession (params_ x) n' (mkCameraInfo frame rows cols "plumb_bob")
                  frame frame times (pylon_camera_ x))
       (blog s)).

(** Lines 89-139. Line 91 calls through [pylon_camera_] without a test:
    with a NULL pointer the run ends there, in [NullCamera]. *)
Definition startGrabbing (s : BootSt) : boot_result (bool * BootSt) :=
  if negb (pylon_camera_ (session s)) then NullCamera
  else
    let '(started, p1, w1) :=
      camera_startGrabbing (params_ (session s)) (bworld s) in
    let s1 := mkBootSt w1 (with_params p1 (session s)) (blog s) in
    if negb started then
      Booted (false, boot_log (Logged (ROS_ERROR "Error while start grabbing")) s1)
    else Booted (true, fill_messages (limit_frame_rate s1)).

(** Lines 40-54. *)
Definition init (s : BootSt) : boot_result (bool * BootSt) :=
  let '(registered, s1) := initAndRegister s in
  if negb registered then Booted (false, boot_shutdown s1)
  else
    match startGrabbing s1 with
    | NullCamera => NullCamera
    | Booted (started, s2) =>
        if negb started then Booted (false, boot_shutdown s2)
        else Booted (true, s2)
    end.

End Boot.

Arguments BootSt W : clear implicits.

(** ** A scripted world for start-up

    A [Rig] together with what the device says at start-up: whether a
    camera is found, whether it takes the configuration, whether it
    starts grabbing, its maximal frame rate and its image geometry. *)

Record Bench : Type := mkBench {
  base : Rig;
  camera_found : bool;
  configuration_taken : bool;
  grabbing_started : bool;
  max_rate : double;
  rows_cols_depth : Z * Z * Z
}.

Definition on_base (f : Rig -> Rig) (b : Bench) : Bench :=
  mkBench (f (base b)) (camera_found b) (configuration_taken b)
          (grabbing_started b) (max_rate b) (rows_cols_depth b).

#[export] Instance BenchRos : Ros Bench := {|
  NDEBUG := false;
  time_now := fun b => clock (base b);
  ros_ok := fun b => alive (base b);
  ros_shutdown := on_base rig_shutdown;
  spinOnce := fun b n =>
    (on_base (fun w => fst (rig_spinOnce w n)) b, snd (rig_spinOnce (base b) n));
  rate_sleep := fun hz => on_base (rig_sleep hz);
  getNumSubscribers := fun b => subscribers (base b);
  grab := fun b buf =>
    (fst (fst (rig_grab (base b) buf)), snd (fst (rig_grab (base b) buf)),
     on_base (fun w => snd (rig_grab w buf)) b);
  isCamRemoved := fun b => removed (base b);
  isReady := fun b => ready (base b);
  currentExposure := fun b => exposure (base b);
  exposureStep := fun b => exposure_step (base b);
  setExposure := fun t => on_base (rig_setExposure t);
  setBrightness := fun _ b => b;
  isAutoBrightnessFunctionRunning := fun b => Some (rig_auto_running (base b));
  imageEncoding := fun _ => "mono8"%string;
  imageRows := fun b => fst (fst (rows_cols_depth b));
  imageCols := fun b => snd (fst (rows_cols_depth b));
  imagePixelDepth := fun b => snd (rows_cols_depth b)
|}.

#[export] Instance BenchStartup : Startup Bench := {|
  create := fun _ b => (camera_found b, b);
  registerCameraConfiguration := fun p b => (configuration_taken b, p, b);
  camera_startGrabbing := fun p b => (grabbing_started b, p, b);
  maxPossibleFramerate := max_rate;
  setImageSize := fun _ b => b;
  setParam := fun _ _ b => b;
  advertiseService := fun _ b => b;
  action_server_start := fun b => b
|}.

(** A bench on which every start-up step succeeds: a 640 x 480 mono8
    camera of at most 30 frames per second, started at time 7. *)
Definition bench : Bench :=
  mkBench (mkRig 7 true 1 [] false true (Cxx.float_of_Z 100) (Cxx.float_of_Z 1) None)
          true true true (double_of_Z 30) (480, 640, 1).

(** A session before start-up, with the given sequencer switch and
    desired frame rate. *)
Definition session0 (sequencer : bool) (rate : double) : Session :=
  mkSession (mkParams sequencer "cam" "camera_frame" rate)
            (mkNode [Cxx.float_of_Z 1; Cxx.float_of_Z 2]
                    (mkImage EmptyString 0 0 0 [] 0) 0 0 (-42) false false)
            (mkCameraInfo EmptyString 0 0 EmptyString)
            EmptyString EmptyString [] false.

Definition boot0 (b : Bench) (sequencer : bool) (rate : double) : BootSt Bench :=
  mkBootSt b (session0 sequencer rate) [].

(** The same session once [PylonCamera::create] has returned a camera. *)
Definition boot1 (b : Bench) (sequencer : bool) (rate : double) : BootSt Bench :=
  mkBootSt b (with_camera true (session0 sequencer rate)) [].

(** ** A world that keeps a journal

    The calls of start-up that reach the camera library and the ROS
    node handle, in the order they were made. [attached] says whether
    [PylonCamera::create] finds a camera. *)
Inductive Call : Type :=
| CallCreate (id : string)
| CallRegister
| CallStartGrabbing
| CallSetImageSize (size : Z)
| CallSetParam (name : string)
| CallAdvertise (service : string)
| CallActionStart.

Record Journal : Type := mkJournal {
  attached : bool;
  calls : list Call
}.

Definition journal_call (c : Call) (j : Journal) : Journal :=
  mkJournal (attached j) (calls j ++ [c]).

#[export] Instance JournalStartup : Startup Journal := {|
  create := fun id j => (attached j, journal_call (CallCreate id) j);
  registerCameraConfiguration := fun p j => (true, p, journal_call CallRegister j);
  camera_startGrabbing := fun p j => (true, p, journal_call CallStartGrabbing j);
  maxPossibleFramerate := fun _ => double_of_Z 30;
  setImageSize := fun size => journal_call (CallSetImageSize size);
  setParam := fun name _ => journal_call (CallSetParam name);
  advertiseService := fun service => journal_call (CallAdvertise service);
  action_server_start := journal_call CallActionStart
|}.

(** Start-up with no camera attached. *)
Definition unplugged (sequencer : bool) : BootSt Journal :=
  mkBootSt (mkJournal false []) (session0 sequencer (double_of_Z 10)) [].

(** ** A scripted world that warms up

    A [Rig] whose camera reports ready from the time [ready_from] on,
    whatever the rig's own [ready] switch says. *)

Record Warmup : Type := mkWarmup {
  inner : Rig;
  ready_from : Z
}.

Definition on_inner (f : Rig -> Rig) (w : Warmup) : Warmup :=
  mkWarmup (f (inner w)) (ready_from w).

#[export] Instance WarmupRos : Ros Warmup := {|
  NDEBUG := false;
  time_now := fun w => clock (inner w);
  ros_ok := fun w => alive (inner w);
  ros_shutdown := on_inner rig_shutdown;
  spinOnce := fun w n =>
    (on_inner (fun r => fst (rig_spinOnce r n)) w, snd (rig_spinOnce (inner w) n));
  rate_sleep := fun hz => on_inner (rig_sleep hz);
  getNumSubscribers := fun w => subscribers (inner w);
  grab := fun w buf =>
    (fst (fst (rig_grab (inner w) buf)), snd (fst (rig_grab (inner w) buf)),
     on_inner (fun r => snd (rig_grab r buf)) w);
  isCamRemoved := fun w => removed (inner w);
  isReady := fun w => ready_from w <=? clock (inner w);
  currentExposure := fun w => exposure (inner w);
  exposureStep := fun w => exposure_step (inner w);
  setExposure := fun t => on_inner (rig_setExposure t);
  setBrightness := fun _ w => w;
  isAutoBrightnessFunctionRunning := fun w => Some (rig_auto_running (inner w));
  imageEncoding := fun _ => "mono8"%string;
  imageRows := fun _ => 1;
  imageCols := fun _ => 1;
  imagePixelDepth := fun _ => 1
|}.

(** A camera that is ready half a second after the call; the frame
    reads 100. In [warming] the auto function reports that it is done
    1.5 s after the call, in [warming_stuck] it never does. *)
Definition warming : St Warmup :=
  mkSt (mkWarmup (rig [] false (Some 1500000000)) 500000000) (node0 0 [x64]) [].

Definition warming_stuck : St Warmup :=
  mkSt (mkWarmup (rig [] false None) 500000000) (node0 0 [x64]) [].

(** The state in which the readiness wait of either call is left: one
    poll at 2 Hz later. *)
Definition warmed (st : St Warmup) : St Warmup :=
  mkSt (fst (poll 2 (world st, node st))) (snd (poll 2 (world st, node st))) (trace st).

(** Rigs for the edge cases: a camera that is not ready, one that is not
    ready under a ROS runtime that is shutting down, and one that
    reports an exposure step of zero. *)
Definition cold_rig : Rig :=
  mkRig 0 true 1 [] false false (Cxx.float_of_Z 100) (Cxx.float_of_Z 1) None.

Definition dying_rig : Rig :=
  mkRig 0 false 1 [] false false (Cxx.float_of_Z 100) (Cxx.float_of_Z 1) None.

Definition stepless_rig : Rig :=
  mkRig 0 true 1 [] false true (Cxx.float_of_Z 100) (S754_zero false) None.

(** A bench whose camera is found and configured but does not start
    grabbing. *)
Definition stalled_bench : Bench :=
  mkBench (mkRig 7 true 1 [] false true (Cxx.float_of_Z 100) (Cxx.float_of_Z 1) None)
          true true false (double_of_Z 30) (480, 640, 1).

(** * Properties *)

(** ** Machine arithmetic *)

Lemma uint8_range (b : byte) : 0 <= Cxx.uint8 b <= 255.
Proof.
  unfold Cxx.uint8. pose proof (Byte.to_N_bounded b) as H. lia.
Qed.

Lemma pixel_sum_nonneg (d : list byte) : 0 <= pixel_sum d.
Proof.
  induction d as [|b d IH]; simpl; [lia|].
  pose proof (uint8_range b). lia.
Qed.

Lemma pixel_sum_le (d : list byte) : pixel_sum d <= 255 * Z.of_nat (List.length d).
Proof.
  induction d as [|b d IH]; [simpl; lia|].
  change (pixel_sum (b :: d)) with (Cxx.uint8 b + pixel_sum d).
  change (List.length (b :: d)) with (S (List.length d)).
  pose proof (uint8_range b). lia.
Qed.

Lemma pixel_sum_repeat (b : byte) (n : nat) :
  pixel_sum (repeat b n) = Cxx.uint8 b * Z.of_nat n.
Proof.
  induction n as [|n IH]; [simpl; lia|].
  change (repeat b (S n)) with (b :: repeat b n).
  change (pixel_sum (b :: repeat b n)) with (Cxx.uint8 b + pixel_sum (repeat b n)).
  rewrite IH. lia.
Qed.

(** The int accumulator holds the mathematical sum as long as that fits,
    and the run is undefined as soon as it does not. *)
Lemma accumulate_spec (d : list byte) :
  forall init, init <= Cxx.INT_MAX ->
  Cxx.accumulate d init =
    if init + pixel_sum d <=? Cxx.INT_MAX then Some (init + pixel_sum d) else None.
Proof.
  induction d as [|b d IH]; intros init Hi.
  - simpl. rewrite Z.add_0_r.
    destruct (init <=? Cxx.INT_MAX) eqn:E; [reflexivity|].
    apply Z.leb_gt in E. lia.
  - change (pixel_sum (b :: d)) with (Cxx.uint8 b + pixel_sum d).
    cbn [Cxx.accumulate].
    pose proof (pixel_sum_nonneg d) as Hs.
    destruct (init + Cxx.uint8 b <=? Cxx.INT_MAX) eqn:E.
    + apply Z.leb_le in E. rewrite (IH _ E).
      rewrite Z.add_assoc. reflexivity.
    + apply Z.leb_gt in E.
      destruct (init + (Cxx.uint8 b + pixel_sum d) <=? Cxx.INT_MAX) eqn:E';
        [apply Z.leb_le in E'; lia | reflexivity].
Qed.

(** Every value a byte mean can take is a binary32 number, so the
    conversion to float and back is the identity on it. *)
Lemma float_roundtrip (q : Z) :
  0 <= q <= 255 -> Cxx.int_of_float (Cxx.float_of_Z q) = Done q.
Proof.
  intros Hq.
  assert (Hall : forallb roundtrip_ok (map Z.of_nat (seq 0 256)) = true)
    by (vm_compute; reflexivity).
  rewrite forallb_forall in Hall.
  assert (Hin : In q (map Z.of_nat (seq 0 256))).
  { apply in_map_iff. exists (Z.to_nat q). split; [lia|].
    apply in_seq. lia. }
  specialize (Hall q Hin). unfold roundtrip_ok in Hall.
  destruct (Cxx.int_of_float (Cxx.float_of_Z q)) as [z| |]; try discriminate.
  apply Z.eqb_eq in Hall. now subst.
Qed.

Lemma truncated_mean_range (d : list byte) :
  d <> [] -> 0 <= truncated_mean d <= 255.
Proof.
  intros Hd. unfold truncated_mean.
  assert (0 < Z.of_nat (List.length d)) by (destruct d; [congruence | simpl; lia]).
  pose proof (pixel_sum_nonneg d). pose proof (pixel_sum_le d).
  split.
  - apply Z.div_pos; lia.
  - apply Z.div_le_upper_bound; lia.
Qed.

(** On a populated buffer whose byte sum fits in an int, the brightness
    is the truncated mean. *)
Lemma calcCurrentBrightness_truncates (ndebug : bool) (d : list byte) :
  d <> [] -> pixel_sum d <= Cxx.INT_MAX ->
  calcCurrentBrightness ndebug d = Done (truncated_mean d).
Proof.
  intros Hd Hs. unfold calcCurrentBrightness.
  rewrite accumulate_spec by (unfold Cxx.INT_MAX; lia).
  rewrite Z.add_0_l.
  destruct (pixel_sum d <=? Cxx.INT_MAX) eqn:E; [|apply Z.leb_gt in E; lia].
  assert (Hn : 0 < Z.of_nat (List.length d)) by (destruct d; [congruence | simpl; lia]).
  cbv zeta.
  replace (0 <? Z.of_nat (List.length d)) with true by (symmetry; apply Z.ltb_lt; lia).
  replace (Z.of_nat (List.length d) =? 0) with false by (symmetry; apply Z.eqb_neq; lia).
  rewrite andb_false_r.
  unfold Cxx.to_size_t. rewrite Z.mod_small.
  - apply float_roundtrip. apply truncated_mean_range; assumption.
  - pose proof (pixel_sum_nonneg d). unfold Cxx.INT_MAX in Hs. lia.
Qed.

(** On an empty buffer no value is returned: the assertion fails, or,
    with assertions compiled out, the division is by zero. The sum has
    been accumulated by then. *)
Lemma calcCurrentBrightness_empty (ndebug : bool) :
  Cxx.accumulate [] 0 = Some 0 /\
  calcCurrentBrightness ndebug [] =
    Crash (if ndebug then DivisionByZero else AssertionFailed).
Proof. destruct ndebug; split; reflexivity. Qed.

(** A byte sum above INT_MAX overflows the accumulator. *)
Lemma calcCurrentBrightness_overflow (ndebug : bool) (d : list byte) :
  Cxx.INT_MAX < pixel_sum d -> calcCurrentBrightness ndebug d = Crash SignedOverflow.
Proof.
  intros Hs. unfold calcCurrentBrightness.
  rewrite accumulate_spec by (unfold Cxx.INT_MAX; lia).
  rewrite Z.add_0_l.
  destruct (pixel_sum d <=? Cxx.INT_MAX) eqn:E; [apply Z.leb_le in E; lia | reflexivity].
Qed.

(** ** Reasoning about runs *)

Ltac unfold_monad :=
  unfold ros_shutdown_call, camera_grab, elapsed_over, ros_spinOnce;
  unfold bind, ret, ask, member, act, assign, emit, lift, out_of_fuel.

Ltac run := unfold_monad; cbn beta iota zeta delta [world node trace fst snd].

Lemma count_app (p : Event -> bool) (a b : list Event) :
  count p (a ++ b) = (count p a + count p b)%nat.
Proof. unfold count. rewrite filter_app, length_app. reflexivity. Qed.

Section GrabPaths.

Context {W : Type} {R : Ros W}.

(** *** grabImage *)

(** A failed single-frame grab on a removed device: one error, one
    shutdown request, no warning, and [false] is returned. *)
Lemma grabImage_removed (st : St W) :
  fst (fst (grab (world st) (data (img_raw_msg_ (node st))))) = false ->
  isCamRemoved (snd (grab (world st) (data (img_raw_msg_ (node st))))) = true ->
  exists st',
    grabImage st = Done (false, st') /\
    trace st' = trace st ++ [ROS_ERROR "Pylon Camera has been removed!"; Shutdown] /\
    count is_shutdown (trace st') = S (count is_shutdown (trace st)) /\
    count is_warn_or_info (trace st') = count is_warn_or_info (trace st).
Proof.
  intros Hok Hrem. unfold grabImage. run.
  destruct (grab (world st) (data (img_raw_msg_ (node st)))) as [[ok buf] w'] eqn:G.
  cbn [fst snd] in *. subst ok. cbn [negb world node trace]. rewrite Hrem.
  cbn [world node trace].
  eexists. split; [reflexivity|]. cbn [trace].
  rewrite <- app_assoc. cbn [app]. split; [reflexivity|].
  rewrite !count_app. unfold count. cbn. split; lia.
Qed.

(** A failed single-frame grab on a device still attached: a warning and
    no shutdown request. *)
Lemma grabImage_recoverable (st : St W) :
  fst (fst (grab (world st) (data (img_raw_msg_ (node st))))) = false ->
  isCamRemoved (snd (grab (world st) (data (img_raw_msg_ (node st))))) = false ->
  exists st',
    grabImage st = Done (false, st') /\
    trace st' =
      trace st ++ [ROS_WARN "Pylon Interface returned invalid image! Skipping"] /\
    count is_shutdown (trace st') = count is_shutdown (trace st).
Proof.
  intros Hok Hrem. unfold grabImage. run.
  destruct (grab (world st) (data (img_raw_msg_ (node st)))) as [[ok buf] w'] eqn:G.
  cbn [fst snd] in *. subst ok. cbn [negb world node trace]. rewrite Hrem.
  cbn [world node trace].
  eexists. split; [reflexivity|]. cbn [trace]. split; [reflexivity|].
  rewrite count_app. unfold count. cbn. lia.
Qed.

(** *** The sequence action *)

Lemma nth_update_at_other {A} (f : A -> A) (d : A) (v : list A) :
  forall i j, i <> j -> nth j (update_at i f v) d = nth j v d.
Proof.
  induction v as [|x v IH]; intros i j Hij; [destruct i; reflexivity|].
  destruct i, j; cbn; try congruence; auto.
Qed.

Lemma blank_from_repeat (n : nat) : blank_from 0 (repeat empty_image n).
Proof.
  intros j _. revert j. induction n as [|n IH]; intros [|j]; cbn; auto.
Qed.

(** The loop of the action callback grabs [todo] times, leaves the node
    and the trace alone, and ends with [success] true exactly when it
    was true before and every grab returned true. *)
Lemma sequenceRaw_loop_spec (todo : nat) :
  forall i result (st : St W),
  blank_from i (images result) ->
  exists result' st',
    sequenceRaw_loop todo i result st = Done (result', st') /\
    success result' =
      success result && forallb (fun b => b) (fresh_grabs todo (world st)) /\
    exposure_times result' = exposure_times result /\
    node st' = node st /\ trace st' = trace st.
Proof.
  induction todo as [|todo IH]; intros i result st Hblank.
  - exists result, st. cbn. rewrite andb_true_r. repeat split; reflexivity.
  - cbn [sequenceRaw_loop fresh_grabs]. run.
    rewrite (Hblank i (Nat.le_refl i)).
    destruct (grab (world st) []) as [[ok buf] w'] eqn:G.
    cbn [fst snd world node trace].
    match goal with
    | |- context [sequenceRaw_loop todo (S i) ?r ?s] =>
        destruct (IH (S i) r s) as (r' & s' & Hrun & Hs & He & Hn & Ht)
    end.
    { intros j Hj. cbn [images].
      rewrite nth_update_at_other by lia. apply Hblank. lia. }
    exists r', s'. rewrite Hrun. cbn [success exposure_times world node trace] in *.
    repeat split; try assumption.
    rewrite Hs. cbn [forallb]. destruct ok; cbn [negb andb].
    + reflexivity.
    + now rewrite andb_false_r.
Qed.

Lemma forallb_id_false (l : list bool) :
  In false l -> forallb (fun b => b) l = false.
Proof.
  induction l as [|b l IH]; intros H; [contradiction|].
  cbn. destruct b; [destruct H as [H|H]; [discriminate | auto] | reflexivity].
Qed.

(** C2. In the sequence action over the configured exposures, if any
    single grab of the burst returns false, the result reported through
    [setSucceeded] has [success = false] and an empty frame sequence,
    whatever the other grabs of the burst returned. *)
Theorem C2_failed_grab_clears_frames (st : St W) :
  In false (fresh_grabs (List.length (desired_seq_exp_times_ (node st))) (world st)) ->
  exists r st',
    sequenceRawActionExecuteCB st = Done (tt, st') /\
    trace st' = trace st ++ [SetSucceeded r] /\
    success r = false /\
    images r = [] /\
    exposure_times r = desired_seq_exp_times_ (node st).
Proof.
  intros Hfail. unfold sequenceRawActionExecuteCB. run.
  set (N := List.length (desired_seq_exp_times_ (node st))) in *.
  destruct (@sequenceRaw_loop_spec N 0%nat
              (mkResult (repeat empty_image N) (desired_seq_exp_times_ (node st)) true)
              st (blank_from_repeat N))
    as (r & s' & Hrun & Hs & He & Hn & Ht).
  rewrite Hrun. cbn [success exposure_times andb] in *.
  rewrite (forallb_id_false _ Hfail) in Hs. rewrite Hs. cbn [negb].
  eexists. eexists. split; [reflexivity|].
  cbn [trace success images exposure_times]. rewrite Ht, He. auto.
Qed.

(** When every grab returns true the result carries one frame per
    configured exposure and [success = true]. *)
Lemma sequenceRaw_all_ok (st : St W) :
  forallb (fun b => b)
    (fresh_grabs (List.length (desired_seq_exp_times_ (node st))) (world st)) = true ->
  exists r st',
    sequenceRawActionExecuteCB st = Done (tt, st') /\
    trace st' = trace st ++ [SetSucceeded r] /\
    success r = true.
Proof.
  intros Hall. unfold sequenceRawActionExecuteCB. run.
  set (N := List.length (desired_seq_exp_times_ (node st))) in *.
  destruct (@sequenceRaw_loop_spec N 0%nat
              (mkResult (repeat empty_image N) (desired_seq_exp_times_ (node st)) true)
              st (blank_from_repeat N))
    as (r & s' & Hrun & Hs & He & Hn & Ht).
  rewrite Hrun. cbn [success exposure_times andb] in *.
  rewrite Hall in Hs. rewrite Hs. cbn [negb].
  eexists. eexists. split; [reflexivity|]. cbn [trace]. rewrite Ht. auto.
Qed.

(** Whatever the device does, the action callback sends exactly one
    event, the result: it never asks whether the device was removed and
    never requests a shutdown. *)
Lemma sequenceRaw_trace (st : St W) :
  exists r st',
    sequenceRawActionExecuteCB st = Done (tt, st') /\
    trace st' = trace st ++ [SetSucceeded r] /\
    count is_shutdown (trace st') = count is_shutdown (trace st).
Proof.
  unfold sequenceRawActionExecuteCB. run.
  set (N := List.length (desired_seq_exp_times_ (node st))) in *.
  destruct (@sequenceRaw_loop_spec N 0%nat
              (mkResult (repeat empty_image N) (desired_seq_exp_times_ (node st)) true)
              st (blank_from_repeat N))
    as (r & s' & Hrun & Hs & He & Hn & Ht).
  rewrite Hrun. eexists. eexists. split; [reflexivity|].
  cbn [trace]. rewrite Ht. split; [reflexivity|].
  rewrite count_app. cbn. lia.
Qed.

(** *** grabSequence *)

Lemma burst_firstn (k : nat) :
  forall n w buf, (k <= n)%nat -> burst k w buf = firstn k (burst n w buf).
Proof.
  induction k as [|k IH]; intros n w buf Hk; [reflexivity|].
  destruct n as [|n]; [lia|]. cbn [burst].
  destruct (grab w buf) as [[ok buf'] w']. cbn [firstn].
  f_equal. apply IH. lia.
Qed.

Lemma last_cons {A} (l : list A) :
  forall a d, last (a :: l) d = last l a.
Proof.
  induction l as [|b l IH]; intros a d; [reflexivity|].
  change (last (a :: b :: l) d) with (last (b :: l) d).
  now rewrite !IH.
Qed.

Lemma burst_length (k : nat) : forall w buf, List.length (burst k w buf) = k.
Proof.
  induction k as [|k IH]; intros w buf; [reflexivity|].
  cbn [burst]. destruct (grab w buf) as [[ok buf'] w']. cbn. now rewrite IH.
Qed.

(** The frame buffer after a run of the loop in which every grab
    succeeds: the frame of index [mid] if the run passes over that
    index, and the frame buffer as it was otherwise. *)
Lemma grabSequence_loop_all_ok (k : nat) :
  forall i mid buf (st : St W),
  all_ok (burst k (world st) buf) ->
  exists st',
    grabSequence_loop k i mid true buf st = Done (true, st') /\
    trace st' = trace st /\
    world st' = last (map snd (burst k (world st) buf)) (world st) /\
    node st' =
      match nth_error (burst k (world st) buf) (mid - i) with
      | Some (_, frame, wm) =>
          if (i <=? mid)%nat
          then set_img_stamp (time_now wm) (set_img_data frame (node st))
          else node st
      | None => node st
      end.
Proof.
  induction k as [|k IH]; intros i mid buf st Hall.
  - exists st. cbn. destruct (mid - i)%nat; auto.
  - cbn [grabSequence_loop burst] in *. run.
    destruct (grab (world st) buf) as [[ok buf'] w'] eqn:G.
    assert (ok = true) by (apply (Hall (ok, buf', w')); left; reflexivity).
    subst ok. cbn [fst snd negb world node trace andb].
    assert (Hall' : all_ok (burst k w' buf'))
      by (intros r Hr; apply Hall; right; exact Hr).
    destruct (Nat.eqb i mid) eqn:E; cbn [andb world node trace].
    + apply Nat.eqb_eq in E. subst mid.
      match goal with
      | |- context [grabSequence_loop k (S i) i true buf' ?s] =>
          destruct (IH (S i) i buf' s Hall') as (s' & Hrun & Ht & Hw & Hn)
      end.
      exists s'. rewrite Hrun. cbn [world node trace] in *.
      rewrite Nat.sub_diag. cbn [nth_error]. rewrite Nat.leb_refl.
      split; [reflexivity|]. split; [assumption|]. split.
      * rewrite Hw. cbn [map snd]. symmetry. apply last_cons.
      * rewrite Hn. replace (S i <=? i)%nat with false
          by (symmetry; apply Nat.leb_gt; lia).
        destruct (nth_error (burst k w' buf') (i - S i)) as [[[? ?] ?]|]; reflexivity.
    + apply Nat.eqb_neq in E.
      match goal with
      | |- context [grabSequence_loop k (S i) mid true buf' ?s] =>
          destruct (IH (S i) mid buf' s Hall') as (s' & Hrun & Ht & Hw & Hn)
      end.
      exists s'. rewrite Hrun. cbn [world node trace] in *.
      split; [reflexivity|]. split; [assumption|]. split.
      * rewrite Hw. cbn [map snd]. symmetry. apply last_cons.
      * rewrite Hn. destruct (Nat.leb_spec i mid) as [Hle|Hgt].
        -- replace (mid - i)%nat with (S (mid - S i)) by lia. cbn [nth_error].
           replace (S i <=? mid)%nat with true by (symmetry; apply Nat.leb_le; lia).
           reflexivity.
        -- replace (S i <=? mid)%nat with false by (symmetry; apply Nat.leb_gt; lia).
           replace (mid - i)%nat with 0%nat by lia. cbn [nth_error].
           destruct (nth_error (burst k w' buf') (mid - S i)) as [[[? ?] ?]|]; reflexivity.
Qed.

(** Once a grab has failed, the rest of the loop leaves the frame buffer
    alone and the loop ends with [success] false. *)
Lemma grabSequence_loop_failed (k : nat) :
  forall i mid buf (st : St W),
  exists st',
    grabSequence_loop k i mid false buf st = Done (false, st') /\
    node st' = node st.
Proof.
  induction k as [|k IH]; intros i mid buf st.
  - exists st. split; reflexivity.
  - cbn [grabSequence_loop]. run.
    destruct (grab (world st) buf) as [[ok buf'] w'] eqn:G.
    cbn [fst snd world node trace].
    destruct ok; cbn [negb world node trace].
    + rewrite andb_false_r.
      match goal with
      | |- context [grabSequence_loop k (S i) mid false buf' ?s] =>
          destruct (IH (S i) mid buf' s) as (s' & Hrun & Hn)
      end.
      exists s'. rewrite Hrun. auto.
    + destruct (isCamRemoved w'); cbn [world node trace];
        rewrite andb_false_r;
        match goal with
        | |- context [grabSequence_loop k (S i) mid false buf' ?s] =>
            destruct (IH (S i) mid buf' s) as (s' & Hrun & Hn)
        end;
        exists s'; rewrite Hrun; auto.
Qed.

Lemma all_ok_firstn (k : nat) (l : list (bool * list byte * W)) :
  all_ok l -> all_ok (firstn k l).
Proof.
  intros H r Hr. apply H. clear H. revert l Hr.
  induction k as [|k IH]; intros [|x l] Hr; cbn in *; try contradiction.
  destruct Hr as [Hr|Hr]; [now left | right; now apply IH].
Qed.

Lemma nth_error_firstn_lt {A} (k m : nat) :
  forall l : list A, (m < k)%nat -> nth_error (firstn k l) m = nth_error l m.
Proof.
  revert m. induction k as [|k IH]; intros m l Hm; [lia|].
  destruct l as [|x l]; [destruct m; reflexivity|].
  destruct m as [|m]; [reflexivity|]. cbn. apply IH. lia.
Qed.

(** C4. For every N >= 1, a burst of N grabs that all succeed is run in
    order from the world the method starts in, [grabSequence] returns
    true, and the frame buffer ends as the frame of grab [N / 2],
    stamped with the time read right after that grab; the camera-info
    and exposure-times stamps follow it. Along the loop the frame buffer
    is the old one up to and including iteration [N / 2 - 1] and that
    middle frame from then on: no other frame of the burst is written
    to it. *)
Theorem C4_burst_publishes_middle_frame (st : St W) :
  let N := List.length (desired_seq_exp_times_ (node st)) in
  let mid := Nat.div N 2 in
  (1 <= N)%nat ->
  all_ok (burst N (world st) []) ->
  exists frame wm st',
    nth_error (burst N (world st) []) mid = Some (true, frame, wm) /\
    grabSequence st = Done (true, st') /\
    world st' = last (map snd (burst N (world st) [])) (world st) /\
    trace st' = trace st /\
    data (img_raw_msg_ (node st')) = frame /\
    stamp (img_raw_msg_ (node st')) = time_now wm /\
    cam_info_stamp (node st') = time_now wm /\
    exp_times_stamp (node st') = time_now wm /\
    forall k, (k <= N)%nat ->
      exists st_k,
        grabSequence_loop k 0 mid true [] st = Done (true, st_k) /\
        img_raw_msg_ (node st_k) =
          if (k <=? mid)%nat then img_raw_msg_ (node st)
          else img_raw_msg_ (node st').
Proof.
  intros N mid HN Hall.
  assert (Hmid : (mid < N)%nat)
    by (unfold mid; apply Nat.Div0.div_lt_upper_bound; lia).
  destruct (nth_error (burst N (world st) []) mid) as [[[okm frame] wm]|] eqn:Hnth.
  2:{ apply nth_error_None in Hnth. rewrite burst_length in Hnth. lia. }
  assert (okm = true)
    by (apply (Hall (okm, frame, wm)); eapply nth_error_In; exact Hnth).
  subst okm.
  destruct (@grabSequence_loop_all_ok N 0%nat mid [] st Hall)
    as (s1 & Hrun & Ht & Hw & Hn).
  rewrite Nat.sub_0_r, Hnth in Hn. cbn [Nat.leb] in Hn.
  exists frame, wm.
  eexists. split; [reflexivity|]. split.
  { unfold grabSequence. run. fold N. fold mid. rewrite Hrun. cbn [negb].
    cbn [world node trace]. reflexivity. }
  cbn [world node trace]. rewrite Hn.
  cbn [set_img_stamp set_img_data set_cam_info_stamp set_exp_times_stamp
       img_raw_msg_ cam_info_stamp exp_times_stamp data stamp].
  repeat (split; [first [assumption | reflexivity]|]).
  intros k Hk.
  assert (Hallk : all_ok (burst k (world st) [])).
  { rewrite (burst_firstn (n := N)) by assumption. now apply all_ok_firstn. }
  destruct (@grabSequence_loop_all_ok k 0%nat mid [] st Hallk)
    as (sk & Hrunk & _ & _ & Hnk).
  exists sk. split; [assumption|]. rewrite Hnk, Nat.sub_0_r. cbn [Nat.leb].
  destruct (Nat.leb_spec k mid) as [Hle|Hgt].
  - replace (nth_error (burst k (world st) []) mid) with
      (@None (bool * list byte * W)); [reflexivity|].
    symmetry. apply nth_error_None. rewrite burst_length. assumption.
  - rewrite (burst_firstn (n := N)) by assumption.
    rewrite nth_error_firstn_lt by assumption. rewrite Hnth. reflexivity.
Qed.

End GrabPaths.

Section Services.

Context {W : Type} {R : Ros W}.

Lemma polls_shift (hz : Z) (k : nat) :
  forall s : W * Node, polls hz (S k) s = polls hz k (poll hz s).
Proof.
  induction k as [|k IH]; intros s; [reflexivity|].
  change (polls hz (S (S k)) s) with (poll hz (polls hz (S k) s)).
  rewrite IH. reflexivity.
Qed.

Lemma poll_state (hz : Z) (st : St W) :
  (ros_spinOnce ;; act (rate_sleep hz)) st =
  Done (tt, mkSt (fst (poll hz (world st, node st)))
                 (snd (poll hz (world st, node st))) (trace st)).
Proof.
  unfold poll. run.
  destruct (spinOnce (world st) (node st)) as [w' n']. reflexivity.
Qed.

(** A clock that moves forward at every poll passes any deadline, and
    there is a first poll at which it has. *)
Lemma first_exceed (t : nat -> Z) (D : Z) :
  (forall k, t k < t (S k)) ->
  exists k, t k > D /\ forall j, (j < k)%nat -> t j <= D.
Proof.
  intros Hinc.
  assert (Hgrow : forall k, t 0%nat + Z.of_nat k <= t k).
  { induction k as [|k IH]; [lia|]. specialize (Hinc k). lia. }
  assert (Hsearch : forall n,
            (exists k, t k > D /\ forall j, (j < k)%nat -> t j <= D) \/
            (forall j, (j <= n)%nat -> t j <= D)).
  { induction n as [|n [IH|IH]].
    - destruct (Z_gt_le_dec (t 0%nat) D) as [H|H].
      + left. exists 0%nat. split; [assumption | intros j Hj; lia].
      + right. intros j Hj. replace j with 0%nat by lia. assumption.
    - left. assumption.
    - destruct (Z_gt_le_dec (t (S n)) D) as [H|H].
      + left. exists (S n). split; [assumption|].
        intros j Hj. apply IH. lia.
      + right. intros j Hj.
        destruct (Nat.eq_dec j (S n)) as [->|Hne]; [assumption | apply IH; lia]. }
  destruct (Hsearch (Z.to_nat (D - t 0%nat + 1))) as [H|H]; [assumption|].
  exfalso.
  specialize (H _ (Nat.le_refl _)).
  specialize (Hgrow (Z.to_nat (D - t 0%nat + 1))). lia.
Qed.

(** *** The wait on the liveness flag *)

Lemma brightnessWait_released (fuel : nat) (start d : Z) (st : St W) :
  released (world st, node st) = true ->
  brightnessWait_loop (S fuel) start d st = Done (None, st).
Proof.
  unfold released. cbn [fst snd brightnessWait_loop]. intros H. run.
  apply negb_true_iff in H. rewrite H. reflexivity.
Qed.

Lemma brightnessWait_expired (fuel : nat) (start d : Z) (st : St W) :
  expired start d (world st, node st) = true ->
  brightnessWait_loop (S fuel) start d st =
    Done (Some false,
          mkSt (world st) (set_running false (node st))
               (trace st ++ [ROS_ERROR "Did not reach the required brightness in time"])).
Proof.
  unfold expired. cbn [fst snd brightnessWait_loop]. intros H. run.
  apply andb_true_iff in H. destruct H as [H1 H2]. rewrite H1, H2. reflexivity.
Qed.

Lemma brightnessWait_waiting (fuel : nat) (start d : Z) (st : St W) :
  waiting start d (world st, node st) = true ->
  brightnessWait_loop (S fuel) start d st =
    brightnessWait_loop fuel start d
      (mkSt (fst (poll 5 (world st, node st)))
            (snd (poll 5 (world st, node st))) (trace st)).
Proof.
  unfold waiting. cbn [fst snd brightnessWait_loop]. intros H.
  apply andb_true_iff in H. destruct H as [H1 H2].
  apply negb_true_iff in H2.
  pose proof (poll_state 5 st) as Hp. revert Hp. run. intros Hp.
  rewrite H1, H2.
  destruct (spinOnce (world st) (node st)) as [w' n'] eqn:E.
  unfold poll. cbn [fst snd]. rewrite E. reflexivity.
Qed.

(** Exactly one of the three cases holds at a loop head. *)
Lemma wait_cases (start d : Z) (s : W * Node) :
  (released s = true /\ expired start d s = false /\ waiting start d s = false) \/
  (released s = false /\ expired start d s = true /\ waiting start d s = false) \/
  (released s = false /\ expired start d s = false /\ waiting start d s = true).
Proof.
  unfold released, expired, waiting.
  destruct (ros_ok (fst s) && brightness_service_running_ (snd s));
    destruct (time_now (fst s) - start >? d); cbn; auto.
Qed.

(** As long as the loop is waiting, [k] polls later it is still the same
    call, on the world and node [k] polls on, with the trace untouched. *)
Lemma brightnessWait_polls (k : nat) :
  forall fuel start d w n tr,
  (forall j, (j < k)%nat -> waiting start d (polls 5 j (w, n)) = true) ->
  brightnessWait_loop (k + fuel) start d (mkSt w n tr) =
  brightnessWait_loop fuel start d
    (mkSt (fst (polls 5 k (w, n))) (snd (polls 5 k (w, n))) tr).
Proof.
  induction k as [|k IH]; intros fuel start d w n tr Hw; [reflexivity|].
  cbn [Nat.add]. rewrite brightnessWait_waiting
    by (apply (Hw 0%nat); lia).
  cbn [world node trace].
  destruct (poll 5 (w, n)) as [w' n'] eqn:E. cbn [fst snd].
  rewrite IH.
  - rewrite polls_shift, E. reflexivity.
  - intros j Hj. rewrite <- E, <- polls_shift. apply Hw. lia.
Qed.

Lemma brightnessWait_polls_pair (k fuel : nat) (start d : Z)
    (s : W * Node) (tr : list Event) :
  (forall j, (j < k)%nat -> waiting start d (polls 5 j s) = true) ->
  brightnessWait_loop (k + fuel) start d (mkSt (fst s) (snd s) tr) =
  brightnessWait_loop fuel start d
    (mkSt (fst (polls 5 k s)) (snd (polls 5 k s)) tr).
Proof. destruct s as [w n]. apply brightnessWait_polls. Qed.

(** Every run of the wait that returns is [k] waiting polls followed by
    a release or by the expiry of the deadline. *)
Lemma brightnessWait_inv (fuel : nat) :
  forall start d w n tr r st',
  brightnessWait_loop fuel start d (mkSt w n tr) = Done (r, st') ->
  exists k,
    (k < fuel)%nat /\
    (forall j, (j < k)%nat -> waiting start d (polls 5 j (w, n)) = true) /\
    ((expired start d (polls 5 k (w, n)) = true /\ r = Some false /\
      st' = mkSt (fst (polls 5 k (w, n)))
                 (set_running false (snd (polls 5 k (w, n))))
                 (tr ++ [ROS_ERROR "Did not reach the required brightness in time"])) \/
     (released (polls 5 k (w, n)) = true /\ r = None /\
      st' = mkSt (fst (polls 5 k (w, n))) (snd (polls 5 k (w, n))) tr)).
Proof.
  induction fuel as [|fuel IH]; intros start d w n tr r st' Hrun;
    [discriminate|].
  destruct (wait_cases start d (w, n)) as [(Hr & _)|[(_ & He & _)|(_ & _ & Hw)]].
  - rewrite (brightnessWait_released fuel start d (mkSt w n tr) Hr) in Hrun.
    inversion Hrun; subst. exists 0%nat. split; [lia|].
    split; [intros j Hj; lia|]. right. auto.
  - rewrite (brightnessWait_expired fuel start d (mkSt w n tr) He) in Hrun.
    inversion Hrun; subst. exists 0%nat. split; [lia|].
    split; [intros j Hj; lia|]. left. auto.
  - rewrite (brightnessWait_waiting fuel start d (mkSt w n tr) Hw) in Hrun.
    cbn [world node trace] in Hrun.
    destruct (poll 5 (w, n)) as [w' n'] eqn:E. cbn [fst snd] in Hrun.
    destruct (IH _ _ _ _ _ _ _ Hrun) as (k & Hk & Hwait & Hend).
    exists (S k). split; [lia|]. rewrite polls_shift, E. split.
    + intros [|j] Hj; [exact Hw|]. rewrite polls_shift, E. apply Hwait. lia.
    + exact Hend.
Qed.

(** *** setBrightnessCallback *)

Lemma waitReady_ready (fuel : nat) (st : St W) :
  isReady (world st) = true -> waitReady fuel st = Done (None, st).
Proof. intros H. unfold waitReady. run. rewrite H. reflexivity. Qed.

(** With the device ready and a first measurement different from the
    target, the callback writes to the device once and then is the wait
    loop followed by the validation. *)
Lemma setBrightness_ready_enters (fuel : nat) (target cur : Z) (st : St W) :
  first_measure (world st, node st) = Done cur -> cur <> target ->
  setBrightness_ready fuel target st =
    match
      brightnessWait_loop fuel
        (time_now (fst (brightness_entry target (world st, node st))))
        (brightness_duration target)
        (mkSt (fst (brightness_entry target (world st, node st)))
              (snd (brightness_entry target (world st, node st)))
              (trace st ++ [brightness_info; DeviceSetBrightness target]))
    with
    | Done (Some b, s) => Done (b, s)
    | Done (None, s) => brightnessValidation target s
    | Crash f => Crash f
    | OutOfFuel => OutOfFuel
    end.
Proof.
  unfold first_measure, brightness_entry, setBrightness_ready,
    calcCurrentBrightnessM, brightness_info.
  cbn [fst snd]. intros Hm Hne. run.
  destruct (spinOnce (world st) (node st)) as [w1 n1] eqn:E.
  cbn [fst snd world node trace] in *. rewrite Hm.
  cbn [world node trace set_running set_target_brightness target_brightness_].
  apply Z.eqb_neq in Hne. rewrite Hne. cbn [negb world node trace fst snd].
  rewrite <- app_assoc. cbn [app].
  match goal with
  | |- context [brightnessWait_loop ?f ?a ?b ?c] =>
      destruct (brightnessWait_loop f a b c) as [[[b'|] s']| |]
  end; reflexivity.
Qed.

(** With a first measurement equal to the target, the callback returns
    at once. *)
Lemma setBrightness_ready_equal (fuel : nat) (target : Z) (st : St W) :
  first_measure (world st, node st) = Done target ->
  setBrightness_ready fuel target st =
    Done (true,
          mkSt (fst (spinOnce (world st) (node st)))
               (set_running true
                  (set_target_brightness target (snd (spinOnce (world st) (node st)))))
               (trace st ++ [brightness_info])).
Proof.
  unfold first_measure, setBrightness_ready, calcCurrentBrightnessM, brightness_info.
  cbn [fst snd]. intros Hm. run.
  destruct (spinOnce (world st) (node st)) as [w1 n1] eqn:E.
  cbn [fst snd world node trace] in *. rewrite Hm.
  cbn [world node trace set_running set_target_brightness target_brightness_].
  rewrite Z.eqb_refl. reflexivity.
Qed.

(** The validation returns the comparison of the fresh measurement with
    the target, and changes nothing. *)
Lemma brightnessValidation_inv (target : Z) (st st' : St W) (res : bool) :
  brightnessValidation target st = Done (res, st') ->
  exists measured,
    calcCurrentBrightness NDEBUG (data (img_raw_msg_ (node st))) = Done measured /\
    res = (Z.abs (target - measured) <=? 2) /\
    st' = st.
Proof.
  unfold brightnessValidation, calcCurrentBrightnessM. run.
  destruct (calcCurrentBrightness NDEBUG (data (img_raw_msg_ (node st))))
    as [m| |]; try discriminate.
  unfold Cxx.int_sub, Cxx.int_abs, Cxx.int_result.
  destruct (Cxx.in_int (target - m)); try discriminate.
  destruct (Cxx.in_int (Z.abs (target - m))); try discriminate.
  intros H. exists m. split; [reflexivity|].
  destruct (Z.abs (target - m) >? 2) eqn:E; inversion H; subst; split; try reflexivity.
  - symmetry. apply Z.leb_gt. apply Z.gtb_lt in E. lia.
  - symmetry. apply Z.leb_le. rewrite Z.gtb_ltb in E. apply Z.ltb_ge in E. lia.
Qed.

Lemma brightnessValidation_run (target measured : Z) (st : St W) :
  calcCurrentBrightness NDEBUG (data (img_raw_msg_ (node st))) = Done measured ->
  Cxx.INT_MIN < target - measured <= Cxx.INT_MAX ->
  brightnessValidation target st = Done (Z.abs (target - measured) <=? 2, st).
Proof.
  intros Hm Hr. unfold brightnessValidation, calcCurrentBrightnessM. run.
  rewrite Hm. unfold Cxx.int_sub, Cxx.int_abs, Cxx.int_result, Cxx.in_int.
  unfold Cxx.INT_MIN, Cxx.INT_MAX in *.
  replace (-2147483648 <=? target - measured) with true by (symmetry; apply Z.leb_le; lia).
  replace (target - measured <=? 2147483647) with true by (symmetry; apply Z.leb_le; lia).
  cbn [andb].
  replace (-2147483648 <=? Z.abs (target - measured)) with true by (symmetry; apply Z.leb_le; lia).
  replace (Z.abs (target - measured) <=? 2147483647) with true by (symmetry; apply Z.leb_le; lia).
  cbn [andb].
  destruct (Z.abs (target - measured) >? 2) eqn:E.
  - apply Z.gtb_lt in E. replace (Z.abs (target - measured) <=? 2) with false
      by (symmetry; apply Z.leb_gt; lia). reflexivity.
  - rewrite Z.gtb_ltb in E. apply Z.ltb_ge in E.
    replace (Z.abs (target - measured) <=? 2) with true
      by (symmetry; apply Z.leb_le; lia). reflexivity.
Qed.

Lemma waitReady_loop_none (fuel : nat) :
  forall start (st st0 : St W),
  waitReady_loop fuel start st = Done (None, st0) -> trace st0 = trace st.
Proof.
  induction fuel as [|fuel IH]; intros start st st0 H; [discriminate|].
  cbn [waitReady_loop] in H. revert H.
  pose proof (poll_state 2 st) as Hp. revert Hp. run. intros Hp.
  destruct (ros_ok (world st) && negb (isReady (world st))).
  - destruct (time_now (world st) - start >? seconds 3); [discriminate|].
    destruct (spinOnce (world st) (node st)) as [w' n'].
    intros H. apply IH in H. exact H.
  - intros H. inversion H. reflexivity.
Qed.

Lemma waitReady_none (fuel : nat) (st st0 : St W) :
  waitReady fuel st = Done (None, st0) -> trace st0 = trace st.
Proof.
  unfold waitReady. run. destruct (isReady (world st)); cbn [negb].
  - intros H. inversion H. reflexivity.
  - apply waitReady_loop_none.
Qed.

Lemma setBrightnessCallback_after_wait (fuel : nat) (target : Z) (st st0 : St W) :
  waitReady fuel st = Done (None, st0) ->
  setBrightnessCallback fuel target st = setBrightness_ready fuel target st0.
Proof.
  intros H. unfold setBrightnessCallback, bind. rewrite H. reflexivity.
Qed.

(** C9. When [setBrightness] is called and the brightness measured at
    the start already equals the target, the service answers success at
    once, makes no device write, and leaves
    [brightness_service_running_] set to true: the flag is set before
    the comparison and the early return does not clear it. *)
Theorem C9_equal_brightness_leaves_flag_set
    (fuel : nat) (target : Z) (st st0 : St W) :
  waitReady fuel st = Done (None, st0) ->
  first_measure (world st0, node st0) = Done target ->
  exists st',
    setBrightnessCallback fuel target st = Done (true, st') /\
    brightness_service_running_ (node st') = true /\
    target_brightness_ (node st') = target /\
    world st' = fst (spinOnce (world st0) (node st0)) /\
    trace st' = trace st ++ [brightness_info] /\
    count is_device_write (trace st') = count is_device_write (trace st).
Proof.
  intros Hw Hm.
  rewrite (@setBrightnessCallback_after_wait fuel target st st0 Hw).
  rewrite (@setBrightness_ready_equal fuel target st0 Hm).
  eexists. split; [reflexivity|]. cbn [world node trace].
  rewrite (@waitReady_none fuel st st0 Hw).
  repeat split. rewrite count_app. cbn. lia.
Qed.

(** The runs of the callback that reach the wait loop and return: [k]
    waiting polls, then either the deadline has passed and the answer is
    failure, or the loop is left and the answer is the validation. *)
Lemma setBrightnessCallback_inv
    (fuel : nat) (target cur : Z) (st st' : St W) (res : bool) :
  isReady (world st) = true ->
  first_measure (world st, node st) = Done cur -> cur <> target ->
  setBrightnessCallback fuel target st = Done (res, st') ->
  let s1 := brightness_entry target (world st, node st) in
  let t0 := time_now (fst s1) in
  let D := brightness_duration target in
  let tr := trace st ++ [brightness_info; DeviceSetBrightness target] in
  exists k,
    (forall j, (j < k)%nat -> waiting t0 D (polls 5 j s1) = true) /\
    ((expired t0 D (polls 5 k s1) = true /\
      res = false /\
      st' = mkSt (fst (polls 5 k s1)) (set_running false (snd (polls 5 k s1)))
                 (tr ++ [brightness_late])) \/
     (released (polls 5 k s1) = true /\
      exists measured,
        calcCurrentBrightness NDEBUG
          (data (img_raw_msg_ (snd (polls 5 k s1)))) = Done measured /\
        res = (Z.abs (target - measured) <=? 2) /\
        st' = mkSt (fst (polls 5 k s1)) (snd (polls 5 k s1)) tr)).
Proof.
  intros Hready Hm Hne Hrun s1 t0 D tr.
  rewrite (@setBrightnessCallback_after_wait fuel target st st (@waitReady_ready fuel st Hready)) in Hrun.
  rewrite (@setBrightness_ready_enters fuel target cur st Hm Hne) in Hrun.
  fold s1 t0 D tr in Hrun.
  destruct (brightnessWait_loop fuel t0 D (mkSt (fst s1) (snd s1) tr))
    as [[r s]| |] eqn:Hloop; try discriminate.
  destruct (@brightnessWait_inv fuel _ _ _ _ _ _ _ Hloop) as (k & _ & Hwait & Hend).
  rewrite <- surjective_pairing in *.
  exists k. split; [exact Hwait|].
  destruct Hend as [(He & -> & ->)|(Hr & -> & ->)].
  - left. inversion Hrun; subst. auto.
  - right. split; [exact Hr|].
    destruct (@brightnessValidation_inv _ _ _ _ Hrun) as (m & Hcalc & Hres & ->).
    exists m. auto.
Qed.

(** One iteration of the readiness wait. *)
Lemma waitReady_loop_step (fuel : nat) (start : Z) (st : St W) :
  waitReady_loop (S fuel) start st =
    if unready (world st, node st) then
      if time_now (world st) - start >? seconds 3
      then Done (Some false, mkSt (world st) (node st) (trace st ++ [ready_late]))
      else waitReady_loop fuel start
             (mkSt (fst (poll 2 (world st, node st)))
                   (snd (poll 2 (world st, node st))) (trace st))
    else Done (None, st).
Proof.
  cbn [waitReady_loop]. unfold unready, poll, ready_late. cbn [fst snd]. run.
  destruct (ros_ok (world st) && negb (isReady (world st))); [|reflexivity].
  destruct (time_now (world st) - start >? seconds 3); [reflexivity|].
  destruct (spinOnce (world st) (node st)) as [w' n']. reflexivity.
Qed.

(** The readiness wait returns the same with more fuel. *)
Lemma waitReady_loop_more (fuel : nat) :
  forall start (st : St W) x,
  waitReady_loop fuel start st = Done x ->
  waitReady_loop (S fuel) start st = Done x.
Proof.
  induction fuel as [|fuel IH]; intros start st x H; [discriminate|].
  rewrite waitReady_loop_step in H. rewrite waitReady_loop_step.
  destruct (unready (world st, node st)); [|exact H].
  destruct (time_now (world st) - start >? seconds 3); [exact H|].
  apply IH. exact H.
Qed.

Lemma waitReady_more (fuel fuel' : nat) (st : St W) x :
  (fuel <= fuel')%nat ->
  waitReady fuel st = Done x -> waitReady fuel' st = Done x.
Proof.
  intros Hle. unfold waitReady. run.
  destruct (isReady (world st)); cbn [negb]; [auto|].
  induction Hle as [|m Hle IH]; [auto|].
  intros H. apply waitReady_loop_more. apply IH. exact H.
Qed.

(** After the readiness wait and [k] waiting polls the callback is the
    wait loop resumed at poll [k], followed by the validation. *)
Lemma setBrightnessCallback_polls
    (k fuel : nat) (target cur : Z) (st st0 : St W) :
  waitReady (k + S fuel) st = Done (None, st0) ->
  first_measure (world st0, node st0) = Done cur -> cur <> target ->
  let s1 := brightness_entry target (world st0, node st0) in
  let t0 := time_now (fst s1) in
  let D := brightness_duration target in
  let tr := trace st ++ [brightness_info; DeviceSetBrightness target] in
  (forall j, (j < k)%nat -> waiting t0 D (polls 5 j s1) = true) ->
  setBrightnessCallback (k + S fuel) target st =
    match brightnessWait_loop (S fuel) t0 D
            (mkSt (fst (polls 5 k s1)) (snd (polls 5 k s1)) tr) with
    | Done (Some b, s) => Done (b, s)
    | Done (None, s) => brightnessValidation target s
    | Crash f => Crash f
    | OutOfFuel => OutOfFuel
    end.
Proof.
  intros Hready Hm Hne s1 t0 D tr Hwait.
  rewrite (@setBrightnessCallback_after_wait (k + S fuel) target st st0 Hready).
  rewrite (@setBrightness_ready_enters (k + S fuel) target cur st0 Hm Hne).
  rewrite (@waitReady_none (k + S fuel) st st0 Hready).
  fold s1 t0 D tr.
  rewrite (@brightnessWait_polls_pair k (S fuel) t0 D s1 tr Hwait).
  reflexivity.
Qed.

(** If the deadline has passed at poll [k], the callback answers failure
    there and clears the flag. *)
Lemma setBrightnessCallback_expired
    (k fuel0 : nat) (target cur : Z) (st st0 : St W) :
  waitReady fuel0 st = Done (None, st0) ->
  first_measure (world st0, node st0) = Done cur -> cur <> target ->
  let s1 := brightness_entry target (world st0, node st0) in
  let t0 := time_now (fst s1) in
  let D := brightness_duration target in
  let tr := trace st ++ [brightness_info; DeviceSetBrightness target] in
  (forall j, (j < k)%nat -> waiting t0 D (polls 5 j s1) = true) ->
  expired t0 D (polls 5 k s1) = true ->
  forall fuel, (fuel0 <= fuel)%nat -> (k < fuel)%nat ->
    setBrightnessCallback fuel target st =
      Done (false,
            mkSt (fst (polls 5 k s1)) (set_running false (snd (polls 5 k s1)))
                 (tr ++ [brightness_late])).
Proof.
  intros Hready Hm Hne s1 t0 D tr Hwait Hexp fuel Hfuel0 Hfuel.
  apply (@waitReady_more fuel0 fuel st (None, st0) Hfuel0) in Hready.
  revert Hready. replace fuel with (k + S (fuel - S k))%nat by lia. intros Hready.
  rewrite (@setBrightnessCallback_polls k _ target cur st st0 Hready Hm Hne Hwait).
  fold s1 t0 D tr.
  rewrite brightnessWait_expired
    by (cbn [world node]; rewrite <- surjective_pairing; exact Hexp).
  reflexivity.
Qed.

(** C3 (amended). For a [setBrightness] call that has come through the
    readiness wait (at once on a ready device, or after polling), has
    issued the corrective device write and has then waited [k] polls:
    if at that poll the loop is left (the liveness flag has cleared, or
    [ros::ok()] has turned false) the service recomputes the brightness
    from the frame then in the buffer and answers success exactly when
    |measured - target| <= 2; if instead the deadline has passed, the
    flag is force-cleared and the answer is failure whatever the frame
    holds: no validation runs on that path. *)
Theorem C3_validation_only_when_released
    (k fuel0 : nat) (target cur : Z) (st st0 : St W) :
  waitReady fuel0 st = Done (None, st0) ->
  first_measure (world st0, node st0) = Done cur -> cur <> target ->
  let s1 := brightness_entry target (world st0, node st0) in
  let t0 := time_now (fst s1) in
  let D := brightness_duration target in
  let tr := trace st ++ [brightness_info; DeviceSetBrightness target] in
  (forall j, (j < k)%nat -> waiting t0 D (polls 5 j s1) = true) ->
  (released (polls 5 k s1) = true ->
   forall measured,
     calcCurrentBrightness NDEBUG
       (data (img_raw_msg_ (snd (polls 5 k s1)))) = Done measured ->
     Cxx.INT_MIN < target - measured <= Cxx.INT_MAX ->
     forall fuel, (fuel0 <= fuel)%nat -> (k < fuel)%nat ->
     exists res,
       setBrightnessCallback fuel target st =
         Done (res, mkSt (fst (polls 5 k s1)) (snd (polls 5 k s1)) tr) /\
       (res = true <-> Z.abs (measured - target) <= 2)) /\
  (expired t0 D (polls 5 k s1) = true ->
   forall fuel, (fuel0 <= fuel)%nat -> (k < fuel)%nat ->
     setBrightnessCallback fuel target st =
       Done (false,
             mkSt (fst (polls 5 k s1)) (set_running false (snd (polls 5 k s1)))
                  (tr ++ [brightness_late]))).
Proof.
  intros Hready Hm Hne s1 t0 D tr Hwait.
  split.
  - intros Hrel m Hcalc Hrange fuel Hfuel0 Hfuel.
    apply (@waitReady_more fuel0 fuel st (None, st0) Hfuel0) in Hready.
    revert Hready. replace fuel with (k + S (fuel - S k))%nat by lia. intros Hready.
    rewrite (@setBrightnessCallback_polls k _ target cur st st0 Hready Hm Hne Hwait).
    fold s1 t0 D tr.
    rewrite brightnessWait_released
      by (cbn [world node]; rewrite <- surjective_pairing; exact Hrel).
    rewrite (@brightnessValidation_run target m) by assumption.
    eexists. split; [reflexivity|].
    rewrite Z.leb_le. replace (m - target) with (- (target - m)) by lia.
    rewrite Z.abs_opp. reflexivity.
  - intros Hexp fuel Hfuel0 Hfuel.
    exact (@setBrightnessCallback_expired k fuel0 target cur st st0 Hready Hm Hne
             Hwait Hexp fuel Hfuel0 Hfuel).
Qed.

(** C8. A [setBrightness] call that enters the convergence wait, at once
    on a ready device or after the readiness wait, uses a deadline of
    exactly 15 s when the target is above 205 and exactly 5 s otherwise.
    With a liveness flag that never clears, a live ROS runtime and a
    clock that advances at every poll, the call answers failure at the
    first poll at which the time elapsed since the start of the
    convergence wait exceeds that deadline, and at no earlier poll. *)
Theorem C8_brightness_deadline (fuel0 : nat) (target cur : Z) (st st0 : St W) :
  waitReady fuel0 st = Done (None, st0) ->
  first_measure (world st0, node st0) = Done cur -> cur <> target ->
  let s1 := brightness_entry target (world st0, node st0) in
  let elapsed k := time_now (fst (polls 5 k s1)) - time_now (fst s1) in
  (forall k, ros_ok (fst (polls 5 k s1)) = true) ->
  (forall k, brightness_service_running_ (snd (polls 5 k s1)) = true) ->
  (forall k, time_now (fst (polls 5 k s1)) < time_now (fst (polls 5 (S k) s1))) ->
  brightness_duration target =
    (if target >? 205 then 15000000000 else 5000000000) /\
  exists k,
    (forall j, (j < k)%nat -> elapsed j <= brightness_duration target) /\
    elapsed k > brightness_duration target /\
    forall fuel, (fuel0 <= fuel)%nat -> (k < fuel)%nat ->
      setBrightnessCallback fuel target st =
        Done (false,
              mkSt (fst (polls 5 k s1)) (set_running false (snd (polls 5 k s1)))
                   (trace st ++ [brightness_info; DeviceSetBrightness target;
                                 brightness_late])).
Proof.
  intros Hready Hm Hne s1 elapsed Hok Hrun Hclock.
  split; [unfold brightness_duration, seconds; destruct (target >? 205); reflexivity|].
  destruct (@first_exceed elapsed (brightness_duration target)) as (k & Hk & Hbefore).
  { intros k. unfold elapsed. specialize (Hclock k). lia. }
  exists k. split; [exact Hbefore|]. split; [exact Hk|].
  intros fuel Hfuel0 Hfuel.
  rewrite (@setBrightnessCallback_expired k fuel0 target cur st st0 Hready Hm Hne).
  - rewrite <- app_assoc. reflexivity.
  - intros j Hj. unfold waiting. fold s1. rewrite Hok, Hrun. cbn [andb].
    apply negb_true_iff. rewrite Z.gtb_ltb. apply Z.ltb_ge.
    apply (Hbefore j Hj).
  - unfold expired. fold s1. rewrite Hok, Hrun. cbn [andb].
    rewrite Z.gtb_ltb. apply Z.ltb_lt. unfold elapsed in Hk. lia.
  - exact Hfuel0.
  - exact Hfuel.
Qed.

(** *** setExposureCallback *)

(** One iteration of the wait loop. *)
Lemma setExposure_loop_step (fuel : nat) (target : Cxx.float) (start : Z)
    (r : bool) (st : St W) :
  setExposure_loop (S fuel) target start r st =
    if negb (ros_ok (world st)) then Done (r, st)
    else if Cxx.flt (Cxx.fabs (Cxx.fsub (currentExposure (world st)) target))
                    (exposureStep (world st))
    then Done (true, st)
    else if time_now (world st) - start >? seconds 5
    then Done (false, mkSt (world st) (node st) (trace st ++ [exposure_late]))
    else setExposure_loop fuel target start false
           (mkSt (fst (poll 5 (world st, node st)))
                 (snd (poll 5 (world st, node st))) (trace st)).
Proof.
  cbn [setExposure_loop]. unfold poll. run.
  destruct (ros_ok (world st)); cbn [negb]; [|reflexivity].
  destruct (Cxx.flt _ _); [reflexivity|].
  destruct (time_now (world st) - start >? seconds 5); [reflexivity|].
  destruct (spinOnce (world st) (node st)) as [w' n']. reflexivity.
Qed.

(** The wait loop makes no device write. *)
Lemma setExposure_loop_writes (fuel : nat) :
  forall target start r (st : St W) res st',
  setExposure_loop fuel target start r st = Done (res, st') ->
  filter is_device_write (trace st') = filter is_device_write (trace st).
Proof.
  induction fuel as [|fuel IH]; intros target start r st res st' H; [discriminate|].
  rewrite setExposure_loop_step in H.
  destruct (negb (ros_ok (world st))).
  { inversion H. reflexivity. }
  destruct (Cxx.flt _ _).
  { inversion H. reflexivity. }
  destruct (time_now (world st) - start >? seconds 5).
  { inversion H. cbn [trace]. rewrite filter_app. cbn. now rewrite app_nil_r. }
  apply IH in H. exact H.
Qed.

(** With a clock that advances at every poll the wait loop returns. *)
Lemma setExposure_loop_returns (n : nat) :
  forall target start r (s : W * Node) tr,
  (forall k, time_now (fst (polls 5 k s)) < time_now (fst (polls 5 (S k) s))) ->
  time_now (fst s) - start + Z.of_nat n > seconds 5 ->
  exists res st',
    setExposure_loop (S n) target start r (mkSt (fst s) (snd s) tr) = Done (res, st').
Proof.
  induction n as [|n IH]; intros target start r s tr Hclock Hn;
    rewrite setExposure_loop_step; cbn [world node trace].
  - destruct (negb (ros_ok (fst s))); [eauto|].
    destruct (Cxx.flt _ _); [eauto|].
    replace (time_now (fst s) - start >? seconds 5) with true
      by (symmetry; rewrite Z.gtb_ltb; apply Z.ltb_lt; lia).
    eauto.
  - destruct (negb (ros_ok (fst s))); [eauto|].
    destruct (Cxx.flt _ _); [eauto|].
    destruct (time_now (fst s) - start >? seconds 5); [eauto|].
    rewrite <- surjective_pairing.
    apply IH.
    + intros k. specialize (Hclock (S k)).
      rewrite (polls_shift 5 (S k) s), (polls_shift 5 k s) in Hclock.
      exact Hclock.
    + pose proof (Hclock 0%nat) as H0. cbn [polls] in H0. lia.
Qed.

End Services.

(** ** The brightness estimate *)

(** C6 (amended). For every populated frame buffer whose byte sum fits
    in an int, the brightness used by the brightness service is the mean
    of the pixel bytes truncated to an integer, the largest [b] with
    [b * size <= sum], not the mean rounded to the nearest integer. *)
Theorem C6_brightness_is_truncated_mean (ndebug : bool) (d : list byte) :
  d <> [] -> pixel_sum d <= Cxx.INT_MAX ->
  exists b,
    calcCurrentBrightness ndebug d = Done b /\
    b = truncated_mean d /\
    b * Z.of_nat (List.length d) <= pixel_sum d
      < (b + 1) * Z.of_nat (List.length d).
Proof.
  intros Hd Hs. exists (truncated_mean d).
  split; [apply calcCurrentBrightness_truncates; assumption|].
  split; [reflexivity|].
  unfold truncated_mean.
  assert (0 < Z.of_nat (List.length d)) by (destruct d; [congruence | simpl; lia]).
  pose proof (Z.mul_div_le (pixel_sum d) _ H).
  pose proof (Z.mul_succ_div_gt (pixel_sum d) _ H). lia.
Qed.

Lemma C6_witness :
  exists b,
    calcCurrentBrightness false [x01; x02; x02] = Done b /\
    b = truncated_mean [x01; x02; x02] /\
    b * 3 <= pixel_sum [x01; x02; x02] < (b + 1) * 3.
Proof.
  apply (@C6_brightness_is_truncated_mean false [x01; x02; x02]).
  - discriminate.
  - vm_compute. discriminate.
Defined.

(** The mean of 1, 2, 2 is 5/3: it rounds to 2, the code returns 1. *)
Lemma C6_counterexample :
  rounded_mean [x01; x02; x02] = 2 /\
  calcCurrentBrightness false [x01; x02; x02] = Done 1 /\
  calcCurrentBrightness false [x01; x02; x02]
    <> Done (rounded_mean [x01; x02; x02]).
Proof. repeat split. vm_compute. discriminate. Qed.

(** C10, at a non-empty buffer of 8421505 bytes of value 255: the byte
    sum is 2147483775, above INT_MAX, so the int accumulator overflows
    and no brightness is returned, although the truncated mean of the
    buffer is 255. *)
Theorem C10_white_buffer_overflows :
  white_buffer <> [] /\
  List.length white_buffer = Z.to_nat 8421505 /\
  pixel_sum white_buffer = 2147483775 /\
  truncated_mean white_buffer = 255 /\
  forall ndebug, calcCurrentBrightness ndebug white_buffer = Crash SignedOverflow.
Proof.
  assert (Hlen : List.length white_buffer = Z.to_nat 8421505)
    by apply repeat_length.
  assert (Hsum : pixel_sum white_buffer = 2147483775).
  { unfold white_buffer. rewrite pixel_sum_repeat, Z2Nat.id by lia.
    reflexivity. }
  split.
  { intros H. rewrite H in Hlen. cbn [List.length] in Hlen. lia. }
  split; [exact Hlen|]. split; [exact Hsum|]. split.
  - unfold truncated_mean. rewrite Hsum, Hlen, Z2Nat.id by lia. reflexivity.
  - intros ndebug. apply calcCurrentBrightness_overflow.
    rewrite Hsum. unfold Cxx.INT_MAX. lia.
Qed.

(** What does hold of [calcCurrentBrightness]: a value in 0..255, the
    truncated mean, on every non-empty buffer of at most 8421504 bytes,
    and no value on the empty buffer. *)
Lemma calcCurrentBrightness_domain (ndebug : bool) (d : list byte) :
  (d <> [] -> Z.of_nat (List.length d) <= 8421504 ->
   calcCurrentBrightness ndebug d = Done (truncated_mean d) /\
   0 <= truncated_mean d <= 255) /\
  (d = [] ->
   calcCurrentBrightness ndebug d =
     Crash (if ndebug then DivisionByZero else AssertionFailed)).
Proof.
  split.
  - intros Hd Hlen. split; [|apply truncated_mean_range; assumption].
    apply calcCurrentBrightness_truncates; [assumption|].
    pose proof (pixel_sum_le d). unfold Cxx.INT_MAX. lia.
  - intros ->. apply calcCurrentBrightness_empty.
Qed.

(** ** Runs on the scripted rig *)

Lemma rig_poll_clock (hz : Z) (s : Rig * Node) :
  time_now (fst (poll hz s)) = time_now (fst s) + 1000000000 / hz.
Proof.
  unfold poll. cbn [spinOnce rate_sleep time_now RigRos].
  unfold rig_spinOnce. destruct (rig_auto_running (fst s)); reflexivity.
Qed.

Lemma rig_poll_advances (s : Rig * Node) :
  time_now (fst s) < time_now (fst (poll 5 s)).
Proof.
  rewrite rig_poll_clock. change (1000000000 / 5) with 200000000. lia.
Qed.

(** A rig whose auto function never finishes keeps the ROS runtime and
    the liveness flag as they are. *)
Lemma rig_polls_idle (hz : Z) (k : nat) (w : Rig) (n : Node) :
  auto_done_at w = None ->
  alive (fst (polls hz k (w, n))) = alive w /\
  auto_done_at (fst (polls hz k (w, n))) = None /\
  snd (polls hz k (w, n)) = n.
Proof.
  intros Hnone. induction k as [|k (Ha & Hd & Hn)]; [auto|].
  cbn [polls]. destruct (polls hz k (w, n)) as [w' n'].
  cbn [fst snd] in *. subst n'.
  unfold poll. cbn [spinOnce rate_sleep RigRos fst snd].
  unfold rig_spinOnce, rig_auto_running. rewrite Hd. cbn. auto.
Qed.

(** *** The sequence paths on a removed device *)

(** C1, at a device that is removed when the grab fails. The sequence
    action over one exposure reports [success = false] with no frames
    and requests no shutdown: its trace is the one of the same failure on
    an attached device. [grabSequence] over two exposures, both grabs
    failing, requests the shutdown twice. *)
Theorem C1_sequence_paths_on_removed_device :
  (exists st',
     sequenceRawActionExecuteCB (start (rig [None] true None) (node0 1 [x63]))
       = Done (tt, st') /\
     count is_shutdown (trace st') = 0%nat /\
     trace st' = [SetSucceeded (mkResult [] [Cxx.float_of_Z 1] false)] /\
     exists st'',
       sequenceRawActionExecuteCB (start (rig [None] false None) (node0 1 [x63]))
         = Done (tt, st'') /\
       trace st'' = trace st') /\
  (exists st',
     grabSequence (start (rig [None; None] true None) (node0 2 [x63]))
       = Done (false, st') /\
     count is_shutdown (trace st') = 2%nat).
Proof.
  split.
  - eexists. split; [vm_compute; reflexivity|].
    split; [reflexivity|]. split; [reflexivity|].
    eexists. split; [vm_compute; reflexivity | reflexivity].
  - eexists. split; [vm_compute; reflexivity | reflexivity].
Qed.

(** On the same device the single-frame grab requests the shutdown once. *)
Example grabImage_on_removed_device :
  exists st',
    grabImage (start (rig [None] true None) (node0 0 [x63])) = Done (false, st') /\
    trace st' = [ROS_ERROR "Pylon Camera has been removed!"; Shutdown].
Proof. eexists. split; [vm_compute; reflexivity | reflexivity]. Qed.

Lemma C2_witness :
  exists r st',
    sequenceRawActionExecuteCB
      (start (rig [Some [x0a]; None; Some [x14]] false None) (node0 3 [x63]))
      = Done (tt, st') /\
    trace st' = [SetSucceeded r] /\
    success r = false /\
    images r = [] /\
    exposure_times r = repeat (Cxx.float_of_Z 1) 3.
Proof.
  apply (@C2_failed_grab_clears_frames Rig RigRos
           (start (rig [Some [x0a]; None; Some [x14]] false None) (node0 3 [x63]))).
  vm_compute. auto.
Defined.

(** *** grabSequence *)

Lemma C4_witness :
  exists frame wm st',
    nth_error (burst 3 (rig [Some [x0a]; Some [x14]; Some [x1e]] false None) []) 1
      = Some (true, frame, wm) /\
    grabSequence
      (start (rig [Some [x0a]; Some [x14]; Some [x1e]] false None) (node0 3 [x63]))
      = Done (true, st') /\
    frame = [x14] /\
    data (img_raw_msg_ (node st')) = frame /\
    stamp (img_raw_msg_ (node st')) = 20000000.
Proof.
  destruct (@C4_burst_publishes_middle_frame Rig RigRos
              (start (rig [Some [x0a]; Some [x14]; Some [x1e]] false None)
                     (node0 3 [x63])))
    as (frame & wm & st' & Hnth & Hrun & _ & _ & Hdata & Hstamp & _).
  - cbn. lia.
  - intros r Hr. vm_compute in Hr.
    destruct Hr as [<-|[<-|[<-|[]]]]; reflexivity.
  - exists frame, wm, st'.
    assert (Hnth' := Hnth). vm_compute in Hnth'.
    assert (Hf : frame = [x14]) by congruence.
    assert (Hc : time_now wm = 20000000)
      by (inversion Hnth' as [[Hf' Hw']]; reflexivity).
    repeat split; try assumption. congruence.
Defined.

(** C5, at a burst of three grabs whose last grab fails on an attached
    device: [grabSequence] returns false, yet the frame buffer holds the
    second frame of the burst and its stamp, not the frame and the stamp
    it held before; the camera-info stamp is the old one. *)
Theorem C5_late_failure_overwrites_frame_buffer :
  exists st',
    grabSequence
      (start (rig [Some [x0a]; Some [x14]; None] false None) (node0 3 [x63]))
      = Done (false, st') /\
    data (img_raw_msg_ (node0 3 [x63])) = [x63] /\
    stamp (img_raw_msg_ (node0 3 [x63])) = -1 /\
    data (img_raw_msg_ (node st')) = [x14] /\
    stamp (img_raw_msg_ (node st')) = 20000000 /\
    cam_info_stamp (node st') = -1 /\
    count is_shutdown (trace st') = 0%nat.
Proof. eexists. split; [vm_compute; reflexivity|]. repeat split. Qed.

(** A failure at or before the middle index does leave the frame buffer
    as it was. *)
Example grabSequence_early_failure :
  exists st',
    grabSequence
      (start (rig [Some [x0a]; None; Some [x14]] false None) (node0 3 [x63]))
      = Done (false, st') /\
    img_raw_msg_ (node st') = img_raw_msg_ (node0 3 [x63]).
Proof. eexists. split; [vm_compute; reflexivity | reflexivity]. Qed.

(** *** setExposureCallback *)

(** A read that is float-equal to the target makes no write. *)
Example setExposure_equal_skips_write :
  exists st',
    setExposureCallback 1 (Cxx.float_of_Z 100)
      (start (rig [] false None) (node0 0 [x64])) = Done (true, st') /\
    trace st' = [].
Proof. eexists. split; [vm_compute; reflexivity | reflexivity]. Qed.

(** *** setBrightnessCallback *)

Lemma C9_witness :
  exists st',
    setBrightnessCallback 0 100 (start (rig [] false None) (node0 0 [x64]))
      = Done (true, st') /\
    brightness_service_running_ (node st') = true /\
    target_brightness_ (node st') = 100 /\
    trace st' = [brightness_info] /\
    count is_device_write (trace st') = 0%nat.
Proof.
  destruct (@C9_equal_brightness_leaves_flag_set Rig RigRos 0 100
              (start (rig [] false None) (node0 0 [x64]))
              (start (rig [] false None) (node0 0 [x64])) eq_refl eq_refl)
    as (st' & Hrun & Hflag & Htarget & _ & Htrace & Hcount).
  exists st'. repeat split; assumption.
Defined.

(** With a poll every 0.2 s the failure is reported 5.2 s after the
    start of the wait for a target of 101, and 15.2 s after it for a
    target of 206. *)
Example brightness_timeout_at_5s :
  exists st',
    setBrightnessCallback 27 101 stuck = Done (false, st') /\
    time_now (world st') = 5200000000.
Proof. eexists. split; [vm_compute; reflexivity | reflexivity]. Qed.

Example brightness_timeout_at_15s :
  exists st',
    setBrightnessCallback 77 206 stuck = Done (false, st') /\
    time_now (world st') = 15200000000.
Proof. eexists. split; [vm_compute; reflexivity | reflexivity]. Qed.

(** On the deadline path the frame reads 100, within 2 of the target
    101, and the answer is failure all the same: the validation is not
    run there. *)
Lemma C3_counterexample :
  exists st' measured,
    setBrightnessCallback 27 101 stuck = Done (false, st') /\
    filter is_device_write (trace st') = [DeviceSetBrightness 101] /\
    brightness_service_running_ (node st') = false /\
    calcCurrentBrightness false (data (img_raw_msg_ (node st'))) = Done measured /\
    ~ (false = true <-> Z.abs (measured - 101) <= 2).
Proof.
  eexists. exists 100. split; [vm_compute; reflexivity|].
  repeat split. intros [_ H]. discriminate H. vm_compute. discriminate.
Qed.

(** * Further properties of the node *)

(** ** The domain of the brightness estimate *)

(** X1. [calcCurrentBrightness] returns a value exactly on the non-empty
    buffers whose byte sum fits in an int, and the value is then the
    truncated mean of the bytes; on every other buffer the run ends in
    a failed assertion, a division by zero or a signed overflow. *)
Theorem X1_brightness_defined_iff (ndebug : bool) (d : list byte) (b : Z) :
  calcCurrentBrightness ndebug d = Done b <->
  d <> [] /\ pixel_sum d <= Cxx.INT_MAX /\ b = truncated_mean d.
Proof.
  split.
  - intros H. destruct d as [|x d].
    + destruct (calcCurrentBrightness_empty ndebug) as [_ He].
      rewrite He in H. discriminate.
    + destruct (Z_le_gt_dec (pixel_sum (x :: d)) Cxx.INT_MAX) as [Hs|Hs].
      * rewrite calcCurrentBrightness_truncates in H by (assumption || discriminate).
        inversion H. repeat split; [discriminate | assumption].
      * rewrite calcCurrentBrightness_overflow in H by lia. discriminate.
  - intros (Hd & Hs & ->). apply calcCurrentBrightness_truncates; assumption.
Qed.

(** X2. The brightness of a frame whose pixels all have the value [v] is
    [v], for every frame of 1 to 8421504 bytes. *)
Theorem X2_brightness_of_uniform_frame (ndebug : bool) (v : byte) (n : nat) :
  (0 < n)%nat -> Z.of_nat n <= 8421504 ->
  calcCurrentBrightness ndebug (repeat v n) = Done (Cxx.uint8 v).
Proof.
  intros Hn Hmax.
  pose proof (uint8_range v) as Hv.
  rewrite calcCurrentBrightness_truncates.
  - unfold truncated_mean. rewrite pixel_sum_repeat, repeat_length.
    rewrite Z.div_mul by lia. reflexivity.
  - destruct n; [lia | discriminate].
  - rewrite pixel_sum_repeat. unfold Cxx.INT_MAX. nia.
Qed.

Lemma X2_witness :
  calcCurrentBrightness false (repeat x80 4) = Done 128.
Proof.
  apply (@X2_brightness_of_uniform_frame false x80 4); [lia | cbn; lia].
Defined.

Section MoreGrabPaths.

Context {W : Type} {R : Ros W}.

(** ** spin *)

Lemma spin_skips (st : St W) :
  getNumSubscribers (world st) <= 0 \/ is_sleeping_ (node st) = true ->
  spin st = Done (tt, st).
Proof.
  intros H. unfold spin. run.
  replace ((getNumSubscribers (world st) >? 0) && negb (is_sleeping_ (node st)))
    with false; [reflexivity|].
  symmetry. destruct H as [H|H].
  - replace (getNumSubscribers (world st) >? 0) with false; [reflexivity|].
    symmetry. rewrite Z.gtb_ltb. apply Z.ltb_ge. lia.
  - rewrite H. apply andb_false_r.
Qed.

(** X3. A tick with no subscriber, or on a sleeping node, does nothing:
    the device is neither probed nor grabbed from, the members are as
    they were and nothing is logged or published. *)
Theorem X3_spin_idle (st : St W) :
  getNumSubscribers (world st) <= 0 \/ is_sleeping_ (node st) = true ->
  spin st = Done (tt, st).
Proof. apply spin_skips. Qed.

Lemma spin_active (st : St W) :
  0 < getNumSubscribers (world st) -> is_sleeping_ (node st) = false ->
  spin st =
    match grabImage (mkSt (world st) (probed st) (trace st)) with
    | Done (true, s) =>
        Done (tt, mkSt (world s) (node s)
                       (trace s ++ [Publish (img_raw_msg_ (node s))
                                            (cam_info_stamp (node s))]))
    | Done (false, s) => Done (tt, s)
    | Crash f => Crash f
    | OutOfFuel => OutOfFuel
    end.
Proof.
  intros Hs Hz. unfold spin, checkForPylonAutoFunctionRunning, probed.
  unfold bind at 1 2. unfold ask at 1, member at 1. cbn [world node trace].
  replace (getNumSubscribers (world st) >? 0) with true
    by (symmetry; rewrite Z.gtb_ltb; apply Z.ltb_lt; lia).
  rewrite Hz. cbn [negb andb].
  unfold bind at 1 2. unfold ask at 1. cbn [world node trace].
  destruct (isAutoBrightnessFunctionRunning (world st)) as [b|].
  - unfold bind at 1. unfold assign at 1. unfold ret at 1. unfold bind at 1.
    cbn [world node trace].
    destruct (grabImage _) as [[[|] s]| |]; try reflexivity.
  - unfold ret at 1. unfold bind at 1.
    replace (mkSt (world st) (node st) (trace st)) with st by (destruct st; reflexivity).
    destruct (grabImage st) as [[[|] s]| |]; try reflexivity.
Qed.

Lemma grabImage_ok (st : St W) :
  fst (fst (grab (world st) (data (img_raw_msg_ (node st))))) = true ->
  grabImage st =
    Done (true,
          mkSt (snd (grab (world st) (data (img_raw_msg_ (node st)))))
               (set_cam_info_stamp
                  (time_now (snd (grab (world st) (data (img_raw_msg_ (node st))))))
                  (set_img_stamp
                     (time_now (snd (grab (world st) (data (img_raw_msg_ (node st))))))
                     (set_img_data
                        (snd (fst (grab (world st) (data (img_raw_msg_ (node st))))))
                        (node st))))
               (trace st)).
Proof.
  intros Hok. unfold grabImage. run.
  destruct (grab (world st) (data (img_raw_msg_ (node st)))) as [[ok buf] w'].
  cbn [fst snd] in *. subst ok. reflexivity.
Qed.

Lemma grabImage_failed (st : St W) :
  fst (fst (grab (world st) (data (img_raw_msg_ (node st))))) = false ->
  let g := grab (world st) (data (img_raw_msg_ (node st))) in
  grabImage st =
    Done (false,
          mkSt (if isCamRemoved (snd g) then ros_shutdown (snd g) else snd g)
               (set_img_data (snd (fst g)) (node st))
               (trace st ++
                if isCamRemoved (snd g)
                then [ROS_ERROR "Pylon Camera has been removed!"; Shutdown]
                else [ROS_WARN "Pylon Interface returned invalid image! Skipping"])).
Proof.
  intros Hok g. unfold grabImage. subst g. run.
  destruct (grab (world st) (data (img_raw_msg_ (node st)))) as [[ok buf] w'].
  cbn [fst snd] in *. subst ok. cbn [negb world node trace].
  destruct (isCamRemoved w'); cbn [world node trace].
  - rewrite <- app_assoc. reflexivity.
  - reflexivity.
Qed.

(** X4. A tick with a subscriber on a node that is awake, whose grab
    succeeds: the grabbed frame is in the frame buffer, the image and
    the camera info carry one and the same stamp, the time read after
    the grab, and exactly that pair is published, once. The liveness
    flag is what the device's auto function reports, or is left as it
    was when that probe throws. *)
Theorem X4_spin_publishes_grabbed_frame (st : St W) :
  0 < getNumSubscribers (world st) -> is_sleeping_ (node st) = false ->
  fst (fst (grab (world st) (data (img_raw_msg_ (node st))))) = true ->
  let g := grab (world st) (data (img_raw_msg_ (node st))) in
  exists st',
    spin st = Done (tt, st') /\
    world st' = snd g /\
    data (img_raw_msg_ (node st')) = snd (fst g) /\
    stamp (img_raw_msg_ (node st')) = time_now (snd g) /\
    cam_info_stamp (node st') = time_now (snd g) /\
    trace st' =
      trace st ++ [Publish (img_raw_msg_ (node st')) (cam_info_stamp (node st'))] /\
    brightness_service_running_ (node st') =
      match isAutoBrightnessFunctionRunning (world st) with
      | Some b => b
      | None => brightness_service_running_ (node st)
      end.
Proof.
  intros Hs Hz Hok g. rewrite (spin_active st Hs Hz).
  assert (Hd : data (img_raw_msg_ (probed st)) = data (img_raw_msg_ (node st)))
    by (unfold probed; destruct (isAutoBrightnessFunctionRunning (world st)); reflexivity).
  rewrite grabImage_ok; cbn [world node trace]; rewrite Hd; [|exact Hok].
  fold g. eexists. split; [reflexivity|]. cbn [world node trace].
  repeat split.
  unfold probed. destruct (isAutoBrightnessFunctionRunning (world st)); reflexivity.
Qed.

(** X5. A tick whose grab fails publishes nothing and leaves all three
    stamps as they were. It logs an error and requests the shutdown when
    the device reports removed, and logs a warning otherwise. *)
Theorem X5_spin_failed_grab_publishes_nothing (st : St W) :
  0 < getNumSubscribers (world st) -> is_sleeping_ (node st) = false ->
  fst (fst (grab (world st) (data (img_raw_msg_ (node st))))) = false ->
  let g := grab (world st) (data (img_raw_msg_ (node st))) in
  exists st',
    spin st = Done (tt, st') /\
    stamp (img_raw_msg_ (node st')) = stamp (img_raw_msg_ (node st)) /\
    cam_info_stamp (node st') = cam_info_stamp (node st) /\
    exp_times_stamp (node st') = exp_times_stamp (node st) /\
    trace st' =
      trace st ++
      (if isCamRemoved (snd g)
       then [ROS_ERROR "Pylon Camera has been removed!"; Shutdown]
       else [ROS_WARN "Pylon Interface returned invalid image! Skipping"]).
Proof.
  intros Hs Hz Hok g. rewrite (spin_active st Hs Hz).
  assert (Hd : data (img_raw_msg_ (probed st)) = data (img_raw_msg_ (node st)))
    by (unfold probed; destruct (isAutoBrightnessFunctionRunning (world st)); reflexivity).
  rewrite grabImage_failed; cbn [world node trace]; rewrite Hd; [|exact Hok].
  fold g. eexists. split; [reflexivity|]. cbn [world node trace].
  unfold probed. destruct (isAutoBrightnessFunctionRunning (world st));
    repeat split.
Qed.

(** X6. [setSleepingCallback] answers success whatever it is asked and
    changes nothing but the sleeping switch; after it was asked to
    sleep, a tick does nothing, however many subscribers there are. *)
Theorem X6_sleeping_node_does_not_grab (st : St W) :
  exists st1,
    setSleepingCallback true st = Done (true, st1) /\
    world st1 = world st /\
    node st1 = set_sleeping true (node st) /\
    trace st1 = trace st ++ [ROS_INFO "Seting Pylon Camera Node to sleep..."] /\
    spin st1 = Done (tt, st1) /\
    exists st2,
      setSleepingCallback false st1 = Done (true, st2) /\
      world st2 = world st /\
      node st2 = set_sleeping false (node st).
Proof.
  eexists. split; [reflexivity|]. cbn [world node trace].
  repeat split.
  - apply spin_skips. right. reflexivity.
  - eexists. split; [reflexivity|]. cbn [world node trace]. split; reflexivity.
Qed.

(** ** The sequence paths *)

Lemma update_at_middle {A} (f : A -> A) (x : A) (pre post : list A) :
  update_at (List.length pre) f (pre ++ x :: post) = pre ++ f x :: post.
Proof.
  induction pre as [|y pre IH]; [reflexivity|].
  cbn [List.length app update_at]. now rewrite IH.
Qed.

Lemma nth_middle_default {A} (d x : A) (pre post : list A) :
  nth (List.length pre) (pre ++ x :: post) d = x.
Proof. induction pre as [|y pre IH]; [reflexivity | exact IH]. Qed.

(** The loop of the action callback fills the result vector from the
    left with the frames of the successive grabs. *)
Lemma sequenceRaw_loop_frames (todo : nat) :
  forall pre times ok (st : St W),
  exists result' st',
    sequenceRaw_loop todo (List.length pre)
      (mkResult (pre ++ repeat empty_image todo) times ok) st
      = Done (result', st') /\
    images result' = pre ++ fresh_frames todo (world st).
Proof.
  induction todo as [|todo IH]; intros pre times ok st.
  - eexists. eexists. split; [reflexivity|]. reflexivity.
  - cbn [sequenceRaw_loop fresh_frames repeat]. run. cbn [images exposure_times success].
    rewrite nth_middle_default. cbn [data empty_image].
    destruct (grab (world st) []) as [[got buf] w'] eqn:G.
    cbn [fst snd world node trace].
    rewrite update_at_middle.
    match goal with
    | |- context [mkResult (pre ++ ?img :: repeat empty_image todo) times ?ok'] =>
        destruct (IH (pre ++ [img]) times ok'
                     (mkSt w' (node st) (trace st))) as (r & s & Hrun & Himg)
    end.
    rewrite length_app, Nat.add_1_r, <- app_assoc in Hrun. cbn [app] in Hrun.
    exists r, s. split; [exact Hrun|].
    rewrite Himg, <- app_assoc. reflexivity.
Qed.

Lemma fresh_frames_length (k : nat) :
  forall w : W, List.length (fresh_frames k w) = k.
Proof.
  induction k as [|k IH]; intros w; [reflexivity|].
  cbn [fresh_frames]. destruct (grab w []) as [[ok buf] w']. cbn. now rewrite IH.
Qed.

(** X7. When every grab of the sequence action returns true, the result
    reported through [setSucceeded] has [success = true], echoes the
    configured exposure times and carries exactly one image per
    configured exposure, in the order of the grabs: image [i] holds the
    frame of grab [i], the metadata read before that grab and the time
    read right after it. *)
Theorem X7_sequence_action_frames_in_order (st : St W) :
  let N := List.length (desired_seq_exp_times_ (node st)) in
  forallb (fun b => b) (fresh_grabs N (world st)) = true ->
  exists r st',
    sequenceRawActionExecuteCB st = Done (tt, st') /\
    trace st' = trace st ++ [SetSucceeded r] /\
    success r = true /\
    exposure_times r = desired_seq_exp_times_ (node st) /\
    images r = fresh_frames N (world st) /\
    List.length (images r) = List.length (exposure_times r).
Proof.
  intros N Hall. unfold sequenceRawActionExecuteCB. run. fold N.
  destruct (@sequenceRaw_loop_spec W R N 0%nat
              (mkResult (repeat empty_image N) (desired_seq_exp_times_ (node st)) true)
              st (blank_from_repeat N))
    as (r & s' & Hrun & Hs & He & Hn & Ht).
  destruct (sequenceRaw_loop_frames N [] (desired_seq_exp_times_ (node st)) true st)
    as (r2 & s2 & Hrun2 & Himg).
  cbn [List.length app] in Hrun2. rewrite Hrun in Hrun2.
  inversion Hrun2; subst r2 s2. clear Hrun2.
  rewrite Hrun. cbn [success exposure_times andb app] in *.
  rewrite Hall in Hs. rewrite Hs. cbn [negb].
  exists r. eexists. split; [reflexivity|]. cbn [trace].
  rewrite Ht, He, Himg, fresh_frames_length.
  repeat split. exact Hs.
Qed.

(** X8. With no exposure configured both sequence paths succeed without
    a single grab: [grabSequence] returns true and only copies the image
    stamp to the camera info and the exposure times, and the sequence
    action reports [success = true] with no image. *)
Theorem X8_empty_sequence (st : St W) :
  desired_seq_exp_times_ (node st) = [] ->
  grabSequence st =
    Done (true,
          mkSt (world st)
               (set_exp_times_stamp (stamp (img_raw_msg_ (node st)))
                  (set_cam_info_stamp (stamp (img_raw_msg_ (node st))) (node st)))
               (trace st)) /\
  sequenceRawActionExecuteCB st =
    Done (tt, mkSt (world st) (node st)
                   (trace st ++ [SetSucceeded (mkResult [] [] true)])).
Proof.
  intros H. unfold grabSequence, sequenceRawActionExecuteCB. run.
  rewrite H. split; reflexivity.
Qed.

(** The loop of [grabSequence] runs all its grabs whatever they return,
    logs each failed grab once and touches no stamp but the image's. *)
Lemma grabSequence_loop_report (k : nat) :
  forall i mid ok buf (st : St W),
  exists st',
    grabSequence_loop k i mid ok buf st =
      Done (ok && forallb fst (burst_report k (world st) buf), st') /\
    trace st' = trace st ++ flat_map grab_log (burst_report k (world st) buf) /\
    cam_info_stamp (node st') = cam_info_stamp (node st) /\
    exp_times_stamp (node st') = exp_times_stamp (node st) /\
    desired_seq_exp_times_ (node st') = desired_seq_exp_times_ (node st).
Proof.
  induction k as [|k IH]; intros i mid ok buf st.
  - exists st. cbn. rewrite andb_true_r, app_nil_r. repeat split.
  - cbn [grabSequence_loop burst_report]. run.
    destruct (grab (world st) buf) as [[got buf'] w'] eqn:G.
    cbn [fst snd world node trace].
    destruct got; cbn [negb andb world node trace].
    + destruct (Nat.eqb i mid && ok); cbn [world node trace];
        match goal with
        | |- context [grabSequence_loop k (S i) mid ok buf' ?s] =>
            destruct (IH (S i) mid ok buf' s) as (s' & Hrun & Ht & Hc & He & Hd)
        end;
        exists s'; rewrite Hrun; cbn [world node trace forallb flat_map fst grab_log app] in *;
        repeat split; assumption.
    + destruct (isCamRemoved w'); cbn [world node trace];
        rewrite andb_false_r;
        match goal with
        | |- context [grabSequence_loop k (S i) mid false buf' ?s] =>
            destruct (IH (S i) mid false buf' s) as (s' & Hrun & Ht & Hc & He & Hd)
        end;
        exists s'; rewrite Hrun; cbn [world node trace forallb flat_map fst snd grab_log andb] in *;
        rewrite andb_false_r;
        (split; [reflexivity|]); (split; [|repeat split; assumption]);
        rewrite Ht, <- !app_assoc; reflexivity.
Qed.

(** X9. [grabSequence] never stops early and never fails to return: it
    makes all N grabs, returns true exactly when every one of them
    returned true, and logs each failed grab once, with an error and a
    shutdown request when the device reported removed after that grab
    and an info message otherwise. When it returns false the camera-info
    and exposure-times stamps are the ones from before the burst. *)
Theorem X9_grabSequence_report (st : St W) :
  let N := List.length (desired_seq_exp_times_ (node st)) in
  let report := burst_report N (world st) [] in
  exists st',
    grabSequence st = Done (forallb fst report, st') /\
    List.length report = N /\
    trace st' = trace st ++ flat_map grab_log report /\
    (forallb fst report = false ->
     cam_info_stamp (node st') = cam_info_stamp (node st) /\
     exp_times_stamp (node st') = exp_times_stamp (node st)) /\
    (forallb fst report = true ->
     trace st' = trace st /\
     cam_info_stamp (node st') = stamp (img_raw_msg_ (node st')) /\
     exp_times_stamp (node st') = stamp (img_raw_msg_ (node st'))).
Proof.
  intros N report. unfold grabSequence. run. fold N.
  destruct (grabSequence_loop_report N 0 (Nat.div N 2) true [] st)
    as (s' & Hrun & Ht & Hc & He & Hd).
  fold report in Hrun, Ht. rewrite Hrun. cbn [andb].
  assert (Hlen : List.length report = N).
  { unfold report. clear. generalize (world st) (@nil byte).
    induction N as [|n IH]; intros w buf; [reflexivity|].
    cbn [burst_report]. destruct (grab w buf) as [[ok buf'] w'].
    cbn [List.length]. now rewrite IH. }
  destruct (forallb fst report) eqn:Hall; cbn [negb world node trace].
  - eexists. split; [reflexivity|]. cbn [world node trace].
    assert (Hnil : flat_map grab_log report = []).
    { clear - Hall. induction report as [|[ok gone] l IH]; [reflexivity|].
      cbn [forallb fst] in Hall. apply andb_true_iff in Hall.
      destruct Hall as [-> Hl]. cbn. apply IH. exact Hl. }
    rewrite Ht, Hnil, app_nil_r.
    repeat split; try assumption; try discriminate.
  - exists s'. split; [reflexivity|].
    repeat split; try assumption; discriminate.
Qed.

End MoreGrabPaths.

Section MoreServices.

Context {W : Type} {R : Ros W}.

(** ** setExposureCallback *)

Lemma setExposureCallback_entry (fuel : nat) (target : Cxx.float) (st : St W) :
  isReady (world st) = true ->
  setExposureCallback fuel target st =
    setExposure_loop fuel target (time_now (exposure_entry target (world st))) false
      (mkSt (exposure_entry target (world st)) (node st)
            (trace st ++ exposure_writes target (world st))).
Proof.
  intros Hready.
  unfold setExposureCallback, exposure_entry, exposure_writes, Cxx.fne, Cxx.feq.
  run. rewrite Hready. cbn [negb].
  destruct (SFeqb (currentExposure (world st)) target); cbn [negb world node trace].
  - rewrite app_nil_r. destruct st; reflexivity.
  - reflexivity.
Qed.

Lemma exposure_cases (target : Cxx.float) (start : Z) (s : W * Node) :
  ros_ok (fst s) = false \/
  (ros_ok (fst s) = true /\ within_step target (fst s) = true) \/
  exposure_expired target start s = true \/
  exposure_pending target start s = true.
Proof.
  unfold exposure_expired, exposure_pending.
  destruct (ros_ok (fst s)); [|now left].
  destruct (within_step target (fst s)); [right; left; split; reflexivity|].
  destruct (time_now (fst s) - start >? seconds 5); cbn; auto.
Qed.

Lemma setExposure_loop_pending (fuel : nat) (target : Cxx.float) (start : Z)
    (r : bool) (st : St W) :
  exposure_pending target start (world st, node st) = true ->
  setExposure_loop (S fuel) target start r st =
    setExposure_loop fuel target start false
      (mkSt (fst (poll 5 (world st, node st)))
            (snd (poll 5 (world st, node st))) (trace st)).
Proof.
  unfold exposure_pending, within_step. cbn [fst snd]. intros H.
  apply andb_true_iff in H. destruct H as [H H3].
  apply andb_true_iff in H. destruct H as [H1 H2].
  apply negb_true_iff in H2. apply negb_true_iff in H3.
  rewrite setExposure_loop_step, H1, H2, H3. reflexivity.
Qed.

Lemma setExposure_loop_expired (fuel : nat) (target : Cxx.float) (start : Z)
    (r : bool) (st : St W) :
  exposure_expired target start (world st, node st) = true ->
  setExposure_loop (S fuel) target start r st =
    Done (false, mkSt (world st) (node st) (trace st ++ [exposure_late])).
Proof.
  unfold exposure_expired, within_step. cbn [fst snd]. intros H.
  apply andb_true_iff in H. destruct H as [H H3].
  apply andb_true_iff in H. destruct H as [H1 H2].
  apply negb_true_iff in H2.
  rewrite setExposure_loop_step, H1, H2, H3. reflexivity.
Qed.

Lemma setExposure_loop_within (fuel : nat) (target : Cxx.float) (start : Z)
    (r : bool) (st : St W) :
  ros_ok (world st) = true -> within_step target (world st) = true ->
  setExposure_loop (S fuel) target start r st = Done (true, st).
Proof.
  unfold within_step. intros H1 H2.
  rewrite setExposure_loop_step, H1, H2. reflexivity.
Qed.

Lemma setExposure_loop_not_ok (fuel : nat) (target : Cxx.float) (start : Z)
    (r : bool) (st : St W) :
  ros_ok (world st) = false ->
  setExposure_loop (S fuel) target start r st = Done (r, st).
Proof. intros H. rewrite setExposure_loop_step, H. reflexivity. Qed.

Lemma setExposure_loop_polls (k : nat) :
  forall fuel target start (s : W * Node) tr,
  (forall j, (j < k)%nat -> exposure_pending target start (polls 5 j s) = true) ->
  setExposure_loop (k + fuel) target start false (mkSt (fst s) (snd s) tr) =
  setExposure_loop fuel target start false
    (mkSt (fst (polls 5 k s)) (snd (polls 5 k s)) tr).
Proof.
  induction k as [|k IH]; intros fuel target start s tr Hp; [reflexivity|].
  cbn [Nat.add]. rewrite setExposure_loop_pending
    by (cbn [world node]; rewrite <- surjective_pairing; apply (Hp 0%nat); lia).
  cbn [world node trace]. rewrite <- surjective_pairing.
  rewrite IH.
  - rewrite <- polls_shift. reflexivity.
  - intros j Hj. rewrite <- polls_shift. apply Hp. lia.
Qed.

(** Every run of the exposure wait that returns is [k] pending polls
    followed by one of its three exits. *)
Lemma setExposure_loop_inv (fuel : nat) :
  forall target start (s : W * Node) tr res st',
  setExposure_loop fuel target start false (mkSt (fst s) (snd s) tr) = Done (res, st') ->
  exists k,
    (forall j, (j < k)%nat -> exposure_pending target start (polls 5 j s) = true) /\
    world st' = fst (polls 5 k s) /\ node st' = snd (polls 5 k s) /\
    ((ros_ok (world st') = false /\ res = false /\ trace st' = tr) \/
     (ros_ok (world st') = true /\ within_step target (world st') = true /\
      res = true /\ trace st' = tr) \/
     (exposure_expired target start (polls 5 k s) = true /\ res = false /\
      trace st' = tr ++ [exposure_late])).
Proof.
  induction fuel as [|fuel IH]; intros target start s tr res st' Hrun; [discriminate|].
  destruct (exposure_cases target start s) as [Hn|[[Ho Hw]|[He|Hp]]].
  - rewrite setExposure_loop_not_ok in Hrun by exact Hn.
    inversion Hrun; subst. exists 0%nat. cbn [polls world node trace].
    split; [intros j Hj; lia|]. split; [reflexivity|]. split; [reflexivity|].
    left. auto.
  - rewrite setExposure_loop_within in Hrun by assumption.
    inversion Hrun; subst. exists 0%nat. cbn [polls world node trace].
    split; [intros j Hj; lia|]. split; [reflexivity|]. split; [reflexivity|].
    right. left. auto.
  - rewrite setExposure_loop_expired in Hrun
      by (cbn [world node]; rewrite <- surjective_pairing; exact He).
    inversion Hrun; subst. exists 0%nat. cbn [polls world node trace].
    split; [intros j Hj; lia|]. split; [reflexivity|]. split; [reflexivity|].
    right. right. auto.
  - rewrite setExposure_loop_pending in Hrun
      by (cbn [world node]; rewrite <- surjective_pairing; exact Hp).
    cbn [world node trace] in Hrun. rewrite <- surjective_pairing in Hrun.
    destruct (IH _ _ _ _ _ _ Hrun) as (k & Hpend & Hw & Hn & Hend).
    exists (S k). rewrite polls_shift. split; [|auto].
    intros [|j] Hj; [exact Hp|]. rewrite polls_shift. apply Hpend. lia.
Qed.

(** C7. With the device ready, [setExposureCallback] applies
    [setExposure(target)] to the device exactly once, before its wait,
    when the exposure read at the start is not float-equal to the
    target, however small the difference, and leaves the device alone
    when it is float-equal: every run that returns has made exactly that
    write or none, ends in the world that [k] polls lead to from the
    device so written, and answers success exactly when [ros::ok()]
    holds there and the exposure read there is within one step of the
    target. With a clock that advances at every poll the call returns. *)
Theorem C7_exposure_write_iff_not_equal (target : Cxx.float) (st : St W) :
  isReady (world st) = true ->
  let equal := Cxx.feq (currentExposure (world st)) target in
  let w1 := if equal then world st else setExposure target (world st) in
  let writes := if equal then [] else [DeviceSetExposure target] in
  let s1 := (w1, node st) in
  (forall fuel res st',
     setExposureCallback fuel target st = Done (res, st') ->
     filter is_device_write (trace st') =
       filter is_device_write (trace st) ++ writes /\
     exists k,
       (forall j, (j < k)%nat ->
          exposure_pending target (time_now w1) (polls 5 j s1) = true) /\
       world st' = fst (polls 5 k s1) /\
       node st' = snd (polls 5 k s1) /\
       (res = true <->
        ros_ok (world st') = true /\ within_step target (world st') = true)) /\
  ((forall k, time_now (fst (polls 5 k s1)) < time_now (fst (polls 5 (S k) s1))) ->
   exists fuel res st', setExposureCallback fuel target st = Done (res, st')).
Proof.
  intros Hready equal w1 writes s1.
  assert (Hw1 : exposure_entry target (world st) = w1).
  { unfold exposure_entry, w1, equal, Cxx.fne, Cxx.feq.
    destruct (SFeqb (currentExposure (world st)) target); reflexivity. }
  assert (Hwr : exposure_writes target (world st) = writes) by reflexivity.
  split.
  - intros fuel res st' Hrun.
    rewrite (setExposureCallback_entry fuel target st Hready), Hw1, Hwr in Hrun.
    split.
    + pose proof (@setExposure_loop_writes W R _ _ _ _ _ _ _ Hrun) as Hf.
      cbn [trace] in Hf. rewrite Hf, filter_app. f_equal.
      unfold writes. destruct equal; reflexivity.
    + change w1 with (fst s1) in Hrun at 2.
      change (node st) with (snd s1) in Hrun at 1.
      destruct (setExposure_loop_inv _ _ _ _ _ Hrun) as (k & Hpend & Hw & Hn & Hend).
      exists k. split; [exact Hpend|]. split; [exact Hw|]. split; [exact Hn|].
      destruct Hend as [(Ho & -> & _)|[(Ho & Hin & -> & _)|(He & -> & _)]].
      * split; [discriminate|]. intros [Ho' _]. rewrite Ho in Ho'. discriminate.
      * split; auto.
      * split; [discriminate|]. intros [_ Hin].
        unfold exposure_expired in He. rewrite <- Hw in He.
        apply andb_true_iff in He. destruct He as [He _].
        apply andb_true_iff in He. destruct He as [_ He].
        rewrite Hin in He. discriminate.
  - intros Hclock.
    destruct (@setExposure_loop_returns W R (Z.to_nat (seconds 5 + 1)) target
                (time_now (fst s1)) false s1 (trace st ++ writes) Hclock)
      as (res & st' & Hrun).
    + unfold seconds. lia.
    + exists (S (Z.to_nat (seconds 5 + 1))), res, st'.
      rewrite (setExposureCallback_entry _ target st Hready), Hw1, Hwr.
      exact Hrun.
Qed.

(** X10. Called while the device is not ready, [setExposureCallback]
    answers failure at once, for any fuel: it reads no exposure, writes
    nothing to the device, does not poll or sleep, and logs nothing. *)
Theorem X10_setExposure_not_ready (fuel : nat) (target : Cxx.float) (st : St W) :
  isReady (world st) = false ->
  setExposureCallback fuel target st = Done (false, st).
Proof.
  intros H. unfold setExposureCallback. run. rewrite H. reflexivity.
Qed.

(** X11. What an answer of [setExposureCallback] on a ready device
    means. Success: in the world the call returns in, [ros::ok()] holds
    and the exposure read from the device is within one exposure step
    of the target. Failure: [ros::ok()] no longer holds there, or the
    exposure is still not within one step more than 5 s after the start
    of the wait and the error is logged. *)
Theorem X11_setExposure_answer_sound
    (fuel : nat) (target : Cxx.float) (st st' : St W) (res : bool) :
  isReady (world st) = true ->
  setExposureCallback fuel target st = Done (res, st') ->
  let tr := trace st ++ exposure_writes target (world st) in
  let start := time_now (exposure_entry target (world st)) in
  (res = true ->
   ros_ok (world st') = true /\ within_step target (world st') = true /\
   trace st' = tr) /\
  (res = false ->
   (ros_ok (world st') = false /\ trace st' = tr) \/
   (within_step target (world st') = false /\
    time_now (world st') - start > 5000000000 /\
    trace st' = tr ++ [exposure_late])).
Proof.
  intros Hready Hrun tr start.
  rewrite (setExposureCallback_entry fuel target st Hready) in Hrun.
  change (exposure_entry target (world st))
    with (fst (exposure_entry target (world st), node st)) in Hrun at 2.
  change (node st)
    with (snd (exposure_entry target (world st), node st)) in Hrun at 1.
  destruct (setExposure_loop_inv _ _ _ _ _ Hrun) as (k & _ & Hw & Hn & Hend).
  fold tr in Hend.
  destruct Hend as [(Ho & -> & Ht)|[(Ho & Hin & -> & Ht)|(He & -> & Ht)]].
  - split; [discriminate|]. intros _. left. auto.
  - split; [auto | discriminate].
  - split; [discriminate|]. intros _. right.
    unfold exposure_expired in He. rewrite <- Hw in He.
    apply andb_true_iff in He. destruct He as [He H3].
    apply andb_true_iff in He. destruct He as [H1 H2].
    apply negb_true_iff in H2. rewrite Z.gtb_ltb in H3. apply Z.ltb_lt in H3.
    unfold seconds in H3. cbn [fst] in H3. fold start in H3.
    repeat split; [assumption | lia | assumption].
Qed.

(** Below a positive distance there is a positive step. *)
Lemma flt_abs_positive (x y : Cxx.float) :
  Cxx.flt (Cxx.fabs x) y = true -> Cxx.flt (S754_zero false) y = true.
Proof.
  unfold Cxx.flt, Cxx.fabs, SFltb.
  destruct x as [sx|sx| |sx mx ex]; destruct y as [sy|sy| |sy my ey];
    cbn; try discriminate; try (destruct sy; cbn; congruence); auto.
Qed.

(** X12. On a device whose exposure step is not positive (zero, negative
    or not a number) [setExposureCallback] never answers success, not
    even when the exposure read equals the target: the convergence test
    is a strict [<] against the step. *)
Theorem X12_setExposure_needs_positive_step
    (fuel : nat) (target : Cxx.float) (st st' : St W) (res : bool) :
  isReady (world st) = true ->
  (forall k,
     Cxx.flt (S754_zero false)
       (exposureStep
          (fst (polls 5 k (exposure_entry target (world st), node st)))) = false) ->
  setExposureCallback fuel target st = Done (res, st') ->
  res = false.
Proof.
  intros Hready Hstep Hrun.
  rewrite (setExposureCallback_entry fuel target st Hready) in Hrun.
  change (exposure_entry target (world st))
    with (fst (exposure_entry target (world st), node st)) in Hrun at 2.
  change (node st)
    with (snd (exposure_entry target (world st), node st)) in Hrun at 1.
  destruct (setExposure_loop_inv _ _ _ _ _ Hrun) as (k & _ & Hw & Hn & Hend).
  destruct Hend as [(_ & -> & _)|[(_ & Hin & _ & _)|(_ & -> & _)]];
    try reflexivity.
  exfalso. unfold within_step in Hin. apply flt_abs_positive in Hin.
  rewrite Hw, Hstep in Hin. discriminate.
Qed.

(** X13. If the exposure read from the device never comes within one
    step of the target, with a live ROS runtime and a clock that
    advances at every poll, [setExposureCallback] answers failure at the
    first poll at which more than 5 s have passed since the start of the
    wait, logs the error once and has written to the device at most the
    one time before the loop. *)
Theorem X13_setExposure_times_out (target : Cxx.float) (st : St W) :
  isReady (world st) = true ->
  let s1 := (exposure_entry target (world st), node st) in
  let elapsed k := time_now (fst (polls 5 k s1)) - time_now (fst s1) in
  (forall k, ros_ok (fst (polls 5 k s1)) = true) ->
  (forall k, within_step target (fst (polls 5 k s1)) = false) ->
  (forall k, time_now (fst (polls 5 k s1)) < time_now (fst (polls 5 (S k) s1))) ->
  exists k,
    (forall j, (j < k)%nat -> elapsed j <= 5000000000) /\
    elapsed k > 5000000000 /\
    forall fuel, (k < fuel)%nat ->
      setExposureCallback fuel target st =
        Done (false,
              mkSt (fst (polls 5 k s1)) (snd (polls 5 k s1))
                   (trace st ++ exposure_writes target (world st) ++ [exposure_late])).
Proof.
  intros Hready s1 elapsed Hok Hfar Hclock.
  destruct (@first_exceed elapsed 5000000000) as (k & Hk & Hbefore).
  { intros k. unfold elapsed. specialize (Hclock k). lia. }
  exists k. split; [exact Hbefore|]. split; [exact Hk|].
  intros fuel Hfuel.
  rewrite (setExposureCallback_entry fuel target st Hready).
  replace fuel with (k + S (fuel - S k))%nat by lia.
  change (exposure_entry target (world st)) with (fst s1).
  change (node st) with (snd s1) at 1.
  rewrite setExposure_loop_polls.
  - rewrite setExposure_loop_expired.
    + cbn [world node trace]. rewrite <- app_assoc. reflexivity.
    + cbn [world node]. rewrite <- surjective_pairing.
      unfold exposure_expired. rewrite Hok, Hfar. cbn [negb andb].
      rewrite Z.gtb_ltb. apply Z.ltb_lt. unfold elapsed, seconds in *. lia.
  - intros j Hj. unfold exposure_pending. rewrite Hok, Hfar. cbn [negb andb].
    apply negb_true_iff. rewrite Z.gtb_ltb. apply Z.ltb_ge.
    specialize (Hbefore j Hj). unfold elapsed, seconds in *. lia.
Qed.

(** X14. If the exposure read right after the corrective write is
    already within one step of the target, [setExposureCallback]
    answers success without a single poll or sleep. *)
Theorem X14_setExposure_converges_at_once
    (fuel : nat) (target : Cxx.float) (st : St W) :
  isReady (world st) = true ->
  ros_ok (exposure_entry target (world st)) = true ->
  within_step target (exposure_entry target (world st)) = true ->
  setExposureCallback (S fuel) target st =
    Done (true,
          mkSt (exposure_entry target (world st)) (node st)
               (trace st ++ exposure_writes target (world st))).
Proof.
  intros Hready Hok Hin.
  rewrite (setExposureCallback_entry (S fuel) target st Hready).
  apply setExposure_loop_within; assumption.
Qed.

(** ** setBrightnessCallback *)

Lemma waitReady_loop_polls (k : nat) :
  forall fuel start (s : W * Node) tr,
  (forall j, (j < k)%nat -> ready_pending start (polls 2 j s) = true) ->
  waitReady_loop (k + fuel) start (mkSt (fst s) (snd s) tr) =
  waitReady_loop fuel start (mkSt (fst (polls 2 k s)) (snd (polls 2 k s)) tr).
Proof.
  induction k as [|k IH]; intros fuel start s tr Hp; [reflexivity|].
  cbn [Nat.add]. rewrite waitReady_loop_step. cbn [world node trace].
  rewrite <- surjective_pairing.
  pose proof (Hp 0%nat ltac:(lia)) as H0. cbn [polls] in H0.
  unfold ready_pending in H0. apply andb_true_iff in H0. destruct H0 as [Hu Ht].
  apply negb_true_iff in Ht. rewrite Hu, Ht.
  rewrite IH.
  - rewrite <- polls_shift. reflexivity.
  - intros j Hj. rewrite <- polls_shift. apply Hp. lia.
Qed.

Lemma waitReady_loop_polls_st (k fuel : nat) (start : Z) (st : St W) :
  (forall j, (j < k)%nat ->
     ready_pending start (polls 2 j (world st, node st)) = true) ->
  waitReady_loop (k + fuel) start st =
  waitReady_loop fuel start
    (mkSt (fst (polls 2 k (world st, node st)))
          (snd (polls 2 k (world st, node st))) (trace st)).
Proof.
  destruct st as [w n tr]. cbn [world node trace].
  apply (@waitReady_loop_polls k fuel start (w, n) tr).
Qed.

(** Every run of the readiness wait that returns is [k] pending polls,
    then either the wait is left or its 3 s have passed. *)
Lemma waitReady_loop_inv (fuel : nat) :
  forall start (s : W * Node) tr r st',
  waitReady_loop fuel start (mkSt (fst s) (snd s) tr) = Done (r, st') ->
  exists k,
    (forall j, (j < k)%nat -> ready_pending start (polls 2 j s) = true) /\
    world st' = fst (polls 2 k s) /\ node st' = snd (polls 2 k s) /\
    ((unready (polls 2 k s) = false /\ r = None /\ trace st' = tr) \/
     (ready_expired start (polls 2 k s) = true /\ r = Some false /\
      trace st' = tr ++ [ready_late])).
Proof.
  induction fuel as [|fuel IH]; intros start s tr r st' Hrun; [discriminate|].
  rewrite waitReady_loop_step in Hrun. cbn [world node trace] in Hrun.
  rewrite <- surjective_pairing in Hrun.
  destruct (unready s) eqn:Hu.
  - destruct (time_now (fst s) - start >? seconds 3) eqn:Ht.
    + inversion Hrun; subst. exists 0%nat. cbn [polls world node trace].
      split; [intros j Hj; lia|]. split; [reflexivity|]. split; [reflexivity|].
      right. unfold ready_expired. rewrite Hu, Ht. auto.
    + destruct (IH _ _ _ _ _ Hrun) as (k & Hpend & Hw & Hn & Hend).
      exists (S k). rewrite polls_shift. split; [|auto].
      intros [|j] Hj.
      * cbn [polls]. unfold ready_pending. rewrite Hu, Ht. reflexivity.
      * rewrite polls_shift. apply Hpend. lia.
  - inversion Hrun; subst. exists 0%nat. cbn [polls world node trace].
    split; [intros j Hj; lia|]. split; [reflexivity|]. split; [reflexivity|].
    left. auto.
Qed.

Lemma waitReady_unready (fuel : nat) (st : St W) :
  isReady (world st) = false ->
  waitReady fuel st = waitReady_loop fuel (time_now (world st)) st.
Proof. intros H. unfold waitReady. run. rewrite H. reflexivity. Qed.

Lemma setBrightnessCallback_wait_failed (fuel : nat) (target : Z) (st st0 : St W) :
  waitReady fuel st = Done (Some false, st0) ->
  setBrightnessCallback fuel target st = Done (false, st0).
Proof.
  intros H. unfold setBrightnessCallback, bind. rewrite H. reflexivity.
Qed.

(** X15. Called on a device that is not ready and does not become ready,
    with a live ROS runtime and a clock that advances at every poll,
    [setBrightnessCallback] answers failure at the first poll (two per
    second) at which more than 3 s have passed since the call. It logs
    the error, makes no device write, leaves the target and the liveness
    flag to what the polls made of them, and never measures the frame:
    the answer comes whatever the frame buffer holds, be it empty. *)
Theorem X15_setBrightness_never_ready (target : Z) (st : St W) :
  let s0 := (world st, node st) in
  let elapsed k := time_now (fst (polls 2 k s0)) - time_now (world st) in
  (forall k, ros_ok (fst (polls 2 k s0)) = true) ->
  (forall k, isReady (fst (polls 2 k s0)) = false) ->
  (forall k, time_now (fst (polls 2 k s0)) < time_now (fst (polls 2 (S k) s0))) ->
  exists k,
    (forall j, (j < k)%nat -> elapsed j <= 3000000000) /\
    elapsed k > 3000000000 /\
    forall fuel, (k < fuel)%nat ->
      setBrightnessCallback fuel target st =
        Done (false,
              mkSt (fst (polls 2 k s0)) (snd (polls 2 k s0))
                   (trace st ++ [ready_late])).
Proof.
  intros s0 elapsed Hok Hnot Hclock.
  destruct (@first_exceed elapsed 3000000000) as (k & Hk & Hbefore).
  { intros k. unfold elapsed. specialize (Hclock k). lia. }
  exists k. split; [exact Hbefore|]. split; [exact Hk|].
  intros fuel Hfuel.
  apply setBrightnessCallback_wait_failed.
  rewrite waitReady_unready by (apply (Hnot 0%nat)).
  replace fuel with (k + S (fuel - S k))%nat by lia.
  rewrite waitReady_loop_polls_st.
  - fold s0. rewrite waitReady_loop_step. cbn [world node trace].
    rewrite <- surjective_pairing. unfold unready. rewrite Hok, Hnot. cbn [negb andb].
    replace (time_now (fst (polls 2 k s0)) - time_now (world st) >? seconds 3) with true.
    + reflexivity.
    + symmetry. rewrite Z.gtb_ltb. apply Z.ltb_lt. unfold elapsed, seconds in *. lia.
  - intros j Hj. fold s0. unfold ready_pending, unready.
    rewrite Hok, Hnot. cbn [negb andb].
    apply negb_true_iff. rewrite Z.gtb_ltb. apply Z.ltb_ge.
    specialize (Hbefore j Hj). unfold elapsed, seconds in *. lia.
Qed.

(** X16. If the device is not ready at the call but the readiness wait
    is left at poll [k] (the device has become ready, or [ros::ok()] has
    turned false) before its 3 s have passed, [setBrightnessCallback]
    goes on from the world and the members of that poll exactly as a
    call on a ready device does from line 316 on, with nothing logged
    for the wait. *)
Theorem X16_setBrightness_after_wait (k : nat) (target : Z) (st : St W) :
  isReady (world st) = false ->
  let s0 := (world st, node st) in
  (forall j, (j < k)%nat -> ready_pending (time_now (world st)) (polls 2 j s0) = true) ->
  unready (polls 2 k s0) = false ->
  forall fuel, (k < fuel)%nat ->
    setBrightnessCallback fuel target st =
      setBrightness_ready fuel target
        (mkSt (fst (polls 2 k s0)) (snd (polls 2 k s0)) (trace st)).
Proof.
  intros Hnot s0 Hpend Hleft fuel Hfuel.
  apply setBrightnessCallback_after_wait.
  rewrite waitReady_unready by exact Hnot.
  replace fuel with (k + S (fuel - S k))%nat at 1 by lia.
  rewrite waitReady_loop_polls_st by exact Hpend.
  fold s0. rewrite waitReady_loop_step. cbn [world node trace].
  rewrite <- surjective_pairing, Hleft. reflexivity.
Qed.

Lemma waitReady_inv (fuel : nat) (st st0 : St W) (r : option bool) :
  waitReady fuel st = Done (r, st0) ->
  (r = None /\ trace st0 = trace st) \/
  (r = Some false /\ trace st0 = trace st ++ [ready_late]).
Proof.
  unfold waitReady. run. destruct (isReady (world st)); cbn [negb].
  - intros H. inversion H. left. auto.
  - destruct st as [w n tr]. cbn [world node trace]. intros H.
    apply (@waitReady_loop_inv fuel (time_now w) (w, n) tr r st0) in H.
    destruct H as (k & _ & _ & _ & [(_ & -> & Ht)|(_ & -> & Ht)]); auto.
Qed.

(** X17. In any run of [setBrightnessCallback] that returns, the device
    is written to at most once, and then with the requested target:
    the wait loops and the validation never write. *)
Theorem X17_setBrightness_writes_at_most_once
    (fuel : nat) (target : Z) (st st' : St W) (res : bool) :
  setBrightnessCallback fuel target st = Done (res, st') ->
  filter is_device_write (trace st') = filter is_device_write (trace st) \/
  filter is_device_write (trace st') =
    filter is_device_write (trace st) ++ [DeviceSetBrightness target].
Proof.
  intros Hrun.
  destruct (waitReady fuel st) as [[r st0]| |] eqn:Hwait;
    try (unfold setBrightnessCallback, bind in Hrun; rewrite Hwait in Hrun; discriminate).
  destruct (@waitReady_inv fuel st st0 r Hwait) as [(-> & Ht0)|(-> & Ht0)].
  2:{ rewrite (@setBrightnessCallback_wait_failed fuel target st st0 Hwait) in Hrun.
      inversion Hrun; subst. left. rewrite Ht0, filter_app. cbn. apply app_nil_r. }
  rewrite (@setBrightnessCallback_after_wait W R fuel target st st0 Hwait) in Hrun.
  destruct (first_measure (world st0, node st0)) as [cur| |] eqn:Hm.
  - destruct (Z.eq_dec cur target) as [->|Hne].
    + rewrite (@setBrightness_ready_equal W R fuel target st0 Hm) in Hrun.
      inversion Hrun; subst. left. cbn [trace]. rewrite Ht0, filter_app. cbn.
      apply app_nil_r.
    + rewrite (@setBrightness_ready_enters W R fuel target cur st0 Hm Hne) in Hrun.
      right.
      destruct (brightnessWait_loop _ _ _ _) as [[r s]| |] eqn:Hloop; try discriminate.
      destruct (@brightnessWait_inv W R fuel _ _ _ _ _ _ _ Hloop)
        as (k & _ & _ & [(_ & -> & ->)|(_ & -> & ->)]).
      * inversion Hrun; subst. cbn [trace]. rewrite Ht0, !filter_app. cbn.
        now rewrite app_nil_r.
      * destruct (@brightnessValidation_inv W R _ _ _ _ Hrun) as (m & _ & _ & ->).
        cbn [trace]. rewrite Ht0, filter_app. reflexivity.
  - exfalso. revert Hrun Hm.
    unfold setBrightness_ready, first_measure, calcCurrentBrightnessM. cbn [fst snd]. run.
    destruct (spinOnce (world st0) (node st0)) as [w1 n1].
    cbn [fst snd world node trace]. intros Hrun Hm. rewrite Hm in Hrun. discriminate.
  - exfalso. revert Hrun Hm.
    unfold setBrightness_ready, first_measure, calcCurrentBrightnessM. cbn [fst snd]. run.
    destruct (spinOnce (world st0) (node st0)) as [w1 n1].
    cbn [fst snd world node trace]. intros Hrun Hm. rewrite Hm in Hrun. discriminate.
Qed.

(** X18. If the frame buffer is empty when [setBrightnessCallback]
    measures it (the device is ready, or the readiness wait was left,
    but no grab has filled [img_raw_msg_.data]), the call does not
    answer: it ends in the failed assertion, or in a division by zero
    when assertions are compiled out. Readiness of the device does not
    guard the measurement. *)
Theorem X18_setBrightness_on_empty_buffer
    (fuel : nat) (target : Z) (st st0 : St W) :
  waitReady fuel st = Done (None, st0) ->
  data (img_raw_msg_ (snd (spinOnce (world st0) (node st0)))) = [] ->
  setBrightnessCallback fuel target st =
    Crash (if NDEBUG then DivisionByZero else AssertionFailed).
Proof.
  intros Hwait Hempty.
  rewrite (@setBrightnessCallback_after_wait W R fuel target st st0 Hwait).
  unfold setBrightness_ready, calcCurrentBrightnessM. run.
  destruct (spinOnce (world st0) (node st0)) as [w1 n1].
  cbn [fst snd world node trace] in *. rewrite Hempty.
  destruct (calcCurrentBrightness_empty NDEBUG) as [_ ->]. reflexivity.
Qed.

(** X19. On a populated frame buffer whose byte sum fits in an int,
    [brightnessValidation] accepts a target exactly when the truncated
    mean of the pixel bytes is within 2 of it, for every target that is
    an int above INT_MIN + 255; it changes nothing. *)
Theorem X19_brightnessValidation_band (target : Z) (st : St W) :
  data (img_raw_msg_ (node st)) <> [] ->
  pixel_sum (data (img_raw_msg_ (node st))) <= Cxx.INT_MAX ->
  Cxx.INT_MIN + 255 < target <= Cxx.INT_MAX ->
  exists res,
    brightnessValidation target st = Done (res, st) /\
    (res = true <->
     Z.abs (target - truncated_mean (data (img_raw_msg_ (node st)))) <= 2).
Proof.
  intros Hd Hs Ht.
  pose proof (truncated_mean_range Hd) as Hm.
  rewrite (@brightnessValidation_run W R target
             (truncated_mean (data (img_raw_msg_ (node st)))) st).
  - eexists. split; [reflexivity|]. apply Z.leb_le.
  - apply calcCurrentBrightness_truncates; assumption.
  - unfold Cxx.INT_MIN, Cxx.INT_MAX in *. lia.
Qed.

End MoreServices.

(** ** Start-up *)

Lemma SFltb_irrefl (x : spec_float) : SFltb x x = false.
Proof.
  unfold SFltb. destruct x as [[]|[]| |[] m e]; cbn; try reflexivity;
    rewrite Z.compare_refl, Pos.compare_cont_refl; reflexivity.
Qed.

Section MoreBoot.

Context {W : Type} {R : Ros W} {B : Startup W}.

(** The start-up steps log what they do after what was logged before. *)
Lemma initAndRegister_log (s : BootSt W) :
  exists new,
    blog (snd (initAndRegister s)) = blog s ++ new /\
    filter is_boot_shutdown new = [] /\
    filter is_advertised new =
      (if use_sequencer_ (params_ (session s)) then []
       else [Advertised "set_exposure_srv"; Advertised "set_brightness_srv"]) /\
    filter is_action_started new =
      (if fst (initAndRegister s) &&
          use_sequencer_ (params_ (session (snd (initAndRegister s))))
       then [ActionStarted] else []).
Proof.
  unfold initAndRegister.
  destruct (use_sequencer_ (params_ (session s))) eqn:Hseq; cbn [negb].
  - destruct (create _ _) as [made w2]. destruct made; cbn [negb].
    + cbn [bworld session blog with_camera params_].
      destruct (registerCameraConfiguration _ _) as [[registered p3] w3].
      destruct registered; cbn [negb].
      * cbn [session params_ with_params].
        destruct (use_sequencer_ p3) eqn:H3.
        -- exists [ActionStarted]. cbn. rewrite H3. auto.
        -- exists []. cbn. rewrite H3, app_nil_r. auto.
      * eexists. cbn. split; [reflexivity|]. auto.
    + eexists. cbn. split; [reflexivity|]. auto.
  - unfold boot_advertise at 1 2. unfold boot_log at 1 2. unfold boot_act at 1 2.
    cbn [bworld session blog].
    destruct (create _ _) as [made w2]. destruct made; cbn [negb].
    + cbn [bworld session blog with_camera params_].
      destruct (registerCameraConfiguration _ _) as [[registered p3] w3].
      destruct registered; cbn [negb].
      * cbn [session params_ with_params].
        destruct (use_sequencer_ p3) eqn:H3.
        -- exists [Advertised "set_exposure_srv"; Advertised "set_brightness_srv";
                   ActionStarted].
           cbn. rewrite H3, <- !app_assoc. auto.
        -- exists [Advertised "set_exposure_srv"; Advertised "set_brightness_srv"].
           cbn. rewrite H3, <- !app_assoc. auto.
      * eexists. cbn. rewrite <- !app_assoc. split; [reflexivity|]. auto.
    + eexists. cbn. rewrite <- !app_assoc. split; [reflexivity|]. auto.
Qed.

Lemma limit_frame_rate_log (s : BootSt W) :
  exists new,
    blog (limit_frame_rate s) = blog s ++ new /\
    filter is_boot_shutdown new = [] /\
    filter is_param_set new =
      (if SFltb (maxPossibleFramerate (bworld s))
                (desired_frame_rate_ (params_ (session s)))
       then [ParamSet "desired_framerate" (maxPossibleFramerate (bworld s))]
       else []).
Proof.
  unfold limit_frame_rate.
  destruct (SFltb _ _).
  - eexists. cbn. rewrite <- app_assoc. split; [reflexivity|]. auto.
  - destruct (SFeqb _ _).
    + eexists. cbn. split; [reflexivity|]. auto.
    + exists []. rewrite app_nil_r. auto.
Qed.

(** A session with a camera: [startGrabbing] returns, the camera having
    started or not. *)
Lemma startGrabbing_with_camera (s : BootSt W) :
  pylon_camera_ (session s) = true ->
  startGrabbing s =
    Booted
      (if fst (fst (camera_startGrabbing (params_ (session s)) (bworld s)))
       then
         (true,
          fill_messages
            (limit_frame_rate
               (mkBootSt (snd (camera_startGrabbing (params_ (session s)) (bworld s)))
                  (with_params
                     (snd (fst (camera_startGrabbing (params_ (session s)) (bworld s))))
                     (session s))
                  (blog s))))
       else
         (false,
          mkBootSt (snd (camera_startGrabbing (params_ (session s)) (bworld s)))
            (with_params
               (snd (fst (camera_startGrabbing (params_ (session s)) (bworld s))))
               (session s))
            (blog s ++ [Logged (ROS_ERROR "Error while start grabbing")]))).
Proof.
  intros Hcam. unfold startGrabbing. rewrite Hcam. cbn [negb].
  destruct (camera_startGrabbing _ _) as [[started p1] w1].
  destruct started; reflexivity.
Qed.

(** Without a camera [startGrabbing] does not return. *)
Lemma startGrabbing_without_camera (s : BootSt W) :
  pylon_camera_ (session s) = false -> startGrabbing s = NullCamera.
Proof. intros H. unfold startGrabbing. rewrite H. reflexivity. Qed.

Lemma startGrabbing_booted (s : BootSt W) r :
  startGrabbing s = Booted r -> pylon_camera_ (session s) = true.
Proof.
  destruct (pylon_camera_ (session s)) eqn:H; [reflexivity|].
  rewrite (startGrabbing_without_camera s H). discriminate.
Qed.

Lemma startGrabbing_log (s : BootSt W) r :
  startGrabbing s = Booted r ->
  exists new,
    blog (snd r) = blog s ++ new /\
    filter is_boot_shutdown new = [].
Proof.
  intros H. pose proof (startGrabbing_booted s H) as Hcam.
  rewrite (startGrabbing_with_camera s Hcam) in H.
  inversion H as [Hr]. clear H Hr.
  destruct (camera_startGrabbing _ _) as [[started p1] w1].
  destruct started; cbn [fst snd].
  - unfold fill_messages, boot_log. cbn [blog].
    match goal with
    | |- context [limit_frame_rate ?x] =>
        destruct (limit_frame_rate_log x) as (new & Hlog & Hsd & _)
    end.
    rewrite Hlog. cbn [blog]. eexists. rewrite <- app_assoc.
    split; [reflexivity|]. rewrite filter_app, Hsd. reflexivity.
  - eexists. cbn. split; [reflexivity|]. reflexivity.
Qed.

(** [initAndRegister] returns true only with a camera. *)
Lemma initAndRegister_camera (s : BootSt W) :
  fst (initAndRegister s) = true ->
  pylon_camera_ (session (snd (initAndRegister s))) = true.
Proof.
  unfold initAndRegister.
  destruct (create _ _) as [made w2]. destruct made; cbn [negb]; [|discriminate].
  destruct (registerCameraConfiguration _ _) as [[registered p3] w3].
  destruct registered; cbn [negb]; [|discriminate].
  cbn [session params_ with_params].
  destruct (use_sequencer_ p3); reflexivity.
Qed.

(** X20. [init] always returns: it reaches [startGrabbing] only with the
    camera that [initAndRegister] has created, never with a NULL
    pointer. It returns true exactly when both [initAndRegister] and
    then [startGrabbing] return true, and it requests the shutdown
    exactly once when it returns false and never when it returns true.
    When [initAndRegister] fails, [startGrabbing] is not attempted. *)
Theorem X20_init_shutdown (s : BootSt W) :
  let r1 := initAndRegister s in
  exists r,
    init s = Booted r /\
    (fst r1 = false -> r = (false, boot_shutdown (snd r1))) /\
    (fst r1 = true ->
     exists r2, startGrabbing (snd r1) = Booted r2 /\ fst r = fst r2) /\
    exists new,
      blog (snd r) = blog s ++ new /\
      filter is_boot_shutdown new =
        (if fst r then [] else [Logged Shutdown]).
Proof.
  intros r1. unfold init. fold r1.
  destruct (initAndRegister_log s) as (new1 & Hlog1 & Hsd1 & _).
  pose proof (initAndRegister_camera s) as Hcam.
  fold r1 in Hlog1, Hcam.
  destruct r1 as [[|] s1] eqn:E1; cbn [fst snd negb andb] in *.
  - specialize (Hcam eq_refl).
    pose proof (startGrabbing_with_camera s1 Hcam) as Hsg.
    destruct (startGrabbing s1) as [[started s2]|] eqn:E2; [|discriminate].
    destruct (startGrabbing_log s1 E2) as (new2 & Hlog2 & Hsd2).
    cbn [fst snd] in *.
    destruct started; cbn [negb].
    + eexists. split; [reflexivity|]. split; [discriminate|].
      split; [intros _; eexists; split; reflexivity|].
      exists (new1 ++ new2). cbn [fst snd]. rewrite Hlog2, Hlog1, <- app_assoc.
      split; [reflexivity|]. rewrite filter_app, Hsd1, Hsd2. reflexivity.
    + eexists. split; [reflexivity|]. split; [discriminate|].
      split; [intros _; eexists; split; reflexivity|].
      exists (new1 ++ new2 ++ [Logged Shutdown]).
      cbn [fst snd boot_shutdown boot_log blog boot_act].
      rewrite Hlog2, Hlog1, <- !app_assoc.
      split; [reflexivity|]. rewrite !filter_app, Hsd1, Hsd2. reflexivity.
  - eexists. split; [reflexivity|]. split; [reflexivity|].
    split; [discriminate|].
    exists (new1 ++ [Logged Shutdown]). cbn [fst snd boot_shutdown boot_log blog boot_act].
    rewrite Hlog1, <- app_assoc.
    split; [reflexivity|]. rewrite filter_app, Hsd1. reflexivity.
Qed.

(** The parameters after a successful [initAndRegister] are the ones the
    registration of the configuration returned. *)
Lemma initAndRegister_params (s : BootSt W) :
  fst (initAndRegister s) = false \/
  exists w,
    params_ (session (snd (initAndRegister s))) =
    snd (fst (registerCameraConfiguration (params_ (session s)) w)).
Proof.
  unfold initAndRegister.
  set (s1 := if negb (use_sequencer_ (params_ (session s)))
             then boot_advertise "set_brightness_srv" (boot_advertise "set_exposure_srv" s)
             else s).
  assert (Hp : params_ (session s1) = params_ (session s))
    by (unfold s1; destruct (negb (use_sequencer_ (params_ (session s)))); reflexivity).
  destruct (create _ _) as [made w2]. destruct made; cbn [negb]; [|left; reflexivity].
  cbn [bworld session blog with_camera params_]. rewrite Hp.
  destruct (registerCameraConfiguration (params_ (session s)) w2)
    as [[registered p3] w3] eqn:E.
  destruct registered; cbn [negb]; [|left; reflexivity].
  right. exists w2. rewrite E. cbn [session params_ with_params fst snd].
  destruct (use_sequencer_ p3); reflexivity.
Qed.

(** The camera pointer after [initAndRegister] is what
    [PylonCamera::create] returned in the world in which it was called:
    the one the two advertisements have left when the sequencer is off. *)
Lemma initAndRegister_creates_after (s : BootSt W) :
  pylon_camera_ (session (snd (initAndRegister s))) =
  fst (create (magazino_cam_id_ (params_ (session s)))
         (if use_sequencer_ (params_ (session s)) then bworld s
          else advertiseService "set_brightness_srv"
                 (advertiseService "set_exposure_srv" (bworld s)))).
Proof.
  unfold initAndRegister.
  destruct (use_sequencer_ (params_ (session s))); cbn [negb];
    cbn [boot_advertise boot_log boot_act bworld session blog params_];
    destruct (create _ _) as [made w2]; destruct made; cbn [negb fst snd];
      try reflexivity;
    cbn [bworld session blog with_camera params_];
    destruct (registerCameraConfiguration _ _) as [[registered p3] w3];
    destruct registered; cbn [negb fst snd]; try reflexivity;
    cbn [session params_ with_params];
    destruct (use_sequencer_ p3); reflexivity.
Qed.

(** X21. [initAndRegister] offers the exposure and brightness services,
    in that order, exactly when the sequencer is off, and it does so
    before it looks for the camera: [PylonCamera::create] is called in
    the world the two advertisements have left, and the services stay
    advertised when no camera is found. It starts the sequence action
    server exactly when the sequencer is on and both the camera
    creation and the registration of the configuration succeeded. With
    a registration that leaves the sequencer switch alone, the services
    and the action server are therefore never both offered. *)
Theorem X21_services_or_action (s : BootSt W) :
  (forall p w,
     use_sequencer_ (snd (fst (registerCameraConfiguration p w))) = use_sequencer_ p) ->
  let advertised :=
    if use_sequencer_ (params_ (session s)) then bworld s
    else advertiseService "set_brightness_srv"
           (advertiseService "set_exposure_srv" (bworld s)) in
  pylon_camera_ (session (snd (initAndRegister s))) =
    fst (create (magazino_cam_id_ (params_ (session s))) advertised) /\
  (fst (create (magazino_cam_id_ (params_ (session s))) advertised) = false ->
   fst (initAndRegister s) = false /\
   bworld (snd (initAndRegister s)) =
     snd (create (magazino_cam_id_ (params_ (session s))) advertised)) /\
  exists new,
    blog (snd (initAndRegister s)) = blog s ++ new /\
    filter is_advertised new =
      (if use_sequencer_ (params_ (session s)) then []
       else [Advertised "set_exposure_srv"; Advertised "set_brightness_srv"]) /\
    filter is_action_started new =
      (if fst (initAndRegister s) && use_sequencer_ (params_ (session s))
       then [ActionStarted] else []) /\
    (filter is_advertised new = [] \/ filter is_action_started new = []).
Proof.
  intros Hkeep advertised.
  split; [apply initAndRegister_creates_after|].
  split.
  { unfold advertised, initAndRegister.
    destruct (use_sequencer_ (params_ (session s))); cbn [negb];
      cbn [boot_advertise boot_log boot_act bworld session blog params_];
      destruct (create _ _) as [made w2]; cbn [fst snd]; intros ->;
      cbn [negb fst snd boot_log bworld]; split; reflexivity. }
  destruct (initAndRegister_log s) as (new & Hlog & _ & Hadv & Hact).
  assert (Hseq : fst (initAndRegister s) = true ->
                 use_sequencer_ (params_ (session (snd (initAndRegister s)))) =
                 use_sequencer_ (params_ (session s))).
  { destruct (initAndRegister_params s) as [Hfail|(w & Hsome)].
    - rewrite Hfail. discriminate.
    - intros _. rewrite Hsome. apply Hkeep. }
  exists new. split; [exact Hlog|]. split; [exact Hadv|].
  assert (Hact' : filter is_action_started new =
                  (if fst (initAndRegister s) && use_sequencer_ (params_ (session s))
                   then [ActionStarted] else [])).
  { rewrite Hact. destruct (fst (initAndRegister s)); [|reflexivity].
    rewrite Hseq by reflexivity. reflexivity. }
  split; [exact Hact'|].
  rewrite Hadv, Hact'.
  destruct (use_sequencer_ (params_ (session s))); [left; reflexivity|].
  right. rewrite andb_false_r. reflexivity.
Qed.

(** A successful [startGrabbing]: there was a camera, it started, and the
    state is the one after the frame-rate settings and the messages. *)
Lemma startGrabbing_true (s s' : BootSt W) :
  startGrabbing s = Booted (true, s') ->
  pylon_camera_ (session s) = true /\
  exists p1 w1,
    camera_startGrabbing (params_ (session s)) (bworld s) = (true, p1, w1) /\
    s' = fill_messages
           (limit_frame_rate (mkBootSt w1 (with_params p1 (session s)) (blog s))).
Proof.
  intros H. pose proof (startGrabbing_booted s H) as Hcam.
  split; [exact Hcam|].
  unfold startGrabbing in H. rewrite Hcam in H. cbn [negb] in H.
  destruct (camera_startGrabbing (params_ (session s)) (bworld s))
    as [[started p1] w1].
  destruct started; cbn [negb] in H; [|discriminate].
  exists p1, w1. split; [reflexivity|]. congruence.
Qed.

(** X22. [startGrabbing] returns true only on a session that has a
    camera. After it has, the desired frame rate is never above the
    maximal frame rate the device reported: a desired rate above the
    maximum, and the value -1, are both replaced by the maximum, and any
    other rate is kept. The parameter server is told the new rate only
    in the first of these cases: after a start with -1 it still holds
    what it held. *)
Theorem X22_frame_rate_limited (s s' : BootSt W) :
  startGrabbing s = Booted (true, s') ->
  let started := camera_startGrabbing (params_ (session s)) (bworld s) in
  let max := maxPossibleFramerate (snd started) in
  let desired := desired_frame_rate_ (snd (fst started)) in
  let desired' := desired_frame_rate_ (params_ (session s')) in
  pylon_camera_ (session s) = true /\
  SFltb max desired' = false /\
  (SFltb max desired = true \/ SFeqb desired (double_of_Z (-1)) = true ->
   desired' = max) /\
  (SFltb max desired = false -> SFeqb desired (double_of_Z (-1)) = false ->
   desired' = desired) /\
  exists new,
    blog s' = blog s ++ new /\
    filter is_param_set new =
      (if SFltb max desired then [ParamSet "desired_framerate" max] else []).
Proof.
  intros H. destruct (startGrabbing_true s H) as (Hcam & p1 & w1 & E & ->).
  rewrite E. cbn [fst snd]. split; [exact Hcam|].
  unfold fill_messages, boot_log. cbn [session params_ blog].
  match goal with
  | |- context [limit_frame_rate ?x] =>
      destruct (limit_frame_rate_log x) as (new & Hlog & _ & Hset);
      set (s1 := x) in *
  end.
  change (bworld s1) with w1 in Hset.
  change (desired_frame_rate_ (params_ (session s1)))
    with (desired_frame_rate_ p1) in Hset.
  change (blog s1) with (blog s) in Hlog.
  assert (Hrate :
    desired_frame_rate_ (params_ (session (limit_frame_rate s1))) =
    if SFltb (maxPossibleFramerate w1) (desired_frame_rate_ p1)
    then maxPossibleFramerate w1
    else if SFeqb (desired_frame_rate_ p1) (double_of_Z (-1))
         then maxPossibleFramerate w1
         else desired_frame_rate_ p1).
  { unfold limit_frame_rate, s1. cbn [bworld session params_ with_params].
    destruct (SFltb (maxPossibleFramerate w1) (desired_frame_rate_ p1)); [reflexivity|].
    destruct (SFeqb (desired_frame_rate_ p1) (double_of_Z (-1))); reflexivity. }
  rewrite Hrate.
  destruct (SFltb (maxPossibleFramerate w1) (desired_frame_rate_ p1)) eqn:Hlt.
  - split; [apply SFltb_irrefl|]. split; [reflexivity|]. split; [discriminate|].
    eexists. rewrite Hlog, <- app_assoc. split; [reflexivity|].
    rewrite filter_app, Hset, ?Hlt. cbn [filter is_param_set]. apply app_nil_r.
  - destruct (SFeqb (desired_frame_rate_ p1) (double_of_Z (-1))) eqn:Heq.
    + split; [apply SFltb_irrefl|]. split; [reflexivity|]. split; [discriminate|].
      eexists. rewrite Hlog, <- app_assoc. split; [reflexivity|].
      rewrite filter_app, Hset, ?Hlt. cbn [filter is_param_set]. apply app_nil_r.
    + split; [exact Hlt|]. split; [intros [H'|H']; discriminate|].
      split; [reflexivity|].
      eexists. rewrite Hlog, <- app_assoc. split; [reflexivity|].
      rewrite filter_app, Hset, ?Hlt. cbn [filter is_param_set]. apply app_nil_r.
Qed.

(** X23. After a [startGrabbing] that returned true (which it does only
    on a session with a camera) the image, the camera info and the
    exposure times share one header, the configured camera frame and the
    time read after the frame-rate settings; the camera info has the
    image's height and width; the image's step is its width times the
    pixel depth and the size handed to the camera is step times height,
    both in 32-bit unsigned arithmetic; the pixel data, the brightness
    target and the two switches are as they were. *)
Theorem X23_messages_after_start (s s' : BootSt W) :
  startGrabbing s = Booted (true, s') ->
  let x := session s' in
  let img := img_raw_msg_ (members x) in
  exists w,
    bworld s' = setImageSize (Cxx.uint32 (step img * height img)) w /\
    last (blog s') (ImageSizeSet 0) = ImageSizeSet (Cxx.uint32 (step img * height img)) /\
    stamp img = time_now w /\
    cam_info_stamp (members x) = stamp img /\
    exp_times_stamp (members x) = stamp img /\
    img_frame_id x = camera_frame_ (params_ x) /\
    info_frame_id (cam_info_msg_ x) = img_frame_id x /\
    exp_times_frame_id x = img_frame_id x /\
    height img = Cxx.uint32 (imageRows w) /\
    width img = Cxx.uint32 (imageCols w) /\
    step img = Cxx.uint32 (width img * imagePixelDepth w) /\
    info_height (cam_info_msg_ x) = height img /\
    info_width (cam_info_msg_ x) = width img /\
    data img = data (img_raw_msg_ (members (session s))) /\
    target_brightness_ (members x) = target_brightness_ (members (session s)) /\
    brightness_service_running_ (members x) =
      brightness_service_running_ (members (session s)) /\
    is_sleeping_ (members x) = is_sleeping_ (members (session s)) /\
    pylon_camera_ x = true.
Proof.
  intros H. destruct (startGrabbing_true s H) as (Hcam & p1 & w1 & E & ->).
  match goal with
  | |- context [limit_frame_rate ?x] => set (s1 := x)
  end.
  assert (Hm : members (session (limit_frame_rate s1)) = members (session s)).
  { unfold limit_frame_rate, s1. cbn [bworld session params_ with_params].
    destruct (SFltb _ _); [reflexivity|]. destruct (SFeqb _ _); reflexivity. }
  assert (Hc : pylon_camera_ (session (limit_frame_rate s1)) = true).
  { unfold limit_frame_rate, s1. cbn [bworld session params_ with_params].
    destruct (SFltb _ _); [exact Hcam|]. destruct (SFeqb _ _); exact Hcam. }
  exists (bworld (limit_frame_rate s1)).
  unfold fill_messages, boot_log.
  cbn [bworld session blog members img_raw_msg_ params_ cam_info_msg_ img_frame_id
       exp_times_frame_id stamp height width step data cam_info_stamp exp_times_stamp
       info_frame_id info_height info_width target_brightness_
       brightness_service_running_ is_sleeping_ pylon_camera_].
  rewrite Hm, last_last. repeat split. exact Hc.
Qed.

(** X24. On a session with a camera that does not start grabbing,
    [startGrabbing] logs the error and returns false; the members, the
    camera info and the two other headers are as they were, the frame
    rate is neither limited nor reported, and no image size is handed to
    the camera. On a session without a camera, where the source
    dereferences the NULL pointer, [startGrabbing] does not return at
    all. *)
Theorem X24_start_failed (s : BootSt W) :
  let started := camera_startGrabbing (params_ (session s)) (bworld s) in
  (pylon_camera_ (session s) = true ->
   fst (fst started) = false ->
   startGrabbing s =
     Booted
       (false,
        mkBootSt (snd started) (with_params (snd (fst started)) (session s))
                 (blog s ++ [Logged (ROS_ERROR "Error while start grabbing")]))) /\
  (pylon_camera_ (session s) = false -> startGrabbing s = NullCamera).
Proof.
  intros started. split; [|apply startGrabbing_without_camera].
  intros Hcam H. rewrite (startGrabbing_with_camera s Hcam). fold started.
  rewrite H. reflexivity.
Qed.

End MoreBoot.

(** ** Runs of the further properties on the scripted worlds *)

(* The statements below are closed runs; no argument of theirs is to be
   inferred. *)
Unset Implicit Arguments.

(** Polling leaves the rig's switches, exposure and exposure step alone. *)
Lemma rig_polls_keep (hz : Z) (k : nat) (w : Rig) (n : Node) :
  alive (fst (polls hz k (w, n))) = alive w /\
  ready (fst (polls hz k (w, n))) = ready w /\
  exposure (fst (polls hz k (w, n))) = exposure w /\
  exposure_step (fst (polls hz k (w, n))) = exposure_step w.
Proof.
  induction k as [|k (Ha & Hr & He & Hs)]; [auto|].
  cbn [polls]. destruct (polls hz k (w, n)) as [w' n'].
  cbn [fst snd] in *. unfold poll. cbn [spinOnce rate_sleep RigRos fst snd].
  unfold rig_spinOnce. destruct (rig_auto_running w'); cbn; auto.
Qed.

Lemma rig_poll2_advances (s : Rig * Node) :
  time_now (fst s) < time_now (fst (poll 2 s)).
Proof.
  rewrite rig_poll_clock. change (1000000000 / 2) with 500000000. lia.
Qed.

Lemma X3_witness :
  spin (start (rig [Some [x0a]] false None) (set_sleeping true (node0 0 [x63])))
    = Done (tt, start (rig [Some [x0a]] false None) (set_sleeping true (node0 0 [x63]))).
Proof.
  apply (@X3_spin_idle Rig RigRos). right. reflexivity.
Defined.

Lemma X4_witness :
  exists st',
    spin (start (rig [Some [x0a]] false None) (node0 0 [x63])) = Done (tt, st') /\
    data (img_raw_msg_ (node st')) = [x0a] /\
    trace st' = [Publish (mkImage "mono8" 1 1 1 [x0a] 10000000) 10000000].
Proof.
  destruct (@X4_spin_publishes_grabbed_frame Rig RigRos
              (start (rig [Some [x0a]] false None) (node0 0 [x63])))
    as (st' & Hrun & _ & Hdata & _ & _ & Htrace & _).
  - cbn. lia.
  - reflexivity.
  - reflexivity.
  - exists st'. split; [exact Hrun|]. split; [exact Hdata|].
    assert (H := Hrun). vm_compute in H. inversion H. reflexivity.
Defined.

Lemma X5_witness :
  exists st',
    spin (start (rig [None] true None) (node0 0 [x63])) = Done (tt, st') /\
    trace st' = [ROS_ERROR "Pylon Camera has been removed!"; Shutdown].
Proof.
  destruct (@X5_spin_failed_grab_publishes_nothing Rig RigRos
              (start (rig [None] true None) (node0 0 [x63])))
    as (st' & Hrun & _ & _ & _ & Htrace).
  - cbn. lia.
  - reflexivity.
  - reflexivity.
  - exists st'. split; [exact Hrun | exact Htrace].
Defined.

Lemma X7_witness :
  exists r st',
    sequenceRawActionExecuteCB
      (start (rig [Some [x0a]; Some [x14]] false None) (node0 2 [x63]))
      = Done (tt, st') /\
    trace st' = [SetSucceeded r] /\
    success r = true /\
    images r = [mkImage "mono8" 1 1 1 [x0a] 10000000;
                mkImage "mono8" 1 1 1 [x14] 20000000].
Proof.
  destruct (@X7_sequence_action_frames_in_order Rig RigRos
              (start (rig [Some [x0a]; Some [x14]] false None) (node0 2 [x63])))
    as (r & st' & Hrun & Htrace & Hok & _ & Himg & _).
  - reflexivity.
  - exists r, st'. repeat split; assumption.
Defined.

Lemma X8_witness :
  grabSequence (start (rig [Some [x0a]] false None) (node0 0 [x63]))
    = Done (true, start (rig [Some [x0a]] false None) (node0 0 [x63])) /\
  sequenceRawActionExecuteCB (start (rig [Some [x0a]] false None) (node0 0 [x63]))
    = Done (tt, mkSt (rig [Some [x0a]] false None) (node0 0 [x63])
                     [SetSucceeded (mkResult [] [] true)]).
Proof.
  apply (@X8_empty_sequence Rig RigRos
           (start (rig [Some [x0a]] false None) (node0 0 [x63]))).
  reflexivity.
Defined.

Lemma X10_witness :
  setExposureCallback 0 f100_5 (start cold_rig (node0 0 [x64]))
    = Done (false, start cold_rig (node0 0 [x64])).
Proof.
  apply (@X10_setExposure_not_ready Rig RigRos). reflexivity.
Defined.

Lemma X11_witness :
  within_step f100_5
    (rig_setExposure f100_5 (rig [] false None)) = true /\
  ros_ok (rig_setExposure f100_5 (rig [] false None)) = true.
Proof.
  destruct (@X11_setExposure_answer_sound Rig RigRos 1 f100_5
              (start (rig [] false None) (node0 0 [x64]))
              (mkSt (rig_setExposure f100_5 (rig [] false None)) (node0 0 [x64])
                    [DeviceSetExposure f100_5])
              true eq_refl eq_refl) as [Hyes _].
  destruct (Hyes eq_refl) as (Hok & Hin & _). split; assumption.
Defined.

Lemma stepless_polls (k : nat) (target : Cxx.float) :
  let s1 := (exposure_entry target (world (start stepless_rig (node0 0 [x64]))),
             node (start stepless_rig (node0 0 [x64]))) in
  ros_ok (fst (polls 5 k s1)) = true /\
  exposureStep (fst (polls 5 k s1)) = S754_zero false.
Proof.
  intros s1. destruct (rig_polls_keep 5 k (fst s1) (snd s1)) as (Ha & _ & _ & Hs).
  rewrite <- surjective_pairing in Ha, Hs.
  cbn [ros_ok exposureStep RigRos]. rewrite Ha, Hs.
  unfold s1, exposure_entry. cbn [world node start fst snd].
  destruct (Cxx.fne _ _); split; reflexivity.
Qed.

Lemma X12_witness :
  exists st',
    setExposureCallback 30 (Cxx.float_of_Z 100) (start stepless_rig (node0 0 [x64]))
      = Done (false, st').
Proof.
  destruct (setExposureCallback 30 (Cxx.float_of_Z 100)
              (start stepless_rig (node0 0 [x64]))) as [[res st']| |] eqn:Hrun.
  - exists st'. f_equal. f_equal.
    refine (@X12_setExposure_needs_positive_step Rig RigRos 30 (Cxx.float_of_Z 100)
              (start stepless_rig (node0 0 [x64])) st' res eq_refl _ Hrun).
    intros k. destruct (stepless_polls k (Cxx.float_of_Z 100)) as [_ Hs].
    rewrite Hs. reflexivity.
  - vm_compute in Hrun. discriminate.
  - vm_compute in Hrun. discriminate.
Defined.

Lemma X13_witness :
  exists k,
    forall fuel, (k < fuel)%nat ->
    exists st',
      setExposureCallback fuel (Cxx.float_of_Z 100)
        (start stepless_rig (node0 0 [x64])) = Done (false, st') /\
      trace st' = [exposure_late].
Proof.
  destruct (@X13_setExposure_times_out Rig RigRos (Cxx.float_of_Z 100)
              (start stepless_rig (node0 0 [x64])) eq_refl)
    as (k & _ & _ & Hrun).
  - intros k. apply (stepless_polls k (Cxx.float_of_Z 100)).
  - intros k. destruct (stepless_polls k (Cxx.float_of_Z 100)) as [_ Hs].
    destruct (within_step _ _) eqn:Hin; [|reflexivity].
    unfold within_step in Hin. apply flt_abs_positive in Hin.
    rewrite Hs in Hin. discriminate.
  - intros k. cbn [polls]. apply rig_poll_advances.
  - exists k. intros fuel Hfuel. eexists. split; [exact (Hrun fuel Hfuel)|].
    reflexivity.
Defined.

Lemma X14_witness :
  setExposureCallback 1 f100_5 (start (rig [] false None) (node0 0 [x64]))
    = Done (true,
            mkSt (rig_setExposure f100_5 (rig [] false None)) (node0 0 [x64])
                 [DeviceSetExposure f100_5]).
Proof.
  apply (@X14_setExposure_converges_at_once Rig RigRos 0 f100_5
           (start (rig [] false None) (node0 0 [x64]))); reflexivity.
Defined.

Lemma X15_witness :
  exists k,
    forall fuel, (k < fuel)%nat ->
    exists st',
      setBrightnessCallback fuel 101 (start cold_rig (node0 0 [])) = Done (false, st') /\
      trace st' = [ready_late].
Proof.
  destruct (@X15_setBrightness_never_ready Rig RigRos 101
              (start cold_rig (node0 0 [])))
    as (k & _ & _ & Hrun).
  - intros k. destruct (rig_polls_keep 2 k cold_rig (node0 0 [])) as (Ha & _).
    exact Ha.
  - intros k. destruct (rig_polls_keep 2 k cold_rig (node0 0 [])) as (_ & Hr & _).
    exact Hr.
  - intros k. cbn [polls]. apply rig_poll2_advances.
  - exists k. intros fuel Hfuel. eexists. split; [exact (Hrun fuel Hfuel)|].
    reflexivity.
Defined.

(** *** The claims on the services *)

(** The device reads 100.0, the step is 1.0 and the target is 100.5:
    within tolerance, not equal. The write is made once and has reached
    the device, which reads 100.5 when the call returns. *)
Lemma C7_witness :
  exists res st',
    setExposureCallback 1 f100_5 (start (rig [] false None) (node0 0 [x64]))
      = Done (res, st') /\
    filter is_device_write (trace st') = [DeviceSetExposure f100_5] /\
    exposure (world st') = f100_5 /\
    res = true.
Proof.
  destruct (setExposureCallback 1 f100_5 (start (rig [] false None) (node0 0 [x64])))
    as [[res st']| |] eqn:Hrun; [|vm_compute in Hrun; discriminate ..].
  destruct (@C7_exposure_write_iff_not_equal Rig RigRos f100_5
              (start (rig [] false None) (node0 0 [x64])) eq_refl)
    as [Hruns _].
  destruct (Hruns 1%nat res st' Hrun) as (Hwrites & k & _ & Hw & _ & Hres).
  assert (Hw' : world st' =
                fst (polls 5 k (rig_setExposure f100_5 (rig [] false None),
                                node0 0 [x64]))) by exact Hw.
  destruct (rig_polls_keep 5 k (rig_setExposure f100_5 (rig [] false None))
              (node0 0 [x64])) as (Ha & _ & He & Hs).
  rewrite <- Hw' in Ha, He, Hs.
  exists res, st'. split; [reflexivity|]. split; [exact Hwrites|].
  split; [exact He|].
  apply Hres. split; [exact Ha|].
  unfold within_step. cbn [currentExposure exposureStep RigRos].
  rewrite He, Hs. reflexivity.
Defined.

(** *** Runs on the world that warms up *)

Lemma warmup_poll_clock (hz : Z) (s : Warmup * Node) :
  time_now (fst (poll hz s)) = time_now (fst s) + 1000000000 / hz.
Proof.
  unfold poll. cbn [spinOnce rate_sleep time_now WarmupRos fst snd on_inner inner].
  unfold rig_spinOnce. destruct (rig_auto_running (inner (fst s))); reflexivity.
Qed.

Lemma warmup_poll_advances (s : Warmup * Node) :
  time_now (fst s) < time_now (fst (poll 5 s)).
Proof.
  rewrite warmup_poll_clock. change (1000000000 / 5) with 200000000. lia.
Qed.

(** A warming-up world whose auto function never finishes keeps the ROS
    runtime and the node as they are. *)
Lemma warmup_polls_idle (hz : Z) (k : nat) (w : Warmup) (n : Node) :
  auto_done_at (inner w) = None ->
  alive (inner (fst (polls hz k (w, n)))) = alive (inner w) /\
  auto_done_at (inner (fst (polls hz k (w, n)))) = None /\
  snd (polls hz k (w, n)) = n.
Proof.
  intros Hnone. induction k as [|k (Ha & Hd & Hn)]; [auto|].
  cbn [polls]. destruct (polls hz k (w, n)) as [w' n'].
  cbn [fst snd] in *. subst n'.
  unfold poll. cbn [spinOnce rate_sleep WarmupRos fst snd on_inner inner].
  unfold rig_spinOnce, rig_auto_running. rewrite Hd. cbn. auto.
Qed.

(** The camera becomes ready during the readiness wait; the liveness
    flag then never clears. The failure comes 5.2 s after the start of
    the convergence wait, 5.7 s after the call. *)
Lemma C8_witness :
  waitReady 2 warming_stuck = Done (None, warmed warming_stuck) /\
  exists k,
    forall fuel, (2 <= fuel)%nat -> (k < fuel)%nat ->
    exists st',
      setBrightnessCallback fuel 101 warming_stuck = Done (false, st') /\
      time_now (world st') - 500000000 > 5000000000 /\
      brightness_service_running_ (node st') = false.
Proof.
  split; [reflexivity|].
  assert (Hnone : auto_done_at
            (inner (fst (brightness_entry 101
                           (world (warmed warming_stuck),
                            node (warmed warming_stuck))))) = None)
    by reflexivity.
  destruct (@C8_brightness_deadline Warmup WarmupRos 2 101 100
              warming_stuck (warmed warming_stuck))
    as (_ & k & _ & Hk & Hrun).
  - reflexivity.
  - reflexivity.
  - lia.
  - intros k.
    destruct (warmup_polls_idle 5 k _
                (snd (brightness_entry 101
                        (world (warmed warming_stuck), node (warmed warming_stuck))))
                Hnone) as (Ha & _ & _).
    exact Ha.
  - intros k.
    destruct (warmup_polls_idle 5 k _
                (snd (brightness_entry 101
                        (world (warmed warming_stuck), node (warmed warming_stuck))))
                Hnone) as (_ & _ & Hn).
    exact (f_equal brightness_service_running_ Hn).
  - intros k. cbn [polls]. apply warmup_poll_advances.
  - exists k. intros fuel Hfuel0 Hfuel. eexists.
    split; [exact (Hrun fuel Hfuel0 Hfuel)|].
    split; [exact Hk | reflexivity].
Defined.

(** The same late-ready call with a target of 101 and of 206: the
    failure is reported 5.7 s and 15.7 s after the call. *)
Example late_ready_timeouts :
  (exists st',
     setBrightnessCallback 27 101 warming_stuck = Done (false, st') /\
     time_now (world st') = 5700000000) /\
  (exists st',
     setBrightnessCallback 77 206 warming_stuck = Done (false, st') /\
     time_now (world st') = 15700000000).
Proof.
  split; eexists; (split; [vm_compute; reflexivity | reflexivity]).
Qed.

(** The camera becomes ready during the readiness wait; the auto
    function reports that it is done 1.5 s after the call, so the flag
    clears at the sixth poll of the convergence wait and the validation
    runs. *)
Lemma C3_witness :
  waitReady 2 warming = Done (None, warmed warming) /\
  exists res st',
    setBrightnessCallback 7 101 warming = Done (res, st') /\
    (res = true <-> Z.abs (100 - 101) <= 2) /\
    time_now (world st') = 1700000000 /\
    filter is_device_write (trace st') = [DeviceSetBrightness 101].
Proof.
  split; [reflexivity|].
  destruct (@C3_validation_only_when_released Warmup WarmupRos 6 2 101 100
              warming (warmed warming))
    as [Hreleased _].
  - reflexivity.
  - reflexivity.
  - lia.
  - intros j Hj.
    do 6 (destruct j as [|j]; [vm_compute; reflexivity|]). lia.
  - destruct (Hreleased eq_refl 100 eq_refl) with (fuel := 7%nat)
      as (res & Hrun & Hres).
    + unfold Cxx.INT_MIN, Cxx.INT_MAX. lia.
    + lia.
    + lia.
    + exists res. eexists. split; [exact Hrun|].
      split; [exact Hres|]. split; reflexivity.
Defined.

(** The camera is not ready at the call and is ready one poll later:
    the readiness wait is left after that poll and the call goes on
    from there. *)
Lemma X16_witness :
  isReady (world warming) = false /\
  isReady (world (warmed warming)) = true /\
  setBrightnessCallback 7 101 warming = setBrightness_ready 7 101 (warmed warming).
Proof.
  split; [reflexivity|]. split; [reflexivity|].
  apply (@X16_setBrightness_after_wait Warmup WarmupRos 1 101 warming).
  - reflexivity.
  - intros j Hj. destruct j as [|j]; [reflexivity | lia].
  - reflexivity.
  - lia.
Defined.

Lemma X17_witness :
  exists st',
    setBrightnessCallback 27 101 stuck = Done (false, st') /\
    filter is_device_write (trace st') = [DeviceSetBrightness 101].
Proof.
  eexists. split; [vm_compute; reflexivity|].
  destruct (@X17_setBrightness_writes_at_most_once Rig RigRos 27 101 stuck _ false
              ltac:(vm_compute; reflexivity)) as [H|H].
  - vm_compute in H. discriminate.
  - exact H.
Defined.

Lemma X18_witness :
  setBrightnessCallback 1 100 (start (rig [] false None) (node0 0 []))
    = Crash AssertionFailed.
Proof.
  apply (@X18_setBrightness_on_empty_buffer Rig RigRos 1 100
           (start (rig [] false None) (node0 0 []))
           (start (rig [] false None) (node0 0 []))); reflexivity.
Defined.

Lemma X19_witness :
  exists res,
    brightnessValidation 101 (start (rig [] false None) (node0 0 [x64]))
      = Done (res, start (rig [] false None) (node0 0 [x64])) /\
    (res = true <-> Z.abs (101 - truncated_mean [x64]) <= 2).
Proof.
  apply (@X19_brightnessValidation_band Rig RigRos 101
           (start (rig [] false None) (node0 0 [x64]))).
  - discriminate.
  - vm_compute. discriminate.
  - unfold Cxx.INT_MIN, Cxx.INT_MAX. lia.
Defined.

(** No camera is attached and the sequencer is off: the two services are
    advertised, then the camera is looked for, and [initAndRegister]
    returns false with the services advertised. On the bench, with the
    sequencer on, the action server is started and no service is
    advertised. *)
Lemma X21_witness :
  (fst (initAndRegister (unplugged false)) = false /\
   pylon_camera_ (session (snd (initAndRegister (unplugged false)))) = false /\
   calls (bworld (snd (initAndRegister (unplugged false)))) =
     [CallAdvertise "set_exposure_srv"; CallAdvertise "set_brightness_srv";
      CallCreate "cam"]) /\
  exists new,
    blog (snd (initAndRegister (boot0 bench true (double_of_Z 10)))) = [] ++ new /\
    filter is_advertised new = [] /\
    filter is_action_started new = [ActionStarted] /\
    (filter is_advertised new = [] \/ filter is_action_started new = []).
Proof.
  split.
  - destruct (@X21_services_or_action Journal JournalStartup (unplugged false))
      as (Hcam & Hfail & _).
    + intros p w. reflexivity.
    + destruct (Hfail eq_refl) as [Hres Hworld].
      split; [exact Hres|]. split; [exact Hcam|].
      exact (f_equal calls Hworld).
  - destruct (@X21_services_or_action Bench BenchStartup
                (boot0 bench true (double_of_Z 10)))
      as (_ & _ & Hlog).
    + intros p w. reflexivity.
    + exact Hlog.
Defined.

(** On the bench, whose camera delivers at most 30 frames per second, a
    desired rate of 60 and of -1 both become 30; only the first is
    written to the parameter server. *)
Lemma X22_witness :
  exists s60 sm1,
    startGrabbing (boot1 bench false (double_of_Z 60)) = Booted (true, s60) /\
    startGrabbing (boot1 bench false (double_of_Z (-1))) = Booted (true, sm1) /\
    desired_frame_rate_ (params_ (session s60)) = double_of_Z 30 /\
    desired_frame_rate_ (params_ (session sm1)) = double_of_Z 30 /\
    (exists new, blog s60 = [] ++ new /\
       filter is_param_set new = [ParamSet "desired_framerate" (double_of_Z 30)]) /\
    (exists new, blog sm1 = [] ++ new /\ filter is_param_set new = []).
Proof.
  do 2 eexists. split; [reflexivity|]. split; [reflexivity|].
  destruct (@X22_frame_rate_limited Bench BenchRos BenchStartup
              (boot1 bench false (double_of_Z 60)) _ eq_refl)
    as (_ & _ & Hmax60 & _ & Hlog60).
  destruct (@X22_frame_rate_limited Bench BenchRos BenchStartup
              (boot1 bench false (double_of_Z (-1))) _ eq_refl)
    as (_ & _ & Hmax1 & _ & Hlog1).
  split; [apply Hmax60; left; reflexivity|].
  split; [apply Hmax1; right; reflexivity|].
  split; [exact Hlog60 | exact Hlog1].
Defined.

(** On the bench the three headers carry the time 7, and the camera info
    has the image's 480 rows and 640 columns. *)
Lemma X23_witness :
  exists s',
    startGrabbing (boot1 bench false (double_of_Z 10)) = Booted (true, s') /\
    (let x := session s' in
     let img := img_raw_msg_ (members x) in
     cam_info_stamp (members x) = stamp img /\
     exp_times_stamp (members x) = stamp img /\
     info_height (cam_info_msg_ x) = height img /\
     info_width (cam_info_msg_ x) = width img /\
     last (blog s') (ImageSizeSet 0) = ImageSizeSet (640 * 480) /\
     pylon_camera_ x = true) /\
    stamp (img_raw_msg_ (members (session s'))) = 7 /\
    height (img_raw_msg_ (members (session s'))) = 480 /\
    width (img_raw_msg_ (members (session s'))) = 640 /\
    step (img_raw_msg_ (members (session s'))) = 640.
Proof.
  eexists. split; [reflexivity|].
  destruct (@X23_messages_after_start Bench BenchRos BenchStartup
              (boot1 bench false (double_of_Z 10)) _ eq_refl)
    as (w & _ & Hsize & _ & Hci & Het & _ & _ & _ & _ & _ & _ & Hih & Hiw
        & _ & _ & _ & _ & Hcam).
  split.
  - split; [exact Hci|]. split; [exact Het|]. split; [exact Hih|].
    split; [exact Hiw|]. split; [exact Hsize | exact Hcam].
  - repeat split.
Defined.

(** With a camera that does not start, the error is logged and nothing
    else changes; with no camera at all the call does not return. *)
Lemma X24_witness :
  startGrabbing (boot1 stalled_bench false (double_of_Z 60))
    = Booted
        (false,
         mkBootSt stalled_bench (with_camera true (session0 false (double_of_Z 60)))
                  [Logged (ROS_ERROR "Error while start grabbing")]) /\
  startGrabbing (boot0 bench false (double_of_Z 60)) = NullCamera.
Proof.
  split.
  - apply (proj1 (@X24_start_failed Bench BenchRos BenchStartup
                    (boot1 stalled_bench false (double_of_Z 60)))); reflexivity.
  - apply (proj2 (@X24_start_failed Bench BenchRos BenchStartup
                    (boot0 bench false (double_of_Z 60)))); reflexivity.
Defined.
